(** * Aggregation and calculation engine of the tax-form population flow

    A shallow embedding of [src/tasks/mapping.py] (the aggregator
    [_aggregate_data_for_form], the field helpers [_get_field_value],
    [_get_numeric_value], [_set_field_value] and the calculation step
    [_perform_calculations]) and of the form ordering of
    [src/main_flow.py], together with the properties the specification
    states about them.

    Numbers.  Python [float] and [Decimal] values are both carried as exact
    rationals ([Q]); the two Python types are kept apart by the constructors
    of [num], because the interpreter refuses arithmetic that mixes them.
    Binary rounding of [float] and the 28-digit context of [Decimal] are not
    modelled: every amount the statements below evaluate is an integer or a
    short decimal. *)

From Stdlib Require Import Ascii String QArith Qminmax DecimalString Lqa.
From stdpp Require Import gmap strings list fin_maps sorting.

Open Scope string_scope.

(** ** Python values *)

(** The value of a form field: a JSON primitive or null, with the two
    numeric types a calculation can store. *)
Inductive pyval : Type :=
| PNone
| PBool (b : bool)
| PInt (z : Z)
| PFloat (q : Q)
| PStr (s : string).

(** A value as the extractor reports it for a document key.  A number with
    a fractional part reaches the aggregator as text ("1,234.56"). *)
Inductive rawval : Type :=
| RNone
| RBool (b : bool)
| RInt (z : Z)
| RStr (s : string).

(** Operands of Python arithmetic. *)
Inductive num : Type :=
| NInt (z : Z)
| NFloat (q : Q)
| NDec (q : Q).

Inductive pyexn : Type :=
| TypeError
| ValueError
| InvalidOperation
| AttributeError.

Inductive outcome (A : Type) : Type :=
| Ok (a : A)
| Raise (e : pyexn).
Arguments Ok {A} a.
Arguments Raise {A} e.

Definition num_value (n : num) : Q :=
  match n with
  | NInt z => inject_Z z
  | NFloat q => q
  | NDec q => q
  end.

(** Binary [+], [-] and [x]: [int] mixes with both other types, [float]
    and [Decimal] do not mix with each other. *)
Definition py_arith (fz : Z -> Z -> Z) (fq : Q -> Q -> Q) (x y : num) : outcome num :=
  match x, y with
  | NInt a, NInt b => Ok (NInt (fz a b))
  | NInt a, NFloat b => Ok (NFloat (fq (inject_Z a) b))
  | NFloat a, NInt b => Ok (NFloat (fq a (inject_Z b)))
  | NFloat a, NFloat b => Ok (NFloat (fq a b))
  | NInt a, NDec b => Ok (NDec (fq (inject_Z a) b))
  | NDec a, NInt b => Ok (NDec (fq a (inject_Z b)))
  | NDec a, NDec b => Ok (NDec (fq a b))
  | NFloat _, NDec _ => Raise TypeError
  | NDec _, NFloat _ => Raise TypeError
  end.

Definition py_add : num -> num -> outcome num := py_arith Z.add Qplus.
Definition py_sub : num -> num -> outcome num := py_arith Z.sub Qminus.
Definition py_mul : num -> num -> outcome num := py_arith Z.mul Qmult.

(** Comparisons are defined between all three numeric types. *)
Definition Qltb (a b : Q) : bool := negb (Qle_bool b a).
Definition py_gt (x y : num) : bool := Qltb (num_value y) (num_value x).
Definition py_lt (x y : num) : bool := Qltb (num_value x) (num_value y).
Definition py_le (x y : num) : bool := Qle_bool (num_value x) (num_value y).

(** [Decimal(x)] and [float(x)] of a number.  Floats and Decimals are
    carried as the rational numbers they stand for: the rounding of a float
    to binary64 and of a Decimal result to 28 digits is not part of the
    model.  On whole amounts ([reads_whole_amount]) no rounding takes place
    and the numbers of the model are the numbers of the code; elsewhere a
    computed amount is the code's up to that rounding. *)
Definition to_Decimal (x : num) : num := NDec (num_value x).
Definition to_float (x : num) : Q := num_value x.

(** [sum(xs)]: starts from the integer 0 and adds from the left. *)
Fixpoint py_sum_from (acc : num) (xs : list num) : outcome num :=
  match xs with
  | [] => Ok acc
  | x :: xs' =>
      match py_add acc x with
      | Ok acc' => py_sum_from acc' xs'
      | Raise e => Raise e
      end
  end.
Definition py_sum (xs : list num) : outcome num := py_sum_from (NInt 0) xs.

(** [d.quantize(Decimal('0.01'))] under the default rounding,
    ROUND_HALF_EVEN. *)
Definition quantize_cents (q : Q) : Q :=
  let n := (Qnum q * 100)%Z in
  let d := Zpos (Qden q) in
  let fl := (n / d)%Z in
  let r2 := (2 * (n mod d))%Z in
  let cents :=
    if (r2 <? d)%Z then fl
    else if (d <? r2)%Z then (fl + 1)%Z
    else if Z.even fl then fl else (fl + 1)%Z in
  cents # 100.

(** ** Strings *)

(** The white space [str.strip()] and [str.split()] remove, among the ASCII
    characters: tab to carriage return, the four separators 28 to 31 and the
    blank.  A text is a sequence of bytes here.  Python also counts some
    characters beyond ASCII as white space (U+0085, U+00A0 and others), so
    a statement that depends on the white space of a text is made for
    ASCII texts ([ascii_text]). *)
Definition is_space (c : ascii) : bool :=
  let n := nat_of_ascii c in
  (((9 <=? n) && (n <=? 13)) || ((28 <=? n) && (n <=? 32)))%nat.

Fixpoint drop_spaces (l : list ascii) : list ascii :=
  match l with
  | c :: l' => if is_space c then drop_spaces l' else l
  | [] => []
  end.

Definition strip_chars (l : list ascii) : list ascii :=
  rev (drop_spaces (rev (drop_spaces l))).

Definition strip (s : string) : string :=
  string_of_list_ascii (strip_chars (list_ascii_of_string s)).

(** [re.sub('[...]', '', s)] for a character class: the listed characters
    are deleted. *)
Definition remove_chars (cls : list ascii) (s : string) : string :=
  string_of_list_ascii
    (List.filter (fun c => negb (existsb (Ascii.eqb c) cls)) (list_ascii_of_string s)).

Definition startswith (p s : string) : bool := String.prefix p s.

Definition endswith_char (c : ascii) (s : string) : bool :=
  match rev (list_ascii_of_string s) with
  | c' :: _ => Ascii.eqb c c'
  | [] => false
  end.

(** [s[1:-1]] *)
Definition slice_1_m1 (s : string) : string :=
  String.substring 1 (String.length s - 2) s.

(** [str(z)] for an integer. *)
Definition str_of_Z (z : Z) : string := NilZero.string_of_int (Z.to_int z).

(** *** Reading a decimal literal

    [float(s)] and [Decimal(s)] on the literals that occur in amounts:
    surrounding white space, an optional sign, digits with an optional
    fraction.  Exponents, digit-group underscores, [inf] and [nan] are not
    part of the grammar read here: a text outside the grammar counts as
    unreadable, although Python reads some of them.  A statement about an
    amount read from a text is therefore made for texts of this grammar
    (see [reads_whole_amount]). *)
Definition digit_of (c : ascii) : option Z :=
  let n := nat_of_ascii c in
  if ((48 <=? n) && (n <=? 57))%nat then Some (Z.of_nat (n - 48)) else None.

Fixpoint digits_value (acc : Z) (l : list ascii) : option Z :=
  match l with
  | [] => Some acc
  | c :: l' =>
      match digit_of c with
      | Some d => digits_value (acc * 10 + d) l'
      | None => None
      end
  end.

Fixpoint pow10 (n : nat) : positive :=
  match n with
  | O => 1%positive
  | S n' => (10 * pow10 n')%positive
  end.

Fixpoint split_dot (l : list ascii) : list ascii * option (list ascii) :=
  match l with
  | [] => ([], None)
  | c :: l' =>
      if Ascii.eqb c "."%char then ([], Some l')
      else let '(ip, fp) := split_dot l' in (c :: ip, fp)
  end.

Definition parse_unsigned (l : list ascii) : option Q :=
  match split_dot l with
  | (ip, None) =>
      match ip with
      | [] => None
      | _ => z ← digits_value 0 ip; Some (inject_Z z)
      end
  | (ip, Some fp) =>
      match ip, fp with
      | [], [] => None
      | _, _ =>
          zi ← digits_value 0 ip;
          zf ← digits_value 0 fp;
          Some ((zi * Zpos (pow10 (length fp)) + zf) # pow10 (length fp))
      end
  end.

Definition parse_decimal (s : string) : option Q :=
  match strip_chars (list_ascii_of_string s) with
  | c :: l =>
      if Ascii.eqb c "-"%char then Qopp <$> parse_unsigned l
      else if Ascii.eqb c "+"%char then parse_unsigned l
      else parse_unsigned (c :: l)
  | [] => None
  end.

(** ** Populated form structures *)

(** One cell of a form: the template's other attributes (label, line
    number, section) are never read or written by the code below. *)
Record field_def : Type := mk_field {
  field_name : string;
  value : pyval;
  sources : option (list string)
}.

(** A structure maps page keys to pages; a page holds its ["fields"] list.
    The list keeps the order in which Python iterates over the dict. *)
Abbreviation structure := (list (string * list field_def)).

Definition blank (name : string) : field_def := mk_field name PNone None.

Fixpoint find_field (name : string) (fields : list field_def) : option field_def :=
  match fields with
  | [] => None
  | f :: fields' =>
      if String.eqb (field_name f) name then Some f else find_field name fields'
  end.

(** [_get_field_value]: the value of the first field with that name, in
    page order, [None] when there is none. *)
Fixpoint _get_field_value (s : structure) (name : string) : pyval :=
  match s with
  | [] => PNone
  | (_, fields) :: s' =>
      match find_field name fields with
      | Some f => value f
      | None => _get_field_value s' name
      end
  end.

(** [_get_numeric_value]: the field as a [float], [default] when it is
    missing or cannot be read as a number.  A [bool] is an [int].  An [int]
    beyond the range of a [float] makes [float(value)] raise OverflowError,
    which the reader does not catch; the statements consider amounts far
    below that range. *)
Definition _get_numeric_value_or (default : Q) (s : structure) (name : string) : Q :=
  match _get_field_value s name with
  | PNone => default
  | PStr v =>
      let cleaned_value := remove_chars ["$"%char; ","%char] v in
      let cleaned_value :=
        if startswith "(" cleaned_value && endswith_char ")" cleaned_value
        then "-" +:+ slice_1_m1 cleaned_value
        else cleaned_value in
      match parse_decimal cleaned_value with
      | Some q => q
      | None => default
      end
  | PInt z => inject_Z z
  | PFloat q => q
  | PBool b => if b then 1 else 0
  end.

Definition _get_numeric_value : structure -> string -> Q := _get_numeric_value_or 0.

Fixpoint set_in_fields (name : string) (v : pyval) (source : string)
    (fields : list field_def) : option (list field_def) :=
  match fields with
  | [] => None
  | f :: fields' =>
      if String.eqb (field_name f) name
      then Some (mk_field (field_name f) v (Some [source]) :: fields')
      else cons f <$> set_in_fields name v source fields'
  end.

(** [_set_field_value]: overwrites value and sources of the first field
    with that name; a name the structure does not have only logs a
    warning. *)
Fixpoint _set_field_value_from (s : structure) (name : string) (v : pyval)
    (source : string) : structure :=
  match s with
  | [] => []
  | (page_key, fields) :: s' =>
      match set_in_fields name v source fields with
      | Some fields' => (page_key, fields') :: s'
      | None => (page_key, fields) :: _set_field_value_from s' name v source
      end
  end.

Definition _set_field_value (s : structure) (name : string) (v : pyval) : structure :=
  _set_field_value_from s name v "Calculated".

Fixpoint has_field (s : structure) (name : string) : bool :=
  match s with
  | [] => false
  | (_, fields) :: s' =>
      match find_field name fields with
      | Some _ => true
      | None => has_field s' name
      end
  end.

(** ** The calculation monad

    A calculation mutates the structure it was given and may raise; what
    it wrote before raising stays written.  Each lookup in the dependency
    cache is recorded. *)
Record cstate : Type := mk_cstate {
  form : structure;
  cache_reads : list string
}.

Definition calc (A : Type) : Type := cstate -> cstate * outcome A.

#[export] Instance outcome_ret : MRet outcome := fun A a => Ok a.
#[export] Instance outcome_bind : MBind outcome := fun A B f m =>
  match m with
  | Ok a => f a
  | Raise e => Raise e
  end.

#[export] Instance calc_ret : MRet calc := fun A a st => (st, Ok a).
#[export] Instance calc_bind : MBind calc := fun A B f m st =>
  match m st with
  | (st', Ok a) => f a st'
  | (st', Raise e) => (st', Raise e)
  end.

Definition lift {A : Type} (o : outcome A) : calc A := fun st => (st, o).

Definition get_value (name : string) : calc pyval :=
  fun st => (st, Ok (_get_field_value (form st) name)).

Definition get_numeric (name : string) : calc Q :=
  fun st => (st, Ok (_get_numeric_value (form st) name)).

Definition set_field (name : string) (v : pyval) : calc unit :=
  fun st => (mk_cstate (_set_field_value (form st) name v) (cache_reads st), Ok tt).

(** [populated_structures_cache.get(key, {})] *)
Definition cache_get (cache : gmap string structure) (key : string) : calc structure :=
  fun st => (mk_cstate (form st) (cache_reads st ++ [key]), Ok (default [] (cache !! key))).

(** Truth value of a dict: non-empty. *)
Definition truthy (s : structure) : bool :=
  match s with
  | [] => false
  | _ => true
  end.

(** [d.get(k, default)] for a dict with string keys; a key that is not a
    string equals none of them. *)
Fixpoint assoc_get {A : Type} (d : list (string * A)) (k : string) : option A :=
  match d with
  | [] => None
  | (k', a) :: d' => if String.eqb k' k then Some a else assoc_get d' k
  end.

Definition dict_get {A : Type} (d : list (string * A)) (k : pyval) (dflt : A) : A :=
  match k with
  | PStr s => default dflt (assoc_get d s)
  | _ => dflt
  end.

Definition str_is (v : pyval) (s : string) : bool :=
  match v with
  | PStr s' => String.eqb s' s
  | _ => false
  end.

Definition py_quantize (x : num) : outcome num :=
  match x with
  | NDec q => Ok (NDec (quantize_cents q))
  | _ => Raise AttributeError
  end.

(** ** The calculation step, [_perform_calculations] *)

Definition std_deduction_map : list (string * Z) :=
  [("Single", 13850%Z); ("MarriedFilingJointly", 27700%Z);
   ("MarriedFilingSeparately", 13850%Z); ("HeadOfHousehold", 20800%Z);
   ("QualifyingWidow(er)", 27700%Z)].

(** *** Form 1040 *)

(** Line 12: standard deduction, or Schedule A's total when it is larger.
    Returns the filing status and the deduction (a [Decimal]). *)
Definition line12_deduction (cache : gmap string structure) : calc (pyval * num) :=
  sched_a_structure ← cache_get cache "Schedule A";
  let line17_itemized_total :=
    if truthy sched_a_structure
    then _get_numeric_value sched_a_structure "SchA_Line17_TotalItemizedDeductions"
    else 0%Q in
  filing_status ← get_value "FilingStatus";
  let line12_std_deduction := dict_get std_deduction_map filing_status 13850%Z in
  let use_itemized :=
    py_gt (to_Decimal (NFloat line17_itemized_total))
          (to_Decimal (NInt line12_std_deduction)) in
  let line12_final_deduction :=
    if use_itemized then to_Decimal (NFloat line17_itemized_total)
    else to_Decimal (NInt line12_std_deduction) in
  set_field "Line12_DeductionAmount" (PFloat (to_float line12_final_deduction));;
  set_field "Line12_UsedItemized" (PBool use_itemized);;
  mret (filing_status, line12_final_deduction).

(** Lines 14 and 15.  Returns the taxable income. *)
Definition line15_taxable_income (line12_final_deduction : num) : calc num :=
  line13 ← get_numeric "Line13_QualifiedBusinessIncomeDeduction";
  line14 ← lift (py_add line12_final_deduction (to_Decimal (NFloat line13)));
  set_field "Line14_TotalDeductions" (PFloat (to_float line14));;
  line11_agi ← get_numeric "Line11_AdjustedGrossIncome";
  line15_taxable_income ← lift (py_sub (to_Decimal (NFloat line11_agi)) line14);
  let line15_taxable_income :=
    if py_lt line15_taxable_income (NInt 0) then NDec 0 else line15_taxable_income in
  set_field "Line15_TaxableIncome" (PFloat (to_float line15_taxable_income));;
  mret line15_taxable_income.

(** One band of a bracket table: [base + (taxable_income - floor) * rate]. *)
Definition band (base : num) (taxable_income : num) (floor : Z) (rate : Q) : outcome num :=
  over ← py_sub taxable_income (NInt floor);
  part ← py_mul over (NDec rate);
  py_add base part.

(** The three branches of the bracket lookup, as the source writes them.
    The top band of the first and of the last branch starts from the
    [float] literal 16271.75. *)
Definition tax_single (taxable_income : num) : outcome num :=
  if py_le taxable_income (NInt 11000) then py_mul taxable_income (NDec (10 # 100))
  else if py_le taxable_income (NInt 44725) then band (NInt 1100) taxable_income 11000 (12 # 100)
  else if py_le taxable_income (NInt 95375) then band (NInt 5147) taxable_income 44725 (22 # 100)
  else band (NFloat (1627175 # 100)) taxable_income 95375 (24 # 100).

Definition tax_married_jointly (taxable_income : num) : outcome num :=
  if py_le taxable_income (NInt 22000) then py_mul taxable_income (NDec (10 # 100))
  else if py_le taxable_income (NInt 89450) then band (NInt 2200) taxable_income 22000 (12 # 100)
  else if py_le taxable_income (NInt 190750) then band (NInt 10294) taxable_income 89450 (22 # 100)
  else band (NInt 32580) taxable_income 190750 (24 # 100).

Definition tax_unhandled_status (taxable_income : num) : outcome num :=
  if py_le taxable_income (NInt 11000) then py_mul taxable_income (NDec (10 # 100))
  else if py_le taxable_income (NInt 44725) then band (NInt 1100) taxable_income 11000 (12 # 100)
  else if py_le taxable_income (NInt 95375) then band (NInt 5147) taxable_income 44725 (22 # 100)
  else band (NFloat (1627175 # 100)) taxable_income 95375 (24 # 100).

(** Line 16. *)
Definition line16_tax (filing_status : pyval) (taxable_income : num) : calc num :=
  line16_tax ← lift (
    if str_is filing_status "Single" then tax_single taxable_income
    else if str_is filing_status "MarriedFilingJointly" then tax_married_jointly taxable_income
    else tax_unhandled_status taxable_income);
  line16_tax ← lift (py_quantize line16_tax);
  set_field "Line16_Tax" (PFloat (to_float line16_tax));;
  mret line16_tax.

(** Lines 18, 22 and 24.  Returns the total tax. *)
Definition line24_total_tax (line16_tax : num) : calc num :=
  line17 ← get_numeric "Line17_AmountFromSchedule2";
  line18 ← lift (py_add line16_tax (to_Decimal (NFloat line17)));
  set_field "Line18_TotalTaxBeforeCredits" (PFloat (to_float line18));;
  line21 ← get_numeric "Line21_TotalNonrefundableCredits";
  line22 ← lift (py_sub line18 (to_Decimal (NFloat line21)));
  let line22 := if py_lt line22 (NInt 0) then NDec 0 else line22 in
  set_field "Line22_TaxAfterNonrefundableCredits" (PFloat (to_float line22));;
  line23 ← get_numeric "Line23_OtherTaxes";
  line24_total_tax ← lift (py_add line22 (to_Decimal (NFloat line23)));
  set_field "Line24_TotalTax" (PFloat (to_float line24_total_tax));;
  mret line24_total_tax.

(** Lines 34 and 37. *)
Definition line34_line37 (line24_total_tax : num) : calc unit :=
  line33_total_payments ← get_numeric "Line33_TotalPayments";
  line34_overpaid ← lift (
    if py_gt (to_Decimal (NFloat line33_total_payments)) line24_total_tax
    then py_sub (to_Decimal (NFloat line33_total_payments)) line24_total_tax
    else Ok (NDec 0));
  set_field "Line34_AmountOverpaid" (PFloat (to_float line34_overpaid));;
  line37_amount_owed ← lift (
    if py_gt line24_total_tax (to_Decimal (NFloat line33_total_payments))
    then py_sub line24_total_tax (to_Decimal (NFloat line33_total_payments))
    else Ok (NDec 0));
  set_field "Line37_AmountYouOwe" (PFloat (to_float line37_amount_owed)).

Definition calculate_1040 (cache : gmap string structure) : calc unit :=
  '(filing_status, line12_final_deduction) ← line12_deduction cache;
  taxable_income ← line15_taxable_income line12_final_deduction;
  line16 ← line16_tax filing_status taxable_income;
  line24 ← line24_total_tax line16;
  line34_line37 line24.

(** *** Schedule C *)

Definition SchedC_expense_lines : list string :=
  ["Line8_Advertising"; "Line9_CarTruckExpenses"; "Line10_CommissionsFees";
   "Line11_ContractLabor"; "Line12_Depletion"; "Line13_DepreciationSection179";
   "Line14_EmployeeBenefitPrograms"; "Line15_Insurance"; "Line16a_InterestMortgage";
   "Line16b_InterestOther"; "Line17_LegalProfessionalServices"; "Line18_OfficeExpense";
   "Line19_PensionProfitSharing"; "Line20a_RentLeaseVehicles"; "Line20b_RentLeaseOther";
   "Line21_RepairsMaintenance"; "Line22_Supplies"; "Line23_TaxesLicenses";
   "Line24a_Travel"; "Line24b_DeductibleMeals"; "Line25_Utilities"; "Line26_Wages";
   "Line27a_OtherExpenses"].

(** Reads the named lines one after the other, as [float]s. *)
Fixpoint get_numerics (names : list string) : calc (list num) :=
  match names with
  | [] => mret []
  | name :: names' =>
      x ← get_numeric name;
      xs ← get_numerics names';
      mret (NFloat x :: xs)
  end.

Definition calculate_SchedC : calc unit :=
  line1 ← get_numeric "Line1_GrossReceiptsSales";
  line2 ← get_numeric "Line2_ReturnsAllowances";
  line3 ← lift (py_sub (NFloat line1) (NFloat line2));
  set_field "Line3_GrossProfit" (PFloat (to_float line3));;
  line4 ← get_numeric "Line4_CostOfGoodsSold";
  line5 ← lift (py_sub line3 (NFloat line4));
  set_field "Line5_GrossIncome" (PFloat (to_float line5));;
  expenses ← get_numerics SchedC_expense_lines;
  line28 ← lift (py_sum expenses);
  set_field "Line28_TotalExpenses" (PFloat (to_float line28));;
  line31 ← lift (py_sub line5 line28);
  set_field "Line31_NetProfitLoss" (PFloat (to_float line31)).

(** *** Schedule E *)

Definition SchedE_expense_lines : list string :=
  ["SchedE_Line5_Advertising"; "SchedE_Line6_AutoTravel"; "SchedE_Line7_CleaningMaintenance";
   "SchedE_Line8_Commissions"; "SchedE_Line9_Insurance"; "SchedE_Line10_LegalProfessionalFees";
   "SchedE_Line11_ManagementFees"; "SchedE_Line12_MortgageInterestBanks";
   "SchedE_Line13_OtherInterest"; "SchedE_Line14_Repairs"; "SchedE_Line15_Supplies";
   "SchedE_Line16_Taxes"; "SchedE_Line17_Utilities"; "SchedE_Line18_DepreciationDepletion";
   "SchedE_Line19_OtherExpense"].

(** The body of the loop over the property columns; a column without a
    rent value is skipped. *)
Definition calculate_SchedE_column (total_income_loss_line26 : num) (col : string) : calc num :=
  let rent_field := "SchedE_Line3_RentsReceived" +:+ col in
  rent ← get_value rent_field;
  match rent with
  | PNone => mret total_income_loss_line26
  | _ =>
      expenses ← get_numerics ((fun name => name +:+ col) <$> SchedE_expense_lines);
      line20_total_expenses ← lift (py_sum expenses);
      set_field ("SchedE_Line20_TotalExpenses" +:+ col) (PFloat (to_float line20_total_expenses));;
      line3_rents ← get_numeric rent_field;
      line4_royalties ← get_numeric ("SchedE_Line4_RoyaltiesReceived" +:+ col);
      income ← lift (py_add (to_Decimal (NFloat line3_rents)) (to_Decimal (NFloat line4_royalties)));
      line21_income_loss ← lift (py_sub income (to_Decimal line20_total_expenses));
      set_field ("SchedE_Line21_IncomeLoss" +:+ col) (PFloat (to_float line21_income_loss));;
      let line22_deductible_loss :=
        if py_lt line21_income_loss (NInt 0) then line21_income_loss else NDec 0 in
      set_field ("SchedE_Line22_DeductibleLoss" +:+ col) (PFloat (to_float line22_deductible_loss));;
      lift (py_add total_income_loss_line26 line21_income_loss)
  end.

Fixpoint for_columns (total : num) (cols : list string) : calc num :=
  match cols with
  | [] => mret total
  | col :: cols' =>
      total' ← calculate_SchedE_column total col;
      for_columns total' cols'
  end.

Definition calculate_SchedE : calc unit :=
  total_income_loss_line26 ← for_columns (NDec 0) ["A"; "B"; "C"];
  set_field "SchedE_Line26_TotalIncomeLoss" (PFloat (to_float total_income_loss_line26)).

(** *** Schedule A *)

(** [max(a, b)] and [min(a, b)]: the first argument unless the second is
    strictly better. *)
Definition py_max (a b : num) : num := if py_gt b a then b else a.
Definition py_min (a b : num) : num := if py_lt b a then b else a.

Definition calculate_ScheduleA (cache : gmap string structure) : calc unit :=
  form1040_structure ← cache_get cache "1040";
  let agi := _get_numeric_value form1040_structure "Line11_AdjustedGrossIncome" in
  set_field "SchA_Line2_AGI" (PFloat agi);;
  line1_medical_raw ← get_numeric "SchA_Line1_MedicalDentalExpenses";
  line3_agi_limit_medical ← lift (py_mul (NFloat agi) (NDec (75 # 1000)));
  set_field "SchA_Line3_AGILimit" (PFloat (to_float line3_agi_limit_medical));;
  excess ← lift (py_sub (to_Decimal (NFloat line1_medical_raw)) line3_agi_limit_medical);
  let line4_deductible_medical := py_max (NDec 0) excess in
  set_field "SchA_Line4_DeductibleMedical" (PFloat (to_float line4_deductible_medical));;
  line5a_salt ← get_numeric "SchA_Line5a_StateLocalTaxes";
  line5b_real_estate ← get_numeric "SchA_Line5b_RealEstateTaxes";
  line5c_personal_prop ← get_numeric "SchA_Line5c_PersonalPropertyTaxes";
  line5d_total_salt_prop ← lift (py_sum
    [to_Decimal (NFloat line5a_salt); to_Decimal (NFloat line5b_real_estate);
     to_Decimal (NFloat line5c_personal_prop)]);
  set_field "SchA_Line5d_TotalSALT" (PFloat (to_float line5d_total_salt_prop));;
  let filing_status := _get_field_value form1040_structure "FilingStatus" in
  let salt_cap :=
    if str_is filing_status "MarriedFilingSeparately" then NDec 5000 else NDec 10000 in
  let line5e_capped_salt := py_min line5d_total_salt_prop salt_cap in
  set_field "SchA_Line5e_LimitedSALT" (PFloat (to_float line5e_capped_salt));;
  line6_other_taxes ← get_numeric "SchA_Line6_OtherTaxes";
  line7_total_taxes ← lift (py_add line5e_capped_salt (to_Decimal (NFloat line6_other_taxes)));
  set_field "SchA_Line7_TotalTaxes" (PFloat (to_float line7_total_taxes));;
  line8a ← get_numeric "SchA_Line8a_HomeMortgageInterest";
  let line8e_total_home_interest := to_Decimal (NFloat line8a) in
  set_field "SchA_Line8e_TotalHomeMortgageInterest" (PFloat (to_float line8e_total_home_interest));;
  let line9_investment_interest := NDec 0 in
  set_field "SchA_Line9_InvestmentInterest" (PFloat (to_float line9_investment_interest));;
  line10_total_interest ← lift (py_add line8e_total_home_interest line9_investment_interest);
  set_field "SchA_Line10_TotalInterest" (PFloat (to_float line10_total_interest));;
  line11_cash ← get_numeric "SchA_Line11_ContributionsCash";
  line12_noncash ← get_numeric "SchA_Line12_ContributionsOther";
  line13_carryover ← get_numeric "SchA_Line13_Carryover";
  line14_total_charity ← lift (py_sum
    [to_Decimal (NFloat line11_cash); to_Decimal (NFloat line12_noncash);
     to_Decimal (NFloat line13_carryover)]);
  set_field "SchA_Line14_TotalContributions" (PFloat (to_float line14_total_charity));;
  let line15_casualty_loss := NDec 0 in
  set_field "SchA_Line15_CasualtyTheftLoss" (PFloat (to_float line15_casualty_loss));;
  let line16_other_deductions := NDec 0 in
  set_field "SchA_Line16_OtherDeductions" (PFloat (to_float line16_other_deductions));;
  line17_total_itemized ← lift (py_sum
    [line4_deductible_medical; line7_total_taxes; line10_total_interest;
     line14_total_charity; line15_casualty_loss; line16_other_deductions]);
  set_field "SchA_Line17_TotalItemizedDeductions" (PFloat (to_float line17_total_itemized)).

(** *** The dispatch on the form type *)

Definition no_calculation : calc unit := mret tt.

Definition _perform_calculations_step (form_type : string)
    (populated_structures_cache : gmap string structure) : calc unit :=
  if String.eqb form_type "1040" then calculate_1040 populated_structures_cache
  else if String.eqb form_type "SchedC" then calculate_SchedC
  else if String.eqb form_type "1040-SE" then no_calculation
  else if String.eqb form_type "SchedE" then calculate_SchedE
  else if String.eqb form_type "Schedule 1" then no_calculation
  else if String.eqb form_type "Schedule 2" then no_calculation
  else if String.eqb form_type "Schedule 3" then no_calculation
  else if String.eqb form_type "Form 2441" then no_calculation
  else if String.eqb form_type "Form 8812" then no_calculation
  else if String.eqb form_type "Schedule A" then calculate_ScheduleA populated_structures_cache
  else no_calculation.

(** [_perform_calculations]: the structure after the step (mutated in
    place, also when the step raises), the cache keys it asked for, and
    whether it returned or raised.  The aggregated values it is passed are
    not used by any branch. *)
Definition _perform_calculations (populated_structure : structure) (form_type : string)
    (populated_structures_cache : gmap string structure)
    : structure * list string * outcome unit :=
  let '(st, r) :=
    _perform_calculations_step form_type populated_structures_cache
      (mk_cstate populated_structure []) in
  (form st, cache_reads st, r).

Definition page_of (names : list (string * pyval)) : list field_def :=
  (fun '(name, v) => mk_field name v None) <$> names.

(** ** The aggregator, [_aggregate_data_for_form] *)

(** What a document holds under a key: the dict [{"value": v, "source": s}]
    the driver builds, or anything else, which the aggregator skips. *)
Inductive doc_entry : Type :=
| Entry (value : rawval) (source : string)
| Malformed.

(** A document: its keys in the order Python iterates over them. *)
Abbreviation document := (list (string * doc_entry)).

Definition py_str (v : rawval) : string :=
  match v with
  | RNone => "None"
  | RBool b => if b then "True" else "False"
  | RInt z => str_of_Z z
  | RStr s => s
  end.

(** [_clean_string] *)
Definition _clean_string (v : rawval) : option string :=
  match v with
  | RNone => None
  | _ => Some (strip (py_str v))
  end.

(** [Decimal(s)] *)
Definition Decimal_of_str (s : string) : outcome num :=
  match parse_decimal s with
  | Some q => Ok (NDec q)
  | None => Raise InvalidOperation
  end.

(** The entry a summable key has in [final_aggregated] while the documents
    are read. *)
Record sum_info : Type := mk_sum {
  sum_value : Q;
  sum_sources : gset string
}.

Record agg_state : Type := mk_agg {
  final_aggregated : gmap string sum_info;
  all_values_for_modal_keys : gmap string (list (string * string));
  aggregated_lists : gmap string (list (string * string));
  proprietor_data : gmap string (list (string * string))
}.

(** An entry of the returned map: [{"value": v, "sources": [...]}], or the
    list of [{"value": v, "source": s}] items of a list key. *)
Inductive agg_result : Type :=
| AggDict (value : pyval) (sources : list string)
| AggList (items : list (string * string)).

Definition str_le (a b : string) : Prop := String.leb a b = true.
#[export] Instance str_le_dec : RelDecision str_le.
Proof. intros a b. unfold str_le. apply _. Defined.

(** [sorted(list(sources))] *)
Definition sorted_sources (X : gset string) : list string :=
  merge_sort str_le (elements X).

(** [Counter(values)]: counts in order of first occurrence. *)
Fixpoint counter_incr (c : list (string * nat)) (v : string) : list (string * nat) :=
  match c with
  | [] => [(v, 1)]
  | (k, n) :: c' =>
      if String.eqb k v then (k, S n) :: c' else (k, n) :: counter_incr c' v
  end.

Definition Counter (values : list string) : list (string * nat) :=
  fold_left counter_incr values [].

(** [max(items, key=count)]: the first item no later item beats. *)
Fixpoint max_by_count (best : string * nat) (items : list (string * nat)) : string * nat :=
  match items with
  | [] => best
  | item :: items' =>
      if (best.2 <? item.2)%nat then max_by_count item items' else max_by_count best items'
  end.

(** [c.most_common(1)] *)
Definition most_common_1 (c : list (string * nat)) : list (string * nat) :=
  match c with
  | [] => []
  | item :: items => [max_by_count item items]
  end.

(** The sources of the items that carry the chosen value. *)
Definition sources_reporting (v : string) (value_source_list : list (string * string))
    : gset string :=
  list_to_set ((filter (fun item => item.1 = v) value_source_list).*2).

(** Finalising a modal or a proprietor key; an empty list gives no entry. *)
Definition finalize_modal (value_source_list : list (string * string)) : option agg_result :=
  match value_source_list with
  | [] => None
  | _ =>
      match most_common_1 (Counter (value_source_list.*1)) with
      | (most_common_value, _) :: _ =>
          Some (AggDict (PStr most_common_value)
                        (sorted_sources (sources_reporting most_common_value value_source_list)))
      | [] => None
      end
  end.

Definition finalize_list (value_list : list (string * string)) : option agg_result :=
  match value_list with
  | [] => None
  | _ => Some (AggList value_list)
  end.

Definition finalize_sum (info : sum_info) : agg_result :=
  AggDict (PFloat (sum_value info)) (sorted_sources (sum_sources info)).

Section Aggregator.
Variable aggregated_data_by_type : gmap string (list document).
Variables summable_keys modal_keys list_keys proprietor_keys : gset string.

(** The summation branch.  [setdefault] installs the entry before the
    value is parsed; the [try] block updates it when parsing succeeds. *)
Definition sum_step (final : gmap string sum_info) (key cleaned_value source : string)
    : gmap string sum_info :=
  let agg_info := default (mk_sum 0 ∅) (final !! key) in
  let attempt : outcome sum_info :=
    numeric_value ← Decimal_of_str
      (remove_chars ["$"%char; ","%char; "("%char; ")"%char] cleaned_value);
    new_total ← py_add (to_Decimal (NFloat (sum_value agg_info))) numeric_value;
    Ok (mk_sum (to_float new_total) (sum_sources agg_info ∪ {[source]})) in
  match attempt with
  | Ok agg_info' => <[key := agg_info']> final
  | Raise _ => <[key := agg_info]> final
  end.

Definition append_to (m : gmap string (list (string * string))) (key : string)
    (item : string * string) : gmap string (list (string * string)) :=
  <[key := (default [] (m !! key) ++ [item])%list]> m.

(** One [key, value_source_dict] of a document. *)
Definition process_entry (is_proprietor_doc : bool) (st : agg_state)
    (kv : string * doc_entry) : agg_state :=
  let '(key, value_source_dict) := kv in
  match value_source_dict with
  | Malformed => st
  | Entry value source =>
      match _clean_string value with
      | None => st
      | Some cleaned_value =>
          if bool_decide (key ∈ summable_keys) then
            mk_agg (sum_step (final_aggregated st) key cleaned_value source)
                   (all_values_for_modal_keys st) (aggregated_lists st) (proprietor_data st)
          else if bool_decide (key ∈ modal_keys) then
            mk_agg (final_aggregated st)
                   (append_to (all_values_for_modal_keys st) key (cleaned_value, source))
                   (aggregated_lists st) (proprietor_data st)
          else if bool_decide (key ∈ list_keys) then
            mk_agg (final_aggregated st) (all_values_for_modal_keys st)
                   (append_to (aggregated_lists st) key (cleaned_value, source))
                   (proprietor_data st)
          else if bool_decide (key ∈ proprietor_keys) && is_proprietor_doc then
            mk_agg (final_aggregated st) (all_values_for_modal_keys st) (aggregated_lists st)
                   (append_to (proprietor_data st) key (cleaned_value, source))
          else st
      end
  end.

(** One document.  The document-level fallback source the code computes
    first is only the default of a lookup in a dict already known to have
    the key, so it never shows. *)
Definition process_document (st : agg_state) (document_data : document) : agg_state :=
  let is_proprietor_doc :=
    existsb (fun kv => bool_decide (kv.1 ∈ proprietor_keys)) document_data in
  fold_left (process_entry is_proprietor_doc) document_data st.

Definition process_doc_type (st : agg_state) (doc_type : string) : agg_state :=
  match aggregated_data_by_type !! doc_type with
  | Some documents => fold_left process_document documents st
  | None => st
  end.

Definition initial_state : agg_state :=
  mk_agg ∅ (gset_to_gmap [] modal_keys) (gset_to_gmap [] list_keys) ∅.

(** The four finalising loops assign in this order, so a later one wins
    on a shared key; the union is left-biased. *)
Definition finalize (st : agg_state) : gmap string agg_result :=
  omap finalize_list (aggregated_lists st)
  ∪ (omap finalize_modal (proprietor_data st)
  ∪ (omap finalize_modal (all_values_for_modal_keys st)
  ∪ (finalize_sum <$> final_aggregated st))).

Definition _aggregate_data_for_form (relevant_doc_types : list string)
    : gmap string agg_result :=
  finalize (fold_left process_doc_type relevant_doc_types initial_state).
End Aggregator.

Definition doc_of (source : string) (kvs : list (string * rawval)) : document :=
  (fun '(k, v) => (k, Entry v source)) <$> kvs.

(** ** The processing order of the driver, [src/main_flow.py] *)

Definition PROCESSING_ORDER : list string :=
  ["SchedC"; "SchedE"; "1040-SE"; "Schedule 1"; "Schedule 2"; "Form 2441";
   "Schedule 3"; "Form 8812"; "Schedule A"; "1040"].

(** The forms to process, in order: the determined targets that the table
    lists, in table order, then the targets it does not list. *)
Definition ordered_target_forms (target_forms : list string) : list string :=
  let ordered := filter (fun form => form ∈ target_forms) PROCESSING_ORDER in
  let additional_targets := filter (fun form => form ∉ ordered) target_forms in
  (ordered ++ additional_targets)%list.

(** [a] is processed before [b]: both are processed, and every turn of
    [a] comes before every turn of [b]. *)
Definition processed_before (a b : string) (order : list string) : Prop :=
  a ∈ order ∧ b ∈ order ∧
  ∀ i j : nat, order !! i = Some a → order !! j = Some b → i < j.

Fixpoint position (form : string) (order : list string) : option nat :=
  match order with
  | [] => None
  | form' :: order' =>
      if String.eqb form' form then Some 0 else S <$> position form order'
  end.

(** [a] comes before [b] in the fixed table. *)
Definition precedes (a b : string) : bool :=
  match position a PROCESSING_ORDER, position b PROCESSING_ORDER with
  | Some i, Some j => (i <? j)%nat
  | _, _ => false
  end.

(** The dependency-cache invariant for one calculation step: every entry
    it asked for belongs to a form that precedes it. *)
Definition reads_only_preceding (form_type : string) (reads : list string) : bool :=
  forallb (fun key => precedes key form_type) reads.

(** ** Vocabulary of the statements *)

Definition Qsum (l : list Q) : Q := fold_right Qplus 0%Q l.


Definition keeps {A : Type} (name : string) (m : calc A) : Prop :=
  ∀ st : cstate, _get_field_value (form (m st).1) name = _get_field_value (form st) name.

(** The standard deduction the step looks up for the structure's filing
    status. *)
Definition standard_deduction (s : structure) : Z :=
  dict_get std_deduction_map (_get_field_value s "FilingStatus") 13850%Z.

(** Schedule A's total as the step reads it from the cache. *)
Definition itemized_total (cache : gmap string structure) : Q :=
  let sched_a_structure := default [] (cache !! "Schedule A") in
  if truthy sched_a_structure
  then _get_numeric_value sched_a_structure "SchA_Line17_TotalItemizedDeductions"
  else 0%Q.

Definition used_itemized (s : structure) (cache : gmap string structure) : bool :=
  Qltb (inject_Z (standard_deduction s)) (itemized_total cache).

Definition deduction (s : structure) (cache : gmap string structure) : Q :=
  if used_itemized s cache then itemized_total cache else inject_Z (standard_deduction s).

(** The taxable income the step derives from a deduction. *)
Definition taxable_income_of (s : structure) (d : Q) : Q :=
  let line14 := (d + _get_numeric_value s "Line13_QualifiedBusinessIncomeDeduction")%Q in
  let line15 := (_get_numeric_value s "Line11_AdjustedGrossIncome" - line14)%Q in
  if Qltb line15 (inject_Z 0) then 0%Q else line15.

(** What the rest of the 1040 step does after Line 12. *)
Definition after_line12 (filing_status : pyval) (line12_final_deduction : num) : calc unit :=
  taxable_income ← line15_taxable_income line12_final_deduction;
  line16 ← line16_tax filing_status taxable_income;
  line24 ← line24_total_tax line16;
  line34_line37 line24.





(** A Form 1040 template with the fields the step reads and writes. *)
Definition form1040 (filing_status agi payments : pyval) : structure :=
  [("page_1", page_of
     [("FilingStatus", filing_status);
      ("Line11_AdjustedGrossIncome", agi);
      ("Line12_DeductionAmount", PNone);
      ("Line12_UsedItemized", PNone);
      ("Line13_QualifiedBusinessIncomeDeduction", PNone);
      ("Line14_TotalDeductions", PNone);
      ("Line15_TaxableIncome", PNone);
      ("Line16_Tax", PNone)]);
   ("page_2", page_of
     [("Line17_AmountFromSchedule2", PNone);
      ("Line18_TotalTaxBeforeCredits", PNone);
      ("Line21_TotalNonrefundableCredits", PNone);
      ("Line22_TaxAfterNonrefundableCredits", PNone);
      ("Line23_OtherTaxes", PNone);
      ("Line24_TotalTax", PNone);
      ("Line33_TotalPayments", payments);
      ("Line34_AmountOverpaid", PNone);
      ("Line37_AmountYouOwe", PNone)])].

(** A cached Schedule A whose Line 17 holds the given total. *)
Definition cache_with_schedule_a (total : pyval) : gmap string structure :=
  {[ "Schedule A" := [("page_1", page_of [("SchA_Line17_TotalItemizedDeductions", total)])] ]}.

Definition no_reads {A : Type} (m : calc A) : Prop :=
  ∀ st : cstate, cache_reads (m st).1 = cache_reads st.




(** The cleaned value and source a document entry contributes to [key]:
    nothing when it sits under another key, is not in the expected format,
    or holds a null value. *)
Definition entry_contribution (key : string) (kv : string * doc_entry)
    : list (string * string) :=
  match kv.2 with
  | Entry value source =>
      if String.eqb kv.1 key then
        match _clean_string value with
        | Some cleaned_value => [(cleaned_value, source)]
        | None => []
        end
      else []
  | Malformed => []
  end.

(** The contributions to [key] in document iteration order: the relevant
    document types in the order listed, the documents of a type in the
    order stored, the keys of a document in its own order. *)
Definition contributions (aggregated_data_by_type : gmap string (list document))
    (relevant_doc_types : list string) (key : string) : list (string * string) :=
  doc_type ← relevant_doc_types;
  document_data ← default [] (aggregated_data_by_type !! doc_type);
  kv ← document_data;
  entry_contribution key kv.

(** What the aggregation state holds for a modal [key]. *)
Definition modal_values (key : string) (st : agg_state) : list (string * string) :=
  default [] (all_values_for_modal_keys st !! key).

(** The other three tables hold for [key] what they held before. *)
Definition untouched (key : string) (st st' : agg_state) : Prop :=
  final_aggregated st' !! key = final_aggregated st !! key ∧
  aggregated_lists st' !! key = aggregated_lists st !! key ∧
  proprietor_data st' !! key = proprietor_data st !! key.


(** The amount the summation branch reads from a cleaned value. *)
Definition summed_amount (cleaned_value : string) : option Q :=
  parse_decimal (remove_chars ["$"%char; ","%char; "("%char; ")"%char] cleaned_value).

(** What the [try] block makes of an entry. *)
Definition sum_add (agg_info : sum_info) (item : string * string) : sum_info :=
  match summed_amount item.1 with
  | Some numeric_value =>
      mk_sum (sum_value agg_info + numeric_value) (sum_sources agg_info ∪ {[item.2]})
  | None => agg_info
  end.

Definition sum_zero : sum_info := mk_sum 0 ∅.

(** The entry of a summable key after the given contributions. *)
Definition sum_of (reported : list (string * string)) : option sum_info :=
  fold_left (fun acc item => Some (sum_add (default sum_zero acc) item)) reported None.

(** The entry of a summable key after further contributions. *)
Definition add_all (acc : option sum_info) (reported : list (string * string))
    : option sum_info :=
  fold_left (fun acc item => Some (sum_add (default sum_zero acc) item)) reported acc.

(** The other three tables hold for [key] what they held before. *)
Definition others_untouched (key : string) (st st' : agg_state) : Prop :=
  all_values_for_modal_keys st' !! key = all_values_for_modal_keys st !! key ∧
  aggregated_lists st' !! key = aggregated_lists st !! key ∧
  proprietor_data st' !! key = proprietor_data st !! key.

(** The amounts and sources the summation takes from a list of
    contributions: those whose value can be read as a number. *)
Definition summed_amounts (reported : list (string * string)) : list Q :=
  omap (fun item => summed_amount item.1) reported.

Definition summed_sources (reported : list (string * string)) : gset string :=
  list_to_set (filter (fun item => is_Some (summed_amount item.1)) reported).*2.

(** The precedence the driver keeps among the forms the claim names. *)
Definition processed_earlier : list (string * string) :=
  [("SchedC", "1040-SE"); ("SchedE", "1040-SE"); ("1040-SE", "Schedule 1");
   ("Schedule 1", "Schedule 2"); ("Schedule 1", "Schedule 3");
   ("Schedule 2", "Form 2441"); ("Form 2441", "Schedule 3");
   ("Schedule 2", "Form 8812"); ("Schedule 2", "Schedule A");
   ("Schedule 3", "Form 8812"); ("Schedule 3", "Schedule A");
   ("SchedC", "1040"); ("SchedE", "1040"); ("1040-SE", "1040"); ("Schedule 1", "1040");
   ("Schedule 2", "1040"); ("Schedule 3", "1040"); ("Form 2441", "1040");
   ("Form 8812", "1040"); ("Schedule A", "1040")].

(** ** Amounts in whole units *)

(** A whole number of at most twelve digits. *)
Definition whole_number (q : Q) : Prop :=
  (Qnum q mod Z.pos (Qden q) = 0)%Z ∧ (Z.abs (Qnum q) <= 10 ^ 12 * Z.pos (Qden q))%Z.

(** The field holds an amount in whole units: it has no value, or
    [_get_numeric_value] reads its value (the reading does not fall back
    to the default), and what it reads is a whole number.  The rationals of
    this model stand for Python's binary floats and 28-digit Decimals; on
    whole amounts of this size every reading, sum, difference and product
    with a bracket rate is exact in both, so the numbers of the model are
    the numbers of the code. *)
Definition reads_whole_amount (s : structure) (name : string) : Prop :=
  (_get_field_value s name = PNone
   ∨ _get_numeric_value_or 1 s name = _get_numeric_value_or 0 s name) ∧
  whole_number (_get_numeric_value s name).




(** The standard deduction by filing status, as a table of the claim. *)
Definition standard_deduction_of (filing_status : pyval) : Z :=
  if str_is filing_status "MarriedFilingJointly" || str_is filing_status "QualifyingWidow(er)"
  then 27700
  else if str_is filing_status "HeadOfHousehold" then 20800
  else 13850.

(** ** Vocabulary of the MODE property *)







(** The tax of a four-band table with band limits [b1 < b2 < b3]: each
    slice of the taxable income at its own rate. *)
Definition progressive (b1 b2 b3 : Q) (ti : Q) : Q :=
  ((10 # 100) * Qmin ti b1 + (12 # 100) * Qmax 0 (Qmin ti b2 - b1)
   + (22 # 100) * Qmax 0 (Qmin ti b3 - b2) + (24 # 100) * Qmax 0 (ti - b3))%Q.

(** Page keys and field names of a structure, in page and field order. *)
Definition field_names (s : structure) : list (string * list string) :=
  (fun page : string * list field_def => (page.1, field_name <$> page.2)) <$> s.

Definition same_layout {A : Type} (m : calc A) : Prop :=
  ∀ st : cstate, field_names (form (m st).1) = field_names (form st).

(** Schedule E, per property column. *)
Definition SchedE_rents_field (col : string) : string :=
  "SchedE_Line3_RentsReceived" +:+ col.

Definition SchedE_has_rents (s : structure) (col : string) : bool :=
  match _get_field_value s (SchedE_rents_field col) with
  | PNone => false
  | _ => true
  end.

Definition SchedE_expenses (s : structure) (col : string) : Q :=
  Qsum (_get_numeric_value s <$> ((fun name => name +:+ col) <$> SchedE_expense_lines)).

Definition SchedE_income_loss (s : structure) (col : string) : Q :=
  (_get_numeric_value s (SchedE_rents_field col)
   + _get_numeric_value s ("SchedE_Line4_RoyaltiesReceived" +:+ col)
   - SchedE_expenses s col)%Q.

Definition SchedE_column_lines (col : string) : list string :=
  ["SchedE_Line20_TotalExpenses" +:+ col; "SchedE_Line21_IncomeLoss" +:+ col;
   "SchedE_Line22_DeductibleLoss" +:+ col].

Definition SchedE_computed_lines : list string :=
  (SchedE_column_lines "A" ++ SchedE_column_lines "B" ++ SchedE_column_lines "C"
   ++ ["SchedE_Line26_TotalIncomeLoss"])%list.

(** A Schedule E template: column A rented out, column B with expenses
    but no rent entry, column C empty. *)
Definition SchedE_example : structure :=
  [("page_1", page_of
     [("SchedE_Line3_RentsReceivedA", PFloat 24000);
      ("SchedE_Line4_RoyaltiesReceivedA", PNone);
      ("SchedE_Line9_InsuranceA", PStr "1,200");
      ("SchedE_Line16_TaxesA", PFloat 3000);
      ("SchedE_Line19_OtherExpenseA", PFloat 22000);
      ("SchedE_Line20_TotalExpensesA", PNone);
      ("SchedE_Line21_IncomeLossA", PNone);
      ("SchedE_Line22_DeductibleLossA", PNone);
      ("SchedE_Line3_RentsReceivedB", PNone);
      ("SchedE_Line14_RepairsB", PFloat 500);
      ("SchedE_Line20_TotalExpensesB", PNone);
      ("SchedE_Line21_IncomeLossB", PNone);
      ("SchedE_Line22_DeductibleLossB", PNone);
      ("SchedE_Line3_RentsReceivedC", PNone);
      ("SchedE_Line20_TotalExpensesC", PNone);
      ("SchedE_Line21_IncomeLossC", PNone);
      ("SchedE_Line22_DeductibleLossC", PNone);
      ("SchedE_Line26_TotalIncomeLoss", PNone)])].

(** How the aggregator treats a key: the first of its four key sets that
    holds the key decides. *)
Inductive policy : Type :=
| Summed
| Modal
| Listed
| Proprietor
| Ignored.

Definition policy_of (summable_keys modal_keys list_keys proprietor_keys : gset string)
    (key : string) : policy :=
  if bool_decide (key ∈ summable_keys) then Summed
  else if bool_decide (key ∈ modal_keys) then Modal
  else if bool_decide (key ∈ list_keys) then Listed
  else if bool_decide (key ∈ proprietor_keys) then Proprietor
  else Ignored.

(** What the aggregation state holds for a list key and for a proprietor
    key. *)
Definition list_values (key : string) (st : agg_state) : list (string * string) :=
  default [] (aggregated_lists st !! key).

Definition proprietor_values (key : string) (st : agg_state) : list (string * string) :=
  default [] (proprietor_data st !! key).

(** The state holds for [key] what it held before, in the tables selected
    by the four flags. *)
Definition same_at (key : string) (in_final in_modal in_lists in_proprietor : bool)
    (st st' : agg_state) : Prop :=
  (in_final = true → final_aggregated st' !! key = final_aggregated st !! key) ∧
  (in_modal = true →
     all_values_for_modal_keys st' !! key = all_values_for_modal_keys st !! key) ∧
  (in_lists = true → aggregated_lists st' !! key = aggregated_lists st !! key) ∧
  (in_proprietor = true → proprietor_data st' !! key = proprietor_data st !! key).

(** Two W-2 documents and a receipt. *)
Definition employers_example : gmap string (list document) :=
  {[ "W-2" := [doc_of "w2_acme.pdf" [("EmployerName", RStr "Acme");
                                      ("EmployeeName", RStr "Ann Lee")];
              doc_of "w2_bolt.pdf" [("EmployerName", RStr " Bolt ");
                                      ("EmployerEIN", RNone)]];
     "Receipt" := [doc_of "receipt.pdf" [("EmployerName", RStr "Shop")]] ]}.

(** * The mapper and the rules of the task *)

(** ** Mapping aggregated keys to field names, [_map_aggregated_to_gemini_fields] *)

(** What a table holds under an aggregated key: one field name, or the
    list of field names the name split fills. *)
Inductive target : Type :=
| Field (name : string)
| Fields (names : list string).

Definition SOURCE_TO_TARGET_MAP_1040 : list (string * target) :=
  [("WagesTipsOtherComp", Field "Income_1z");
   ("FederalIncomeTaxWithheld", Field "Line25a_FormW2");
   ("EmployeeSSN", Field "YourSocialSecurityNumber");
   ("EmployeeName", Fields ["FirstNameInitial"; "LastName"]);
   ("EmployeeAddress", Field "HomeAddress");
   ("FilingStatus", Field "FilingStatus");
   ("Aggregated1099Withholding", Field "Line25b_Form1099");
   ("AggregatedOtherWithholding", Field "Line25c_OtherForms");
   ("EstimatedTaxPaymentsMade", Field "Line26_EstimatedTaxPayments");
   ("TotalTaxableInterest", Field "Line2b_TaxableInterest");
   ("TotalOrdinaryDividends", Field "Line3b_OrdinaryDividends");
   ("TotalTaxableIRADistributions", Field "Line4b_TaxableIRADistributions");
   ("TotalTaxablePensionsAnnuities", Field "Line5b_TaxablePensionsAnnuities");
   ("TotalTaxableSocialSecurity", Field "Line6b_TaxableSocialSecurity");
   ("TotalCapitalGainLoss", Field "Line7_CapitalGainLoss")].

Definition SOURCE_TO_TARGET_MAP_SchedC : list (string * target) :=
  [("BusinessName", Field "BusinessName");
   ("PrincipalBusinessActivity", Field "PrincipalBusiness");
   ("EmployerIdentificationNumber", Field "EIN");
   ("BusinessAddress", Field "BusinessAddress");
   ("BusinessCityStateZip", Field "BusinessCity");
   ("EmployeeName", Field "NameOfProprietor");
   ("EmployeeSSN", Field "SSN");
   ("Line1_GrossReceiptsSales_INPUT", Field "Line1_GrossReceiptsSales");
   ("ReturnsAllowances", Field "Line2_ReturnsAllowances");
   ("CostOfGoodsSold", Field "Line4_CostOfGoodsSold");
   ("AdvertisingExpense", Field "Line8_Advertising");
   ("CarTruckExpense", Field "Line9_CarTruckExpenses");
   ("CommissionsFeesExpense", Field "Line10_CommissionsFees");
   ("ContractLaborExpense", Field "Line11_ContractLabor");
   ("DepletionExpense", Field "Line12_Depletion");
   ("DepreciationExpense", Field "Line13_DepreciationSection179");
   ("EmployeeBenefitExpense", Field "Line14_EmployeeBenefitPrograms");
   ("InsuranceExpense", Field "Line15_Insurance");
   ("InterestMortgageExpense", Field "Line16a_InterestMortgage");
   ("InterestOtherExpense", Field "Line16b_InterestOther");
   ("LegalProfessionalExpense", Field "Line17_LegalProfessionalServices");
   ("OfficeExpense", Field "Line18_OfficeExpense");
   ("PensionProfitSharingExpense", Field "Line19_PensionProfitSharing");
   ("RentLeaseVehicleExpense", Field "Line20a_RentLeaseVehicles");
   ("RentLeaseOtherExpense", Field "Line20b_RentLeaseOther");
   ("RepairsMaintenanceExpense", Field "Line21_RepairsMaintenance");
   ("SuppliesExpense", Field "Line22_Supplies");
   ("TaxesLicensesExpense", Field "Line23_TaxesLicenses");
   ("TravelExpense", Field "Line24a_Travel");
   ("MealsExpense", Field "Line24b_DeductibleMeals");
   ("UtilitiesExpense", Field "Line25_Utilities");
   ("WagesExpense", Field "Line26_Wages")].

Definition SOURCE_TO_TARGET_MAP_SchedE : list (string * target) :=
  [("PropertyAddress", Field "SchedE_Line1a_AddressA");
   ("SchedE_TotalRents", Field "SchedE_Line3_RentsReceivedA");
   ("TotalOperatingExpenses", Field "SchedE_Line19_OtherExpenseA")].

Definition SOURCE_TO_TARGET_MAP_1040SE : list (string * target) :=
  [("EmployeeName", Field "SE_NameShownOnReturn");
   ("EmployeeSSN", Field "SE_SSN");
   ("NetIncomeLoss", Field "SE_Line2_NetProfitLoss");
   ("WagesTipsOtherComp", Field "SE_Line8a_TotalWages")].

Definition SOURCE_TO_TARGET_MAP_Schedule1 : list (string * target) :=
  [("AlimonyReceived", Field "Sch1_Line1_AlimonyReceived");
   ("UnemploymentCompensation", Field "Sch1_Line7_UnemploymentComp");
   ("AlaskaPermanentFundDividends", Field "Sch1_Line8b_AlaskaPermanentFund");
   ("OtherIncomeDescription", Field "Sch1_Line8z_OtherIncomeDescription");
   ("OtherIncomeAmount", Field "Sch1_Line8z_OtherIncomeAmount");
   ("EducatorExpenses", Field "Sch1_Line11_EducatorExpenses");
   ("StudentLoanInterestDeduction", Field "Sch1_Line21_StudentLoanInterest");
   ("AlimonyPaid", Field "Sch1_Line19a_AlimonyPaid");
   ("AlimonyRecipientSSN", Field "Sch1_Line19b_RecipientSSN")].

Definition SOURCE_TO_TARGET_MAP_Schedule2 : list (string * target) :=
  [("AlternativeMinimumTaxAmount", Field "Sch2_Line2_AMT");
   ("ExcessAdvancePTCRepaymentAmount", Field "Sch2_Line1a_ExcessAdvPTC")].

Definition SOURCE_TO_TARGET_MAP_Schedule3 : list (string * target) :=
  [("ForeignTaxCreditAmount", Field "Sch3_Line1_ForeignTaxCredit");
   ("ChildDependentCareCreditAmount", Field "Sch3_Line2_ChildCareCredit");
   ("EducationCreditsAmount", Field "Sch3_Line3_EducationCredits");
   ("RetirementSavingsContributionsCreditAmount", Field "Sch3_Line4_RetirementSavingsCredit");
   ("ResidentialCleanEnergyCreditAmount", Field "Sch3_Line5a_ResidentialCleanEnergy");
   ("EnergyEfficientHomeImprovementCreditAmount", Field "Sch3_Line5b_EnergyEfficientHomeImprovement");
   ("NetPremiumTaxCreditAmount", Field "Sch3_Line9_NetPremiumTaxCredit");
   ("AmountPaidWithExtension", Field "Sch3_Line10_AmountPaidWithExtension");
   ("ExcessSocialSecurityTaxWithheld", Field "Sch3_Line11_ExcessSSTaxWithheld");
   ("CreditForFuelTaxAmount", Field "Sch3_Line12_CreditForFuelTax");
   ("CreditFromForm2439", Field "Sch3_Line13a_CreditFromForm2439")].

Definition SOURCE_TO_TARGET_MAP_Form2441 : list (string * target) :=
  [("DependentCareProviderName", Field "F2441_Line1a_ProviderName");
   ("ProviderAddress", Field "F2441_Line1b_ProviderAddress");
   ("ProviderTaxID", Field "F2441_Line1c_ProviderTIN");
   ("ProviderAmountPaid", Field "F2441_Line1e_AmountPaid");
   ("DependentNameForCare", Field "F2441_Line2a_DependentName");
   ("DependentSSNForCare", Field "F2441_Line2b_DependentSSN");
   ("ChildCareExpenses", Field "F2441_Line2c_QualifiedExpenses");
   ("EmployerProvidedDependentCareBenefits", Field "F2441_Line12_EmployerBenefits")].

Definition SOURCE_TO_TARGET_MAP_Form8812 : list (string * target) := [].

Definition SOURCE_TO_TARGET_MAP_ScheduleA : list (string * target) :=
  [("MedicalExpenses", Field "SchA_Line1_MedicalDentalExpenses");
   ("StateAndLocalTaxes", Field "SchA_Line5a_StateLocalTaxes");
   ("RealEstateTaxes", Field "SchA_Line5b_RealEstateTaxes");
   ("PersonalPropertyTaxes", Field "SchA_Line5c_PersonalPropertyTaxes");
   ("HomeMortgageInterest", Field "SchA_Line8a_HomeMortgageInterest");
   ("InvestmentInterest", Field "SchA_Line9_InvestmentInterest");
   ("CharitableContributionsCash", Field "SchA_Line11_ContributionsCash");
   ("CharitableContributionsNonCash", Field "SchA_Line12_ContributionsOther")].

(** The table of the target form; a form without a table maps nothing. *)
Definition current_map (target_form : string) : list (string * target) :=
  if String.eqb target_form "1040" then SOURCE_TO_TARGET_MAP_1040
  else if String.eqb target_form "SchedC" then SOURCE_TO_TARGET_MAP_SchedC
  else if String.eqb target_form "1040-SE" then SOURCE_TO_TARGET_MAP_1040SE
  else if String.eqb target_form "SchedE" then SOURCE_TO_TARGET_MAP_SchedE
  else if String.eqb target_form "Schedule 1" then SOURCE_TO_TARGET_MAP_Schedule1
  else if String.eqb target_form "Schedule 2" then SOURCE_TO_TARGET_MAP_Schedule2
  else if String.eqb target_form "Schedule 3" then SOURCE_TO_TARGET_MAP_Schedule3
  else if String.eqb target_form "Form 2441" then SOURCE_TO_TARGET_MAP_Form2441
  else if String.eqb target_form "Form 8812" then SOURCE_TO_TARGET_MAP_Form8812
  else if String.eqb target_form "Schedule A" then SOURCE_TO_TARGET_MAP_ScheduleA
  else [].

(** The first word of a text that starts with no white space, and what
    follows it. *)
Fixpoint take_word (l : list ascii) : list ascii * list ascii :=
  match l with
  | [] => ([], [])
  | c :: l' =>
      if is_space c then ([], l)
      else let '(word, rest) := take_word l' in (c :: word, rest)
  end.

(** [s.split(maxsplit=1)]: the first word and, when something other than
    white space follows it, the remainder from its first character that is
    not white space to the end of the text. *)
Definition split_maxsplit_1 (s : string) : list string :=
  match drop_spaces (list_ascii_of_string s) with
  | [] => []
  | c :: l =>
      let '(word, rest) := take_word (c :: l) in
      match drop_spaces rest with
      | [] => [string_of_list_ascii word]
      | c' :: rest' => [string_of_list_ascii word; string_of_list_ascii (c' :: rest')]
      end
  end.

(** [s[0]] of a text that is not empty: its first byte, which is its
    first character when the text is ASCII. *)
Definition first_char (s : string) : string :=
  match s with
  | String c _ => String c EmptyString
  | EmptyString => EmptyString
  end.

Section Mapper.
(** The text [str] prints for a [float] is left open: it is only asked for
    when the employee name is a number. *)
Variable float_str : Q -> string.

(** [str(v)] *)
Definition str_of_pyval (v : pyval) : string :=
  match v with
  | PNone => "None"
  | PBool b => if b then "True" else "False"
  | PInt z => str_of_Z z
  | PFloat q => float_str q
  | PStr s => s
  end.

(** One turn of the loop over the aggregated items. *)
Definition map_item (target_form : string) (mapped_data : gmap string agg_result)
    (item : string * agg_result) : gmap string agg_result :=
  let '(agg_key, aggregated_value_with_source) := item in
  match assoc_get (current_map target_form) agg_key with
  | None => mapped_data
  | Some (Fields target_key_or_list) =>
      match aggregated_value_with_source with
      | AggDict value sources =>
          if String.eqb agg_key "EmployeeName" then
            let full_name := str_of_pyval value in
            let parts := split_maxsplit_1 full_name in
            let first_initial :=
              match parts with
              | word :: _ => strip (first_char word)
              | [] => ""
              end in
            let last_name :=
              match parts with
              | _ :: remainder :: _ => strip remainder
              | _ => ""
              end in
            let mapped_data :=
              if bool_decide ("FirstNameInitial" ∈ target_key_or_list)
              then <["FirstNameInitial" := AggDict (PStr first_initial) sources]> mapped_data
              else mapped_data in
            if bool_decide ("LastName" ∈ target_key_or_list)
            then <["LastName" := AggDict (PStr last_name) sources]> mapped_data
            else mapped_data
          else mapped_data
      | AggList _ => mapped_data
      end
  | Some (Field target_key) => <[target_key := aggregated_value_with_source]> mapped_data
  end.

(** [_map_aggregated_to_gemini_fields]: the aggregated data is the dict in
    iteration order. *)
Definition _map_aggregated_to_gemini_fields
    (aggregated_form_data : list (string * agg_result)) (target_form : string)
    : gmap string agg_result :=
  fold_left (map_item target_form) aggregated_form_data ∅.
End Mapper.

(** ** Aggregation rules per form, [create_populated_gemini_structure] *)

Record aggregation_rules : Type := mk_rules {
  rule_doc_types : list string;
  rule_summable_keys : gset string;
  rule_modal_keys : gset string;
  rule_list_keys : gset string
}.

Definition proprietor_keys : gset string := {["EmployeeName"; "EmployeeSSN"]}.

(** The document types and key sets the task passes to the aggregator.
    Schedule E is aggregated by a loop of its own, per property column, and
    has no rules here; a form the task does not know is aggregated over
    every document type of the input, in dict order, with empty key
    sets. *)
Definition form_rules (target_form : string) (doc_types_in_order : list string)
    : option aggregation_rules :=
  if String.eqb target_form "1040" then
    Some (mk_rules
      ["W-2"]
      (list_to_set
         ["WagesTipsOtherComp"; "FederalIncomeTaxWithheld"; "StateWagesTipsEtc";
          "StateIncomeTax"; "TotalTaxableInterest"; "TotalOrdinaryDividends";
          "TotalTaxableIRADistributions"; "TotalTaxablePensionsAnnuities";
          "TotalTaxableSocialSecurity"; "Aggregated1099Withholding";
          "AggregatedOtherWithholding"; "EstimatedTaxPaymentsMade"])
      (list_to_set
         ["EmployeeName"; "EmployeeSSN"; "TaxYear"; "EmployeeAddress"; "FilingStatus"])
      (list_to_set
         ["EmployerName"; "EmployerEIN"; "DependentName"; "DependentSSN";
          "DependentRelationship"]))
  else if String.eqb target_form "SchedC" then
    Some (mk_rules
      ["Profit and Loss Statement"; "1099-NEC"; "Invoice"; "Receipt"; "Insurance Policy"]
      (list_to_set
         ["TotalRevenue"; "NonemployeeCompensation"; "GrossReceiptsOrSales";
          "ReturnsAllowances"; "CostOfGoodsSold"; "AdvertisingExpense"; "CarTruckExpense";
          "CommissionsFeesExpense"; "ContractLaborExpense"; "DepletionExpense";
          "DepreciationExpense"; "EmployeeBenefitExpense"; "InsuranceExpense";
          "InterestMortgageExpense"; "InterestOtherExpense"; "LegalProfessionalExpense";
          "OfficeExpense"; "PensionProfitSharingExpense"; "RentLeaseVehicleExpense";
          "RentLeaseOtherExpense"; "RepairsMaintenanceExpense"; "SuppliesExpense";
          "TaxesLicensesExpense"; "TravelExpense"; "MealsExpense"; "UtilitiesExpense";
          "WagesExpense"; "OtherExpenseAmount"])
      (list_to_set
         ["BusinessName"; "PrincipalBusinessActivity"; "EIN"; "BusinessAddress";
          "BusinessCityStateZip"])
      (list_to_set
         ["OtherExpenseDescription"]))
  else if String.eqb target_form "1040-SE" then
    Some (mk_rules
      ["Profit and Loss Statement"; "W-2"]
      (list_to_set
         ["NetIncomeLoss"; "WagesTipsOtherComp"; "SocialSecurityWages"])
      (list_to_set
         ["EmployeeName"; "EmployeeSSN"])
      (∅))
  else if String.eqb target_form "SchedE" then None
  else if String.eqb target_form "Schedule 1" then
    Some (mk_rules
      ["Alimony Agreement"; "Unemployment Statement"; "Gambling Winnings Form";
       "Student Loan Interest Statement"; "HSA Contribution Form"; "IRA Contribution Form"]
      (list_to_set
         ["AlimonyReceived"; "TaxableRefundsCreditsOffsets"; "UnemploymentCompensation";
          "OtherIncomeAmount"; "EducatorExpenses"; "HSA_DeductionAmount";
          "MovingExpensesAmount"; "SE_HealthInsuranceDeductionAmount";
          "SEP_SIMPLE_QualifiedPlanDeduction"; "AlimonyPaid"; "IRA_DeductionAmount";
          "StudentLoanInterestDeduction"])
      (list_to_set
         ["AlimonyRecipientSSN"])
      (list_to_set
         ["OtherIncomeDescription"]))
  else if String.eqb target_form "Schedule 2" then
    Some (mk_rules
      ["Form 6251 Data"; "Form 8962 Data"]
      (list_to_set
         ["AlternativeMinimumTaxAmount"; "ExcessAdvancePTCRepaymentAmount"])
      (∅)
      (∅))
  else if String.eqb target_form "Schedule 3" then
    Some (mk_rules
      ["Form 4868"; "W-2"; "Form 1099"; "Form 2439"]
      (list_to_set
         ["AmountPaidWithExtension"; "ExcessSocialSecurityTaxWithheld"; "CreditFromForm2439"])
      (∅)
      (∅))
  else if String.eqb target_form "Form 2441" then
    Some (mk_rules
      ["Child Care Statement"; "W-2"]
      (list_to_set
         ["ChildCareExpenses"; "EmployerProvidedDependentCareBenefits"])
      (list_to_set
         ["DependentCareProviderName"; "ProviderAddress"; "ProviderTaxID"])
      (list_to_set
         ["DependentNameForCare"; "DependentSSNForCare"]))
  else if String.eqb target_form "Form 8812" then
    Some (mk_rules
      ["W-2"]
      (∅)
      (∅)
      (list_to_set
         ["DependentName"; "DependentSSN"; "DependentRelationship"]))
  else if String.eqb target_form "Schedule A" then
    Some (mk_rules
      ["Medical Bill"; "Property Tax Statement"; "Mortgage Interest Statement (1098)";
       "Charitable Donation Receipt"]
      (list_to_set
         ["MedicalExpenses"; "StateAndLocalTaxes"; "RealEstateTaxes";
          "PersonalPropertyTaxes"; "HomeMortgageInterest"; "InvestmentInterest";
          "CharitableContributionsCash"; "CharitableContributionsNonCash";
          "CasualtyTheftLossAmount"; "OtherItemizedDeductionAmount"])
      (∅)
      (list_to_set
         ["OtherItemizedDeductionDescription"]))
  else
    Some (mk_rules doc_types_in_order ∅ ∅ ∅).

(** Steps 2 and 3 of the task, aggregation and mapping.  For Schedule E
    the mapping step is not run and the mapped data stays empty.  The
    aggregated entries are handed over in the order of the model's map;
    the mapped data does not depend on that order. *)
Definition final_aggregated_values (aggregated_data_by_type : gmap string (list document))
    (doc_types_in_order : list string) (target_form : string)
    : option (gmap string agg_result) :=
  rules ← form_rules target_form doc_types_in_order;
  Some (_aggregate_data_for_form aggregated_data_by_type (rule_summable_keys rules)
          (rule_modal_keys rules) (rule_list_keys rules) proprietor_keys
          (rule_doc_types rules)).

Definition mapped_gemini_data (float_str : Q -> string)
    (aggregated_data_by_type : gmap string (list document))
    (doc_types_in_order : list string) (target_form : string) : gmap string agg_result :=
  match final_aggregated_values aggregated_data_by_type doc_types_in_order target_form with
  | Some final_aggregated_values =>
      _map_aggregated_to_gemini_fields float_str (map_to_list final_aggregated_values)
        target_form
  | None => ∅
  end.

(** ** Vocabulary of the mapper's properties *)

(** The field names an aggregated key can fill on a form. *)
Definition fills (target_form agg_key : string) : list string :=
  match assoc_get (current_map target_form) agg_key with
  | Some (Field target_key) => [target_key]
  | Some (Fields target_key_or_list) =>
      if String.eqb agg_key "EmployeeName"
      then filter (fun name => name ∈ target_key_or_list) ["FirstNameInitial"; "LastName"]
      else []
  | None => []
  end.

(** Every aggregated key of the form's table with every field name it can
    fill. *)
Definition all_fills (target_form : string) : list (string * string) :=
  agg_key ← (current_map target_form).*1;
  (fun name => (agg_key, name)) <$> fills target_form agg_key.



(** Aggregated entries of a W-2 with a three-part name, and of a W-2
    whose name is blank. *)
Definition w2_aggregated : list (string * agg_result) :=
  [("WagesTipsOtherComp", AggDict (PFloat 52000) ["w2.pdf"]);
   ("EmployeeName", AggDict (PStr " Ann  Marie Lee ") ["w2.pdf"]);
   ("EmployerName", AggList [("Acme", "w2.pdf")]);
   ("TaxYear", AggDict (PStr "2023") ["w2.pdf"])].


(** * The target forms, [determine_target_forms] of [src/utils/helpers.py] *)

(** The function is declared for a dict of lists of dicts, and the driver
    calls it with a flat dict of [{"value": v, "source": path}] entries, so
    what it iterates over and tests for membership is modelled as Python
    sees it: a dict, a list, a text, or a value that is neither iterable
    nor a container ([None], a number, a bool). *)
#[warnings="-register-all"] Inductive pyobj : Type :=
| ODict (items : list (string * pyobj))
| OList (items : list pyobj)
| OStr (s : string)
| OAtom.

(** [needle in hay] for two texts. *)
Fixpoint contains (needle hay : string) : bool :=
  String.prefix needle hay ||
  match hay with
  | EmptyString => false
  | String _ hay' => contains needle hay'
  end.

(** [for x in o]: the keys of a dict, the items of a list, the characters
    of a text; [None] stands for the [TypeError] of a value that is not
    iterable. *)
Definition py_iter (o : pyobj) : option (list pyobj) :=
  match o with
  | ODict items => Some (OStr <$> items.*1)
  | OList items => Some items
  | OStr s => Some ((fun c => OStr (String c EmptyString)) <$> list_ascii_of_string s)
  | OAtom => None
  end.

(** [key in o] for a text [key]. *)
Definition py_in (key : string) (o : pyobj) : option bool :=
  match o with
  | ODict items => Some (bool_decide (key ∈ items.*1))
  | OList items =>
      Some (existsb (fun item => match item with
                                 | OStr s => String.eqb s key
                                 | _ => false
                                 end) items)
  | OStr s => Some (contains key s)
  | OAtom => None
  end.

(** [any(key in doc_data for key in keys)].  The keys are a set literal;
    the order in which it is iterated does not show, since whether the
    test raises depends on [doc_data] alone. *)
Fixpoint any_in (keys : list string) (doc_data : pyobj) : option bool :=
  match keys with
  | [] => Some false
  | key :: keys' =>
      found ← py_in key doc_data;
      if found : bool then Some true else any_in keys' doc_data
  end.

(** The loop over the documents of one list, left at the first hint. *)
Fixpoint scan_docs (keys : list string) (doc_list : list pyobj) : option bool :=
  match doc_list with
  | [] => Some false
  | doc_data :: rest =>
      found ← any_in keys doc_data;
      if found : bool then Some true else scan_docs keys rest
  end.

(** The loop over the items of the data that looks into the given
    document types only (Schedules C and E). *)
Fixpoint scan_types (doc_types keys : list string) (items : list (string * pyobj))
    : option bool :=
  match items with
  | [] => Some false
  | (doc_type, doc_list) :: rest =>
      found ← (if bool_decide (doc_type ∈ doc_types)
               then doc_list ← py_iter doc_list; scan_docs keys doc_list
               else Some false);
      if found : bool then Some true else scan_types doc_types keys rest
  end.

(** The loop over all values of the data (the other forms). *)
Fixpoint scan_all (keys : list string) (items : list (string * pyobj)) : option bool :=
  match items with
  | [] => Some false
  | (_, doc_list) :: rest =>
      doc_list ← py_iter doc_list;
      found ← scan_docs keys doc_list;
      if found : bool then Some true else scan_all keys rest
  end.

Definition sched_c_indicator_keys : list string :=
  ["NonemployeeCompensation"; "GrossReceipts"; "TotalRevenue"; "NetIncomeLoss";
   "GrossProfit"; "ExpenseCategory"; "VendorName"; "CostOfGoodsSold";
   "TotalOperatingExpenses"; "BusinessName"; "PrincipalBusinessActivity"].

Definition sched_e_indicator_keys : list string :=
  ["RentalIncome"; "RoyaltyIncome"; "PartnershipIncome"; "SCorpIncome"; "PropertyAddress";
   "RentalExpenses"; "PropertyTaxes"; "MortgageInterest"].

Definition schedule_1_indicator_keys : list string :=
  ["AlimonyReceived"; "BusinessIncomeLoss"; "OtherGainsLosses";
   "RentalRealEstateIncomeLoss"; "FarmIncomeLoss"; "UnemploymentCompensation";
   "OtherIncomeGamblingWinnings"; "PrizesAwards"; "StockOptions";
   "AlaskaPermanentFundDividends"; "EducatorExpenses"; "CertainBusinessExpensesReservists";
   "HealthSavingsAccountDeduction"; "MovingExpensesMilitary"; "DeductibleSE Tax";
   "SE HealthInsuranceDeduction"; "SEP_SIMPLE_QualifiedPlans"; "AlimonyPaid";
   "IRADeduction"; "StudentLoanInterestDeduction"].

Definition schedule_2_indicator_keys : list string :=
  ["AlternativeMinimumTaxAmount"; "ExcessAdvancePTCRepaymentAmount";
   "UnreportedSocialSecurityMedicareTax"; "AdditionalTaxOnIRAs";
   "HouseholdEmploymentTaxesAmount"; "AdditionalMedicareTaxAmount";
   "NetInvestmentIncomeTaxAmount"; "FirstTimeHomebuyerCreditRepayment"].

Definition schedule_3_indicator_keys : list string :=
  ["ForeignTaxCreditAmount"; "ChildCareExpenses"; "EducationCreditsAmount";
   "RetirementSavingsContributionsCreditAmount"; "ResidentialEnergyCreditsAmount";
   "NetPremiumTaxCreditAmount"; "AmountPaidWithExtension";
   "ExcessSocialSecurityTaxWithheld"].

Definition form_2441_indicator_keys : list string :=
  ["ChildCareExpenses"; "DependentCareProviderName"; "ProviderTaxID";
   "DependentNameForCare"; "DependentSSNForCare"; "EmployerProvidedDependentCareBenefits"].

Definition schedule_a_indicator_keys : list string :=
  ["MedicalExpenses"; "StateAndLocalTaxes"; "SALT"; "RealEstateTaxes";
   "PersonalPropertyTaxes"; "HomeMortgageInterest"; "InvestmentInterest";
   "CharitableContributionsCash"; "CharitableContributionsNonCash"].

Section TargetForms.
(** [needle in str(data)], the fallback test for dependents, is left
    open: it depends on how Python prints every value of the data. *)
Variable str_contains : list (string * pyobj) -> string -> bool.

Definition has_dependents (aggregated_data_by_type : list (string * pyobj)) : bool :=
  match assoc_get aggregated_data_by_type "Dependents" with
  | Some (OList (_ :: _)) => true
  | _ =>
      str_contains aggregated_data_by_type "DependentName"
      || str_contains aggregated_data_by_type "DependentSSN"
  end.

(** [determine_target_forms]; [None] when a loop raises. *)
Definition determine_target_forms (aggregated_data_by_type : list (string * pyobj))
    : option (list string) :=
  let present doc_type := bool_decide (doc_type ∈ aggregated_data_by_type.*1) in
  let targets : gset string := {["1040"]} in
  has_sched_c_hints ←
    (if present "Profit and Loss Statement" || present "Invoice" || present "Receipt"
        || present "1099-NEC"
     then scan_types ["Profit and Loss Statement"; "Invoice"; "Receipt"; "1099-NEC"]
            sched_c_indicator_keys aggregated_data_by_type
     else Some false);
  let targets :=
    if has_sched_c_hints : bool then targets ∪ {["SchedC"]} ∪ {["1040-SE"]} else targets in
  has_sched_e_hints ←
    (if present "Cash Flow Statement" || present "Profit and Loss Statement"
     then scan_types ["Cash Flow Statement"; "Profit and Loss Statement"]
            sched_e_indicator_keys aggregated_data_by_type
     else Some false);
  let targets := if has_sched_e_hints : bool then targets ∪ {["SchedE"]} else targets in
  has_schedule_1_hints ← scan_all schedule_1_indicator_keys aggregated_data_by_type;
  let has_schedule_1_hints :=
    if negb has_schedule_1_hints
       && existsb (fun f => bool_decide (f ∈ targets)) ["SchedC"; "SchedE"; "1040-SE"]
    then true else has_schedule_1_hints in
  let targets := if has_schedule_1_hints then targets ∪ {["Schedule 1"]} else targets in
  has_schedule_2_hints ← scan_all schedule_2_indicator_keys aggregated_data_by_type;
  let has_schedule_2_hints :=
    if negb has_schedule_2_hints && bool_decide ("1040-SE" ∈ targets)
    then true else has_schedule_2_hints in
  let targets := if has_schedule_2_hints then targets ∪ {["Schedule 2"]} else targets in
  has_schedule_3_hints ← scan_all schedule_3_indicator_keys aggregated_data_by_type;
  let targets :=
    if has_schedule_3_hints : bool then targets ∪ {["Schedule 3"]} else targets in
  has_form_2441_hints ← scan_all form_2441_indicator_keys aggregated_data_by_type;
  let targets :=
    if has_form_2441_hints : bool then targets ∪ {["Form 2441"]} else targets in
  let targets :=
    if has_dependents aggregated_data_by_type then targets ∪ {["Form 8812"]} else targets in
  has_schedule_a_hints ← scan_all schedule_a_indicator_keys aggregated_data_by_type;
  let targets :=
    if has_schedule_a_hints : bool then targets ∪ {["Schedule A"]} else targets in
  Some (merge_sort str_le (elements targets)).

(** The driver's step 3: the determined targets, to which Schedule E is
    appended when the grouped data has a Cash Flow Statement and the
    targets lack it; then the processing list. *)
Definition flow_target_forms (has_cash_flow_statement : bool)
    (temp_flat_aggregated : list (string * pyobj)) : option (list string) :=
  target_forms ← determine_target_forms temp_flat_aggregated;
  Some (if has_cash_flow_statement && negb (bool_decide ("SchedE" ∈ target_forms))
        then (target_forms ++ ["SchedE"])%list
        else target_forms).

Definition flow_processing_list (has_cash_flow_statement : bool)
    (temp_flat_aggregated : list (string * pyobj)) : option (list string) :=
  ordered_target_forms <$> flow_target_forms has_cash_flow_statement temp_flat_aggregated.
End TargetForms.

(** ** Vocabulary of the properties of the target forms *)

(** The targets as a function of what the scans found: the hints for
    Schedules C and E, the direct hints for Schedules 1, 2 and 3 and Form
    2441, the dependents and the hints for Schedule A. *)
Definition targets_of (has_sched_c_hints has_sched_e_hints schedule_1_hints
    schedule_2_hints has_schedule_3_hints has_form_2441_hints dependents
    has_schedule_a_hints : bool) : list string :=
  let targets : gset string := {["1040"]} in
  let targets :=
    if has_sched_c_hints then targets ∪ {["SchedC"]} ∪ {["1040-SE"]} else targets in
  let targets := if has_sched_e_hints then targets ∪ {["SchedE"]} else targets in
  let has_schedule_1_hints :=
    if negb schedule_1_hints
       && existsb (fun f => bool_decide (f ∈ targets)) ["SchedC"; "SchedE"; "1040-SE"]
    then true else schedule_1_hints in
  let targets := if has_schedule_1_hints then targets ∪ {["Schedule 1"]} else targets in
  let has_schedule_2_hints :=
    if negb schedule_2_hints && bool_decide ("1040-SE" ∈ targets)
    then true else schedule_2_hints in
  let targets := if has_schedule_2_hints then targets ∪ {["Schedule 2"]} else targets in
  let targets := if has_schedule_3_hints then targets ∪ {["Schedule 3"]} else targets in
  let targets := if has_form_2441_hints then targets ∪ {["Form 2441"]} else targets in
  let targets := if dependents then targets ∪ {["Form 8812"]} else targets in
  let targets := if has_schedule_a_hints then targets ∪ {["Schedule A"]} else targets in
  merge_sort str_le (elements targets).

(** A document that is a dict with one of the keys. *)
Definition doc_has_key (keys : list string) (doc : pyobj) : bool :=
  match doc with
  | ODict items => existsb (fun key => bool_decide (key ∈ items.*1)) keys
  | _ => false
  end.

(** An item of the data whose document type is listed and whose document
    list has such a document. *)
Definition type_has_key (doc_types keys : list string) (item : string * pyobj) : bool :=
  bool_decide (item.1 ∈ doc_types) &&
  match item.2 with
  | OList docs => existsb (doc_has_key keys) docs
  | _ => false
  end.

(** No key of the list is part of the texts "value" and "source", the
    two things a scan finds in an entry of the flat dict. *)
Definition no_hint_in_entry (keys : list string) : Prop :=
  any_in keys (OStr "value") = Some false ∧ any_in keys (OStr "source") = Some false.

(** Data of the declared type: every value is a list of dicts. *)
Definition list_of_dicts (o : pyobj) : Prop :=
  ∃ docs, o = OList docs ∧ Forall (fun doc => ∃ items, doc = ODict items) docs.

(** An entry of the flat dict as the driver builds it:
    [{"value": v, "source": path}]. *)
Definition value_with_source (o : pyobj) : Prop :=
  ∃ v path, o = ODict [("value", v); ("source", OStr path)].

(** A Schedule C hint: a document of one of the four document types that
    has one of the indicator keys. *)
Definition sched_c_hint (data : list (string * pyobj)) : Prop :=
  ∃ doc_type docs items key,
    (doc_type, OList docs) ∈ data ∧
    doc_type ∈ ["Profit and Loss Statement"; "Invoice"; "Receipt"; "1099-NEC"] ∧
    ODict items ∈ docs ∧ key ∈ sched_c_indicator_keys ∧ key ∈ items.*1.

Definition invoices_example : list (string * pyobj) :=
  [("W-2", OList [ODict [("WagesTipsOtherComp", OAtom)]]);
   ("Invoice", OList [ODict [("InvoiceNumber", OStr "17")];
                      ODict [("VendorName", OStr "Acme"); ("Total", OAtom)]])].

Definition flat_example : list (string * pyobj) :=
  [("VendorName", ODict [("value", OStr "Acme"); ("source", OStr "invoice.pdf")]);
   ("Invoice", ODict [("value", OStr "17"); ("source", OStr "invoice.pdf")]);
   ("TotalRevenue", ODict [("value", OAtom); ("source", OStr "pl.pdf")])].

(** * The status of a run, [tax_form_automation_flow] of [src/main_flow.py] *)

(** What happens to one form of the processing list: its template is not
    configured or not found and the form is skipped; an exception is raised
    while the form is mapped, reviewed or saved; the review returns an
    error and the form is saved all the same; the form is processed. *)
Inductive form_outcome : Type :=
| Skipped
| Failed
| ProcessedWithReviewError
| Processed.

#[export] Instance form_outcome_eq_dec : EqDecision form_outcome.
Proof. solve_decision. Defined.

(** One turn of the loop over the forms, as far as [flow_status] goes. *)
Definition status_after (flow_status : string) (outcome : form_outcome) : string :=
  match outcome with
  | Skipped => "COMPLETED_WITH_SKIPS"
  | Failed => "FAILED"
  | ProcessedWithReviewError =>
      if String.eqb flow_status "COMPLETED" then "COMPLETED_WITH_REVIEW_ERRORS"
      else if String.eqb flow_status "COMPLETED_WITH_EXTRACTION_ERRORS"
           then "COMPLETED_WITH_EXTRACTION_AND_REVIEW_ERRORS"
           else flow_status
  | Processed => flow_status
  end.

(** The status the run reports, from whether the extraction left errors
    and from what happened to the forms, in processing order. *)
Definition flow_status (extraction_errors : bool) (outcomes : list form_outcome) : string :=
  fold_left status_after outcomes
    (if extraction_errors then "COMPLETED_WITH_EXTRACTION_ERRORS" else "COMPLETED").

(** * Properties *)

(** ** Sample evaluations *)

Example parse_decimal_plain : parse_decimal "1234.56" = Some (123456 # 100).
Proof. reflexivity. Qed.

Example parse_decimal_negative : parse_decimal " -500 " = Some (-500 # 1).
Proof. reflexivity. Qed.

Example parse_decimal_words : parse_decimal "abc" = None.
Proof. reflexivity. Qed.

Example parse_decimal_empty : parse_decimal "" = None.
Proof. reflexivity. Qed.

Example calculate_1040_wages :
  _perform_calculations
    [("page_1", page_of [("FilingStatus", PStr "Single"); ("Line11_AdjustedGrossIncome", PFloat 50000);
                         ("Line12_DeductionAmount", PNone); ("Line15_TaxableIncome", PNone);
                         ("Line16_Tax", PNone)])]
    "1040" ∅
  = ([("page_1", [mk_field "FilingStatus" (PStr "Single") None;
                  mk_field "Line11_AdjustedGrossIncome" (PFloat 50000) None;
                  mk_field "Line12_DeductionAmount" (PFloat 13850) (Some ["Calculated"]);
                  mk_field "Line15_TaxableIncome" (PFloat 36150) (Some ["Calculated"]);
                  mk_field "Line16_Tax" (PFloat (411800 # 100)) (Some ["Calculated"])])],
     ["Schedule A"], Ok tt).
Proof. vm_compute. reflexivity. Qed.


(** ** Reading and writing fields *)

Lemma find_set_in_fields_None name v src fields :
  set_in_fields name v src fields = None ↔ find_field name fields = None.
Proof.
  induction fields as [|f fields IH]; simpl; [done|].
  destruct (String.eqb (field_name f) name); [done|].
  destruct (set_in_fields name v src fields); simpl; split; intros H;
    try done; by apply IH in H.
Qed.

Lemma find_set_in_fields_eq name v src fields fields' :
  set_in_fields name v src fields = Some fields' →
  ∃ f, find_field name fields' = Some f ∧ value f = v ∧ sources f = Some [src].
Proof.
  revert fields'. induction fields as [|f fields IH]; simpl; intros fields' H; [done|].
  destruct (String.eqb (field_name f) name) eqn:E.
  - inversion H; subst. simpl. rewrite E. eauto.
  - destruct (set_in_fields name v src fields) as [fs|]; [|done].
    inversion H; subst. simpl. rewrite E. by apply IH.
Qed.

Lemma find_set_in_fields_ne name name' v src fields fields' :
  name ≠ name' →
  set_in_fields name v src fields = Some fields' →
  find_field name' fields' = find_field name' fields.
Proof.
  intros Hne. revert fields'.
  induction fields as [|f fields IH]; simpl; intros fields' H; [done|].
  destruct (String.eqb (field_name f) name) eqn:E.
  - inversion H; subst. simpl. apply String.eqb_eq in E.
    destruct (String.eqb (field_name f) name') eqn:E'; [|done].
    apply String.eqb_eq in E'. congruence.
  - destruct (set_in_fields name v src fields) as [fs|]; [|done].
    inversion H; subst. simpl.
    destruct (String.eqb (field_name f) name'); [done|]. by apply IH.
Qed.

Lemma get_set_eq s name v :
  has_field s name = true →
  _get_field_value (_set_field_value s name v) name = v.
Proof.
  unfold _set_field_value.
  induction s as [|[page_key fields] s IH]; simpl; [done|]. intros H.
  destruct (set_in_fields name v "Calculated" fields) as [fields'|] eqn:E.
  - simpl. destruct (find_set_in_fields_eq _ _ _ _ _ E) as (f & -> & Hv & _). done.
  - apply find_set_in_fields_None in E. rewrite E in H. simpl. rewrite E. by apply IH.
Qed.

Lemma get_set_ne s name name' v :
  name ≠ name' →
  _get_field_value (_set_field_value s name v) name' = _get_field_value s name'.
Proof.
  intros Hne. unfold _set_field_value.
  induction s as [|[page_key fields] s IH]; simpl; [done|].
  destruct (set_in_fields name v "Calculated" fields) as [fields'|] eqn:E.
  - simpl. by rewrite (find_set_in_fields_ne _ _ _ _ _ _ Hne E).
  - simpl. by rewrite IH.
Qed.

Lemma has_field_set s name name' v :
  has_field (_set_field_value s name v) name' = has_field s name'.
Proof.
  unfold _set_field_value.
  induction s as [|[page_key fields] s IH]; simpl; [done|].
  destruct (set_in_fields name v "Calculated" fields) as [fields'|] eqn:E.
  - simpl. destruct (decide (name = name')) as [<-|Hne].
    + destruct (find_set_in_fields_eq _ _ _ _ _ E) as (f & -> & _).
      destruct (find_field name fields) eqn:E'; [done|].
      apply find_set_in_fields_None with (v := v) (src := "Calculated") in E'. congruence.
    + by rewrite (find_set_in_fields_ne _ _ _ _ _ _ Hne E).
  - simpl. by rewrite IH.
Qed.

Lemma get_numeric_set_ne s name name' v :
  name ≠ name' →
  _get_numeric_value (_set_field_value s name v) name' = _get_numeric_value s name'.
Proof.
  intros Hne. unfold _get_numeric_value, _get_numeric_value_or.
  by rewrite get_set_ne.
Qed.

Lemma get_numeric_set_float s name q :
  has_field s name = true →
  _get_numeric_value (_set_field_value s name (PFloat q)) name = q.
Proof.
  intros H. unfold _get_numeric_value, _get_numeric_value_or.
  by rewrite get_set_eq.
Qed.

(** ** Running a calculation step *)

Ltac run_calc :=
  cbv beta iota zeta delta
    [mbind mret calc_bind calc_ret outcome_bind outcome_ret get_numeric get_numerics
     get_value lift set_field cache_get form cache_reads band
     py_sub py_add py_mul py_sum py_sum_from py_arith py_quantize
     to_float to_Decimal num_value fmap list_fmap].

Ltac field_reads :=
  repeat first
    [ rewrite get_numeric_set_ne by done
    | rewrite get_set_ne by done
    | rewrite has_field_set ].

Ltac field_written :=
  field_reads; rewrite get_set_eq; [ | field_reads; done ].


Lemma dispatch_1040 cache : _perform_calculations_step "1040" cache = calculate_1040 cache.
Proof. reflexivity. Qed.

Lemma dispatch_ScheduleA cache :
  _perform_calculations_step "Schedule A" cache = calculate_ScheduleA cache.
Proof. reflexivity. Qed.

(** ** Schedule C *)

(** Discharges [reads_whole_amount] on a concrete structure. *)
Ltac whole_amount :=
  split;
  [ first [left; reflexivity | right; reflexivity]
  | split; [vm_compute; reflexivity | vm_compute; discriminate] ].




(** ** Fields a calculation leaves alone *)

Lemma keeps_ret {A : Type} name (a : A) : keeps name (mret a).
Proof. by intros st. Qed.

Lemma keeps_lift {A : Type} name (o : outcome A) : keeps name (lift o).
Proof. by intros st. Qed.

Lemma keeps_get_value name name' : keeps name (get_value name').
Proof. by intros st. Qed.

Lemma keeps_get_numeric name name' : keeps name (get_numeric name').
Proof. by intros st. Qed.

Lemma keeps_cache_get name cache key : keeps name (cache_get cache key).
Proof. by intros st. Qed.

Lemma keeps_set_field name name' v : name' ≠ name → keeps name (set_field name' v).
Proof. intros Hne st. simpl. by rewrite get_set_ne. Qed.

Lemma keeps_bind {A B : Type} name (m : calc A) (k : A → calc B) :
  keeps name m → (∀ a, keeps name (k a)) → keeps name (m ≫= k).
Proof.
  intros Hm Hk st. unfold mbind, calc_bind.
  specialize (Hm st). destruct (m st) as [st' [a|e]]; simpl in *.
  - by rewrite Hk.
  - done.
Qed.

Ltac keeps_tac :=
  repeat first
    [ apply keeps_ret | apply keeps_lift | apply keeps_get_value
    | apply keeps_get_numeric | apply keeps_cache_get
    | apply keeps_set_field; done
    | apply keeps_bind; [| intros ?] ].

Lemma keeps_line15 name d :
  name ≠ "Line14_TotalDeductions" → name ≠ "Line15_TaxableIncome" →
  keeps name (line15_taxable_income d).
Proof. intros. unfold line15_taxable_income. keeps_tac. Qed.

Lemma keeps_line16 name fs ti :
  name ≠ "Line16_Tax" → keeps name (line16_tax fs ti).
Proof. intros. unfold line16_tax. keeps_tac. Qed.

Lemma keeps_line24 name t :
  name ≠ "Line18_TotalTaxBeforeCredits" →
  name ≠ "Line22_TaxAfterNonrefundableCredits" →
  name ≠ "Line24_TotalTax" →
  keeps name (line24_total_tax t).
Proof. intros. unfold line24_total_tax. keeps_tac. Qed.

Lemma keeps_line34_line37 name t :
  name ≠ "Line34_AmountOverpaid" → name ≠ "Line37_AmountYouOwe" →
  keeps name (line34_line37 t).
Proof. intros. unfold line34_line37. keeps_tac. Qed.

(** ** Form 1040, Line 12 *)

Lemma standard_deduction_pos s : (0 < standard_deduction s)%Z.
Proof.
  unfold standard_deduction, dict_get.
  destruct (_get_field_value s "FilingStatus"); try done.
  unfold std_deduction_map, assoc_get. repeat case_match; simpl; lia.
Qed.

Lemma Qltb_lt a b : Qltb a b = true ↔ (a < b)%Q.
Proof.
  unfold Qltb. rewrite negb_true_iff. split.
  - intros H. apply Qnot_le_lt. intros Hle. apply Qle_bool_iff in Hle. congruence.
  - intros H. destruct (Qle_bool b a) eqn:E; [|done].
    apply Qle_bool_iff in E. by apply Qlt_not_le in H.
Qed.

Lemma Qltb_ge a b : Qltb a b = false ↔ (b <= a)%Q.
Proof.
  unfold Qltb. rewrite negb_false_iff. apply Qle_bool_iff.
Qed.

Lemma line12_deduction_run cache st :
  line12_deduction cache st =
  (mk_cstate
     (_set_field_value
        (_set_field_value (form st) "Line12_DeductionAmount"
           (PFloat (deduction (form st) cache)))
        "Line12_UsedItemized" (PBool (used_itemized (form st) cache)))
     (cache_reads st ++ ["Schedule A"]),
   Ok (_get_field_value (form st) "FilingStatus", NDec (deduction (form st) cache))).
Proof.
  unfold line12_deduction. run_calc.
  unfold deduction, used_itemized, itemized_total, standard_deduction, py_gt, to_Decimal.
  simpl num_value.
  by destruct (Qltb _ _).
Qed.

Lemma deduction_is_max s cache :
  (deduction s cache == Qmax (inject_Z (standard_deduction s)) (itemized_total cache))%Q.
Proof.
  unfold deduction, used_itemized.
  destruct (Qltb _ _) eqn:E.
  - apply Qltb_lt in E. symmetry. apply Q.max_r. by apply Qlt_le_weak.
  - apply Qltb_ge in E. symmetry. by apply Q.max_l.
Qed.

Lemma itemized_total_cached cache sched_a :
  cache !! "Schedule A" = Some sched_a →
  itemized_total cache = _get_numeric_value sched_a "SchA_Line17_TotalItemizedDeductions".
Proof.
  intros H. unfold itemized_total. rewrite H. simpl. by destruct sched_a.
Qed.

Lemma deduction_not_cached s cache :
  cache !! "Schedule A" = None →
  used_itemized s cache = false ∧ deduction s cache = inject_Z (standard_deduction s).
Proof.
  intros H. unfold deduction, used_itemized, itemized_total. rewrite H. simpl.
  assert (Qltb (inject_Z (standard_deduction s)) 0 = false) as ->; [|done].
  apply Qltb_ge. change 0%Q with (inject_Z 0). rewrite <- Zle_Qle.
  pose proof (standard_deduction_pos s). lia.
Qed.

Lemma calculate_1040_split cache st :
  calculate_1040 cache st =
  match line12_deduction cache st with
  | (st', Ok (filing_status, d)) => after_line12 filing_status d st'
  | (st', Raise e) => (st', Raise e)
  end.
Proof.
  unfold calculate_1040, after_line12, mbind, calc_bind.
  by destruct (line12_deduction cache st) as [st' [[fs d]|e]].
Qed.

Lemma keeps_after_line12 name fs d :
  name ∈ ["Line12_DeductionAmount"; "Line12_UsedItemized"] →
  keeps name (after_line12 fs d).
Proof.
  intros Hin. unfold after_line12.
  assert (name = "Line12_DeductionAmount" ∨ name = "Line12_UsedItemized") as Hname.
  { apply list_elem_of_In in Hin. simpl in Hin. destruct Hin as [<-|[<-|[]]]; auto. }
  apply keeps_bind; [apply keeps_line15; by destruct Hname as [-> | ->]|intros ?].
  apply keeps_bind; [apply keeps_line16; by destruct Hname as [-> | ->]|intros ?].
  apply keeps_bind; [apply keeps_line24; by destruct Hname as [-> | ->]|intros ?].
  apply keeps_line34_line37; by destruct Hname as [-> | ->].
Qed.

(** The two Line 12 fields after the whole 1040 step, whether it returned
    or raised further down. *)
Lemma calculate_1040_line12 s cache :
  let s' := (_perform_calculations s "1040" cache).1.1 in
  (has_field s "Line12_DeductionAmount" = true →
   _get_field_value s' "Line12_DeductionAmount" = PFloat (deduction s cache)) ∧
  (has_field s "Line12_UsedItemized" = true →
   _get_field_value s' "Line12_UsedItemized" = PBool (used_itemized s cache)).
Proof.
  unfold _perform_calculations. rewrite dispatch_1040, calculate_1040_split.
  rewrite line12_deduction_run. simpl form.
  set (st1 := mk_cstate _ _).
  pose proof (keeps_after_line12 "Line12_DeductionAmount"
    (_get_field_value s "FilingStatus") (NDec (deduction s cache))) as K1.
  pose proof (keeps_after_line12 "Line12_UsedItemized"
    (_get_field_value s "FilingStatus") (NDec (deduction s cache))) as K2.
  specialize (K1 ltac:(by left) st1).
  specialize (K2 ltac:(by right; left) st1).
  destruct (after_line12 _ _ st1) as [st2 r]. simpl in *.
  rewrite K1, K2. subst st1. simpl. split; intros H.
  - by field_written.
  - by field_written.
Qed.

(** ** Form 1040, the bracket lookup and the outcome of the step *)

Lemma py_le_le x y : py_le x y = true ↔ (num_value x <= num_value y)%Q.
Proof. apply Qle_bool_iff. Qed.

Lemma py_le_gt x y : py_le x y = false ↔ (num_value y < num_value x)%Q.
Proof.
  unfold py_le. split.
  - intros H. apply Qnot_le_lt. intros Hle. apply Qle_bool_iff in Hle. congruence.
  - intros H. destruct (Qle_bool _ _) eqn:E; [|done].
    apply Qle_bool_iff in E. by apply Qlt_not_le in H.
Qed.

Lemma tax_single_returns ti :
  (ti <= 95375)%Q → ∃ t, tax_single (NDec ti) = Ok (NDec t).
Proof.
  intros Hti. unfold tax_single.
  destruct (py_le (NDec ti) (NInt 11000)); [by eexists|].
  destruct (py_le (NDec ti) (NInt 44725)); [by eexists|].
  destruct (py_le (NDec ti) (NInt 95375)) eqn:E; [by eexists|].
  apply py_le_gt in E. simpl in E. by apply Qlt_not_le in E.
Qed.

Lemma tax_single_raises ti :
  (95375 < ti)%Q → tax_single (NDec ti) = Raise TypeError.
Proof.
  intros Hti. unfold tax_single.
  assert (∀ z, (z <= 95375)%Z → py_le (NDec ti) (NInt z) = false) as Hgt.
  { intros z Hz. apply py_le_gt. simpl. eapply Qle_lt_trans; [|exact Hti].
    change 95375%Q with (inject_Z 95375). by rewrite <- Zle_Qle. }
  by rewrite !Hgt by lia.
Qed.

Lemma tax_unhandled_status_is_single ti : tax_unhandled_status ti = tax_single ti.
Proof. reflexivity. Qed.

Lemma tax_unhandled_status_returns ti :
  (ti <= 95375)%Q → ∃ t, tax_unhandled_status (NDec ti) = Ok (NDec t).
Proof. exact (tax_single_returns ti). Qed.

Lemma tax_unhandled_status_raises ti :
  (95375 < ti)%Q → tax_unhandled_status (NDec ti) = Raise TypeError.
Proof. exact (tax_single_raises ti). Qed.

Lemma tax_married_jointly_returns ti : ∃ t, tax_married_jointly (NDec ti) = Ok (NDec t).
Proof.
  unfold tax_married_jointly.
  destruct (py_le (NDec ti) (NInt 22000)); [by eexists|].
  destruct (py_le (NDec ti) (NInt 89450)); [by eexists|].
  destruct (py_le (NDec ti) (NInt 190750)); by eexists.
Qed.

Lemma str_is_single_not_jointly fs :
  str_is fs "Single" = true → str_is fs "MarriedFilingJointly" = false.
Proof.
  destruct fs; simpl; try done. intros H. apply String.eqb_eq in H. by subst.
Qed.

Lemma line15_taxable_income_run d st :
  ∃ s', line15_taxable_income (NDec d) st =
        (mk_cstate s' (cache_reads st), Ok (NDec (taxable_income_of (form st) d))).
Proof.
  unfold line15_taxable_income. run_calc. field_reads.
  unfold taxable_income_of, py_lt. simpl num_value.
  destruct (Qltb _ _); by eexists.
Qed.

Lemma line16_tax_returns fs ti st :
  str_is fs "MarriedFilingJointly" = true ∨ (ti <= 95375)%Q →
  ∃ s' t, line16_tax fs (NDec ti) st = (mk_cstate s' (cache_reads st), Ok (NDec t)).
Proof.
  intros H. unfold line16_tax.
  destruct (str_is fs "Single") eqn:E1.
  - pose proof (str_is_single_not_jointly _ E1) as E2.
    destruct H as [H|H]; [congruence|].
    destruct (tax_single_returns ti H) as [t Ht]. run_calc. rewrite Ht. by eexists _, _.
  - destruct (str_is fs "MarriedFilingJointly") eqn:E2.
    + destruct (tax_married_jointly_returns ti) as [t Ht]. run_calc. rewrite Ht.
      by eexists _, _.
    + destruct H as [H|H]; [done|].
      destruct (tax_unhandled_status_returns ti H) as [t Ht]. run_calc. rewrite Ht.
      by eexists _, _.
Qed.

Lemma line16_tax_raises fs ti st :
  str_is fs "MarriedFilingJointly" = false → (95375 < ti)%Q →
  line16_tax fs (NDec ti) st = (st, Raise TypeError).
Proof.
  intros H Hti. unfold line16_tax. rewrite H. run_calc.
  rewrite (tax_unhandled_status_raises ti Hti), (tax_single_raises ti Hti).
  by destruct (str_is fs "Single").
Qed.

Lemma line24_total_tax_run t st :
  ∃ s' t', line24_total_tax (NDec t) st = (mk_cstate s' (cache_reads st), Ok (NDec t')).
Proof.
  unfold line24_total_tax. run_calc. destruct (py_lt _ _); by eexists _, _.
Qed.

Lemma line34_line37_run t st :
  ∃ s', line34_line37 (NDec t) st = (mk_cstate s' (cache_reads st), Ok tt).
Proof.
  unfold line34_line37. run_calc.
  destruct (py_gt (NDec _) (NDec t)), (py_gt (NDec t) (NDec _)); by eexists.
Qed.

(** The 1040 step asks the cache for Schedule A only, and returns unless
    the bracket lookup reaches the top band of the table used for every
    status other than married filing jointly. *)
Lemma calculate_1040_outcome s cache :
  let fs := _get_field_value s "FilingStatus" in
  let ti := taxable_income_of s (deduction s cache) in
  let result := _perform_calculations s "1040" cache in
  result.1.2 = ["Schedule A"] ∧
  (str_is fs "MarriedFilingJointly" = true ∨ (ti <= 95375)%Q → result.2 = Ok tt) ∧
  (str_is fs "MarriedFilingJointly" = false → (95375 < ti)%Q → result.2 = Raise TypeError).
Proof.
  unfold _perform_calculations. rewrite dispatch_1040, calculate_1040_split.
  rewrite line12_deduction_run. simpl form. simpl cache_reads.
  unfold after_line12, mbind, calc_bind.
  set (st1 := mk_cstate _ _).
  destruct (line15_taxable_income_run (deduction s cache) st1) as [s2 ->].
  assert (taxable_income_of (form st1) (deduction s cache)
          = taxable_income_of s (deduction s cache)) as ->.
  { subst st1. unfold taxable_income_of. simpl form. by field_reads. }
  set (ti := taxable_income_of s (deduction s cache)).
  set (fs := _get_field_value s "FilingStatus").
  assert ((str_is fs "MarriedFilingJointly" = true ∨ (ti <= 95375)%Q)
          ∨ (str_is fs "MarriedFilingJointly" = false ∧ (95375 < ti)%Q)) as [Hok|[Hfs Hti]].
  { destruct (str_is fs "MarriedFilingJointly"); [by left; left|].
    destruct (Qlt_le_dec 95375 ti); [by right|by left; right]. }
  - destruct (line16_tax_returns fs ti (mk_cstate s2 (cache_reads st1)) Hok) as (s3 & t & ->).
    cbv beta iota. cbn [cache_reads].
    destruct (line24_total_tax_run t (mk_cstate s3 (cache_reads st1))) as (s4 & t' & ->).
    cbv beta iota. cbn [cache_reads].
    destruct (line34_line37_run t' (mk_cstate s4 (cache_reads st1))) as (s5 & ->).
    simpl. split_and!; [done|done|].
    intros Hfs Hti. destruct Hok as [Hok|Hok]; [congruence|]. by apply Qlt_not_le in Hti.
  - rewrite (line16_tax_raises _ _ _ Hfs Hti). simpl. split_and!; [done| |done].
    intros [H|H]; [congruence|]. by apply Qlt_not_le in Hti.
Qed.

(** ** A calculation adds and removes no field *)








Lemma get_numeric_same s s' name :
  _get_field_value s' name = _get_field_value s name →
  _get_numeric_value s' name = _get_numeric_value s name.
Proof. intros H. unfold _get_numeric_value, _get_numeric_value_or. by rewrite H. Qed.

(** ** Form 1040, Lines 24, 34 and 37 *)






(** The cache matters to the 1040 step only through the deduction and the
    flag of Line 12. *)
Lemma calculate_1040_same_deduction s cache cache' :
  used_itemized s cache' = used_itemized s cache →
  deduction s cache' = deduction s cache →
  _perform_calculations s "1040" cache' = _perform_calculations s "1040" cache.
Proof.
  intros Hu Hd. unfold _perform_calculations.
  rewrite !dispatch_1040, !calculate_1040_split, !line12_deduction_run.
  simpl form. by rewrite Hu, Hd.
Qed.

(** ** Form 1040, standard or itemized deduction *)

Lemma standard_deduction_table s :
  standard_deduction s = standard_deduction_of (_get_field_value s "FilingStatus").
Proof.
  unfold standard_deduction, standard_deduction_of, dict_get, str_is.
  destruct (_get_field_value s "FilingStatus") as [| | | |status]; try done.
  unfold std_deduction_map. cbn [assoc_get].
  rewrite !(String.eqb_sym _ status).
  destruct (String.eqb status "Single") eqn:E1.
  { apply String.eqb_eq in E1 as ->. done. }
  destruct (String.eqb status "MarriedFilingJointly") eqn:E2; [done|].
  destruct (String.eqb status "MarriedFilingSeparately") eqn:E3.
  { apply String.eqb_eq in E3 as ->. done. }
  destruct (String.eqb status "HeadOfHousehold") eqn:E4.
  { apply String.eqb_eq in E4 as ->. done. }
  by destruct (String.eqb status "QualifyingWidow(er)").
Qed.

(** C5.  With Schedule A in the cache and a whole amount on its Line 17,
    Line 12 after the 1040 step is the larger of the standard deduction of
    the filing status (27700 for MarriedFilingJointly and
    QualifyingWidow(er), 20800 for HeadOfHousehold, 13850 otherwise) and
    Schedule A's Line 17, and Line12_UsedItemized tells whether Line 17 was
    larger.  Without Schedule A in the cache, Line 12 is the standard
    deduction and the flag is false, and the Line 12 block raises nothing.
    For a single filer with AGI 50000 and an itemized total of 8000 the step
    returns with Line 12 = 13850 and the flag false; with an itemized total
    of 20000 it returns with Line 12 = 20000 and the flag true.  The step as
    a whole, however, does raise without Schedule A in the cache: for a
    single filer with AGI 200000 it writes Line 12 = 13850 and then raises
    TypeError at the bracket lookup, as it does for every status other than
    MarriedFilingJointly once the taxable income exceeds 95375. *)
Theorem C5_line12_deduction :
  (∀ (s : structure) (cache : gmap string structure) (sched_a : structure),
     cache !! "Schedule A" = Some sched_a →
     reads_whole_amount sched_a "SchA_Line17_TotalItemizedDeductions" →
     has_field s "Line12_DeductionAmount" = true →
     has_field s "Line12_UsedItemized" = true →
     let standard := inject_Z (standard_deduction_of (_get_field_value s "FilingStatus")) in
     let itemized := _get_numeric_value sched_a "SchA_Line17_TotalItemizedDeductions" in
     let result := _perform_calculations s "1040" cache in
     ∃ line12 : Q,
       _get_field_value result.1.1 "Line12_DeductionAmount" = PFloat line12 ∧
       (line12 == Qmax standard itemized)%Q ∧
       ((standard < itemized)%Q →
        _get_field_value result.1.1 "Line12_UsedItemized" = PBool true) ∧
       ((itemized <= standard)%Q →
        _get_field_value result.1.1 "Line12_UsedItemized" = PBool false)) ∧
  (∀ (s : structure) (cache : gmap string structure),
     cache !! "Schedule A" = None →
     has_field s "Line12_DeductionAmount" = true →
     has_field s "Line12_UsedItemized" = true →
     let standard := standard_deduction_of (_get_field_value s "FilingStatus") in
     let result := _perform_calculations s "1040" cache in
     _get_field_value result.1.1 "Line12_DeductionAmount" = PFloat (inject_Z standard) ∧
     _get_field_value result.1.1 "Line12_UsedItemized" = PBool false ∧
     (∃ st' r, line12_deduction cache (mk_cstate s []) = (st', Ok r)) ∧
     (result.2 = Ok tt ∨
      (result.2 = Raise TypeError ∧
       str_is (_get_field_value s "FilingStatus") "MarriedFilingJointly" = false ∧
       (95375 < taxable_income_of s (inject_Z standard))%Q))) ∧
  (∃ s' : structure,
     _perform_calculations (form1040 (PStr "Single") (PFloat 50000) PNone) "1040"
       (cache_with_schedule_a (PFloat 8000)) = (s', ["Schedule A"], Ok tt) ∧
     _get_field_value s' "Line12_DeductionAmount" = PFloat 13850 ∧
     _get_field_value s' "Line12_UsedItemized" = PBool false) ∧
  (∃ s' : structure,
     _perform_calculations (form1040 (PStr "Single") (PFloat 50000) PNone) "1040"
       (cache_with_schedule_a (PFloat 20000)) = (s', ["Schedule A"], Ok tt) ∧
     _get_field_value s' "Line12_DeductionAmount" = PFloat 20000 ∧
     _get_field_value s' "Line12_UsedItemized" = PBool true) ∧
  (∃ s' : structure,
     _perform_calculations (form1040 (PStr "Single") (PFloat 200000) PNone) "1040" ∅
       = (s', ["Schedule A"], Raise TypeError) ∧
     _get_field_value s' "Line12_DeductionAmount" = PFloat 13850 ∧
     _get_field_value s' "Line12_UsedItemized" = PBool false ∧
     _get_field_value s' "Line16_Tax" = PNone).
Proof.
  split; [|split; [|split; [|split]]].
  - intros s cache sched_a Hc _ H12 Hu. cbv zeta.
    destruct (calculate_1040_line12 s cache) as [E12 Eu]. rewrite E12, Eu by done.
    rewrite <- standard_deduction_table, <- (itemized_total_cached _ _ Hc).
    eexists. split; [reflexivity|]. split; [apply deduction_is_max|].
    unfold used_itemized. split.
    + intros Hlt. f_equal. unfold Qltb. apply negb_true_iff.
      destruct (Qle_bool _ _) eqn:E; [|done].
      apply Qle_bool_iff in E. by apply Qlt_not_le in Hlt.
    + intros Hle. f_equal. by apply Qltb_ge.
  - intros s cache Hc H12 Hu. cbv zeta.
    destruct (calculate_1040_line12 s cache) as [E12 Eu].
    destruct (deduction_not_cached s cache Hc) as [Hused Hd].
    rewrite E12, Eu by done. rewrite Hused, Hd, <- standard_deduction_table.
    split_and!; [done|done| |].
    + rewrite line12_deduction_run. by eexists _, _.
    + destruct (calculate_1040_outcome s cache) as (_ & Hret & Hraise).
      rewrite Hd in Hret, Hraise.
      destruct (str_is (_get_field_value s "FilingStatus") "MarriedFilingJointly") eqn:E.
      * left. apply Hret. by left.
      * destruct (Qlt_le_dec 95375 (taxable_income_of s (inject_Z (standard_deduction s))))
          as [Hgt|Hle].
        -- right. by split_and!; [apply Hraise| |].
        -- left. apply Hret. by right.
  - eexists. split; [vm_compute; reflexivity|]. by vm_compute.
  - eexists. split; [vm_compute; reflexivity|]. by vm_compute.
  - eexists. split; [vm_compute; reflexivity|]. by vm_compute.
Qed.

Lemma C5_line12_deduction_witness :
  (∃ line12 : Q,
     _get_field_value
       (_perform_calculations (form1040 (PStr "HeadOfHousehold") (PFloat 90000) PNone) "1040"
          (cache_with_schedule_a (PFloat 25000))).1.1 "Line12_DeductionAmount"
       = PFloat line12 ∧
     (line12 == Qmax (inject_Z (standard_deduction_of (PStr "HeadOfHousehold")))
                     (_get_numeric_value
                        [("page_1", page_of [("SchA_Line17_TotalItemizedDeductions",
                                              PFloat 25000)])]
                        "SchA_Line17_TotalItemizedDeductions"))%Q ∧
     _get_field_value
       (_perform_calculations (form1040 (PStr "HeadOfHousehold") (PFloat 90000) PNone) "1040"
          (cache_with_schedule_a (PFloat 25000))).1.1 "Line12_UsedItemized"
       = PBool true) ∧
  _get_field_value
    (_perform_calculations (form1040 (PStr "HeadOfHousehold") (PFloat 90000) PNone)
       "1040" ∅).1.1 "Line12_DeductionAmount"
  = PFloat (inject_Z (standard_deduction_of (PStr "HeadOfHousehold"))).
Proof.
  split.
  - destruct (proj1 C5_line12_deduction
                (form1040 (PStr "HeadOfHousehold") (PFloat 90000) PNone)
                (cache_with_schedule_a (PFloat 25000))
                [("page_1", page_of [("SchA_Line17_TotalItemizedDeductions", PFloat 25000)])]
                eq_refl ltac:(whole_amount) eq_refl eq_refl)
      as (line12 & E & Hmax & Hused & _).
    exists line12. split_and!; [exact E|exact Hmax|]. apply Hused. by vm_compute.
  - apply (proj1 (proj2 C5_line12_deduction)
             (form1040 (PStr "HeadOfHousehold") (PFloat 90000) PNone) ∅); reflexivity.
Defined.

(** ** Form 1040, amount overpaid and amount owed *)





(** ** Form 1040 with a missing or unrecognised filing status *)

Lemma standard_deduction_unrecognized s :
  (∀ status, _get_field_value s "FilingStatus" = PStr status →
             assoc_get std_deduction_map status = None) →
  standard_deduction s = 13850%Z.
Proof.
  intros H. unfold standard_deduction, dict_get.
  destruct (_get_field_value s "FilingStatus") as [| | | |status]; try done.
  by rewrite (H status eq_refl).
Qed.

(** C10 at an input on which the code fails.  The filing status is missing
    and the AGI is 200000: the step uses the standard deduction 13850
    (Line 12) and finds a taxable income of 186150 (Line 15), then the
    bracket lookup for an unhandled status adds the [float] 16271.75 to a
    [Decimal] and raises [TypeError]; Line 16 is never written.  With a
    taxable income in the lower bands the same status is computed with the
    single-filer table and the step returns. *)
Theorem C10_unhandled_status_top_band_raises :
  (∃ s' : structure,
     _perform_calculations (form1040 PNone (PFloat 200000) PNone) "1040" ∅
       = (s', ["Schedule A"], Raise TypeError) ∧
     _get_field_value s' "Line12_DeductionAmount" = PFloat 13850 ∧
     _get_field_value s' "Line15_TaxableIncome" = PFloat 186150 ∧
     _get_field_value s' "Line16_Tax" = PNone) ∧
  (∃ s' : structure,
     _perform_calculations (form1040 (PStr "Married") (PFloat 200000) PNone) "1040" ∅
       = (s', ["Schedule A"], Raise TypeError) ∧
     _get_field_value s' "Line12_DeductionAmount" = PFloat 13850) ∧
  (∃ s' : structure,
     _perform_calculations (form1040 PNone (PFloat 50000) PNone) "1040" ∅
       = (s', ["Schedule A"], Ok tt) ∧
     _get_field_value s' "Line12_DeductionAmount" = PFloat 13850 ∧
     _get_field_value s' "Line16_Tax" = PFloat (411800 # 100)).
Proof.
  split_and!; (eexists; split; [vm_compute; reflexivity|]; by vm_compute).
Qed.

(** ** Which cache entries a step asks for *)

Lemma no_reads_pure {A : Type} (f : cstate → outcome A) :
  no_reads (fun st => (st, f st)).
Proof. by intros st. Qed.

Lemma no_reads_set_field name v : no_reads (set_field name v).
Proof. by intros st. Qed.

Lemma no_reads_bind {A B : Type} (m : calc A) (k : A → calc B) :
  no_reads m → (∀ a, no_reads (k a)) → no_reads (m ≫= k).
Proof.
  intros Hm Hk st. unfold mbind, calc_bind.
  specialize (Hm st). destruct (m st) as [st' [a|e]]; simpl in *.
  - by rewrite Hk.
  - done.
Qed.

Ltac no_reads_tac :=
  repeat first
    [ apply no_reads_set_field
    | apply (no_reads_pure (fun _ => _))
    | apply no_reads_bind; [| intros ?] ].

Lemma no_reads_get_numerics names : no_reads (get_numerics names).
Proof. induction names; simpl; no_reads_tac. done. Qed.

Lemma no_reads_SchedC : no_reads calculate_SchedC.
Proof.
  unfold calculate_SchedC.
  do 7 (apply no_reads_bind; [no_reads_tac|intros ?]).
  apply no_reads_bind; [apply no_reads_get_numerics|intros ?]. no_reads_tac.
Qed.

Lemma no_reads_SchedE_column total col : no_reads (calculate_SchedE_column total col).
Proof.
  unfold calculate_SchedE_column.
  apply no_reads_bind; [no_reads_tac|intros rent].
  destruct rent; try apply (no_reads_pure (fun _ => _));
    (apply no_reads_bind; [apply no_reads_get_numerics|intros ?]; no_reads_tac).
Qed.

Lemma no_reads_SchedE : no_reads calculate_SchedE.
Proof.
  unfold calculate_SchedE. apply no_reads_bind; [|intros ?; no_reads_tac].
  simpl. repeat (apply no_reads_bind; [apply no_reads_SchedE_column|intros ?]).
  apply (no_reads_pure (fun _ => _)).
Qed.

Lemma calculate_ScheduleA_run s cache :
  _perform_calculations s "Schedule A" cache =
  (_set_field_value s "SchA_Line2_AGI"
     (PFloat (_get_numeric_value (default [] (cache !! "1040")) "Line11_AdjustedGrossIncome")),
   ["1040"], Raise TypeError).
Proof.
  unfold _perform_calculations. rewrite dispatch_ScheduleA.
  unfold calculate_ScheduleA. by run_calc.
Qed.

(** Every step other than Schedule A's asks only for entries of forms that
    precede it in the processing order. *)
Lemma other_steps_read_preceding (s : structure) (form_type : string)
    (cache : gmap string structure) :
  form_type ≠ "Schedule A" →
  reads_only_preceding form_type (_perform_calculations s form_type cache).1.2 = true.
Proof.
  intros Hne.
  destruct (decide (form_type = "1040")) as [->|H1040].
  { by destruct (calculate_1040_outcome s cache) as [-> _]. }
  unfold _perform_calculations, _perform_calculations_step.
  assert (∀ m : calc unit, no_reads m →
            reads_only_preceding form_type
              (let '(st, r) := m (mk_cstate s []) in (form st, cache_reads st, r)).1.2 = true)
    as Hnone.
  { intros m Hm. specialize (Hm (mk_cstate s [])).
    destruct (m _) as [st r]; simpl in *. by rewrite Hm. }
  apply String.eqb_neq in H1040, Hne. rewrite H1040, Hne.
  repeat match goal with
         | |- context [String.eqb form_type ?name] => destruct (String.eqb form_type name)
         end;
    apply Hnone; first
    [ apply no_reads_SchedC | apply no_reads_SchedE | apply (no_reads_pure (fun _ => _)) ].
Qed.

(** C2 at the form on which the code breaks the invariant.  Whatever
    structure and cache it is given, Schedule A's step asks the cache for
    the Form 1040 entry, although Schedule A precedes Form 1040 in the
    processing order and Form 1040 does not precede Schedule A; what it
    finds there decides the AGI it writes to Line 2.  The step then
    multiplies that [float] by a [Decimal] and raises. *)
Theorem C2_schedule_a_reads_form_1040 :
  (∀ (s : structure) (cache : gmap string structure),
     let result := _perform_calculations s "Schedule A" cache in
     result.1.2 = ["1040"] ∧
     reads_only_preceding "Schedule A" result.1.2 = false ∧
     result.2 = Raise TypeError) ∧
  precedes "Schedule A" "1040" = true ∧
  precedes "1040" "Schedule A" = false ∧
  (_perform_calculations [("page_1", [blank "SchA_Line2_AGI"])] "Schedule A" ∅).1.1
    ≠ (_perform_calculations [("page_1", [blank "SchA_Line2_AGI"])] "Schedule A"
         {[ "1040" := form1040 (PStr "Single") (PFloat 50000) PNone ]}).1.1.
Proof.
  split_and!.
  - intros s cache result. subst result. by rewrite calculate_ScheduleA_run.
  - reflexivity.
  - reflexivity.
  - rewrite !calculate_ScheduleA_run. by vm_compute.
Qed.

(** ** Counting and the most common value *)



















(** ** What the documents contribute to a key *)

Lemma contributions_cons aggregated_data_by_type doc_type types key :
  contributions aggregated_data_by_type (doc_type :: types) key
  = ((default [] (aggregated_data_by_type !! doc_type)
        ≫= fun document_data => document_data ≫= entry_contribution key)
     ++ contributions aggregated_data_by_type types key)%list.
Proof. reflexivity. Qed.

Section ModalKey.
Variable aggregated_data_by_type : gmap string (list document).
Variables summable_keys modal_keys list_keys proprietor_keys : gset string.
Variable key : string.
Hypothesis key_modal : key ∈ modal_keys.
Hypothesis key_not_summable : key ∉ summable_keys.

Let step := process_entry summable_keys modal_keys list_keys proprietor_keys.

Lemma untouched_refl st : untouched key st st.
Proof. done. Qed.

Lemma untouched_trans st1 st2 st3 : untouched key st1 st2 → untouched key st2 st3 → untouched key st1 st3.
Proof. unfold untouched. intros (-> & -> & ->) (-> & -> & ->). done. Qed.

Lemma process_entry_modal is_proprietor_doc st kv :
  modal_values key (step is_proprietor_doc st kv) = (modal_values key st ++ entry_contribution key kv)%list
  ∧ untouched key st (step is_proprietor_doc st kv).
Proof.
  unfold step, process_entry, entry_contribution, modal_values, untouched.
  destruct kv as [k [value source|]]; simpl; [|by rewrite app_nil_r].
  destruct (_clean_string value) as [cleaned_value|];
    [|by destruct (String.eqb k key); rewrite app_nil_r].
  destruct (String.eqb k key) eqn:E.
  - apply String.eqb_eq in E as ->.
    rewrite (bool_decide_eq_false_2 _ key_not_summable), (bool_decide_eq_true_2 _ key_modal).
    simpl. unfold append_to. by rewrite lookup_insert_eq.
  - apply String.eqb_neq in E. rewrite app_nil_r.
    repeat case_bool_decide; simpl; unfold append_to, sum_step;
      repeat case_match; simpl; rewrite ?lookup_insert_ne by done; done.
Qed.

Lemma fold_entries_modal is_proprietor_doc document_data st :
  modal_values key (fold_left (step is_proprietor_doc) document_data st)
    = (modal_values key st ++ (document_data ≫= entry_contribution key))%list
  ∧ untouched key st (fold_left (step is_proprietor_doc) document_data st).
Proof.
  revert st. induction document_data as [|kv document_data IH]; intros st; simpl.
  - by rewrite app_nil_r.
  - destruct (IH (step is_proprietor_doc st kv)) as [-> Hu].
    destruct (process_entry_modal is_proprietor_doc st kv) as [-> Hu'].
    split; [by rewrite <- app_assoc|by eapply untouched_trans].
Qed.

Lemma fold_documents_modal documents st :
  let st' := fold_left
    (process_document summable_keys modal_keys list_keys proprietor_keys) documents st in
  modal_values key st'
    = (modal_values key st ++ (documents ≫= fun document_data =>
                             document_data ≫= entry_contribution key))%list
  ∧ untouched key st st'.
Proof.
  revert st. induction documents as [|document_data documents IH]; intros st; simpl.
  - by rewrite app_nil_r.
  - destruct (IH (process_document summable_keys modal_keys list_keys proprietor_keys
                    st document_data)) as [-> Hu].
    unfold process_document at 2 3.
    destruct (fold_entries_modal
      (existsb (fun kv => bool_decide (kv.1 ∈ proprietor_keys)) document_data)
      document_data st) as [E Hu'].
    unfold step in E, Hu'. 
    split.
    + unfold process_document. rewrite E. by rewrite <- app_assoc.
    + eapply untouched_trans; [exact Hu'|exact Hu].
Qed.

Lemma fold_doc_types_modal relevant_doc_types st :
  let st' := fold_left
    (process_doc_type aggregated_data_by_type summable_keys modal_keys list_keys
       proprietor_keys) relevant_doc_types st in
  modal_values key st'
    = (modal_values key st ++ contributions aggregated_data_by_type relevant_doc_types key)%list
  ∧ untouched key st st'.
Proof.
  revert st. induction relevant_doc_types as [|doc_type types IH]; intros st.
  { simpl. by rewrite app_nil_r. }
  cbn [fold_left]. rewrite contributions_cons.
  destruct (IH (process_doc_type aggregated_data_by_type summable_keys modal_keys
                  list_keys proprietor_keys st doc_type)) as [-> Hu].
  assert (modal_values key (process_doc_type aggregated_data_by_type summable_keys modal_keys
                          list_keys proprietor_keys st doc_type)
          = (modal_values key st ++ (default [] (aggregated_data_by_type !! doc_type)
               ≫= fun document_data => document_data ≫= entry_contribution key))%list
          ∧ untouched key st (process_doc_type aggregated_data_by_type summable_keys modal_keys
                            list_keys proprietor_keys st doc_type)) as [-> Hu'].
  { unfold process_doc_type.
    destruct (aggregated_data_by_type !! doc_type) as [documents|].
    - apply fold_documents_modal.
    - simpl. by rewrite app_nil_r. }
  split; [by rewrite <- app_assoc|by eapply untouched_trans].
Qed.

(** The entry of a modal key in the returned map is the finalised list
    of its contributions. *)
Lemma aggregate_modal_key relevant_doc_types :
  _aggregate_data_for_form aggregated_data_by_type summable_keys modal_keys list_keys
    proprietor_keys relevant_doc_types !! key
  = finalize_modal (contributions aggregated_data_by_type relevant_doc_types key).
Proof.
  unfold _aggregate_data_for_form.
  destruct (fold_doc_types_modal relevant_doc_types
              (initial_state modal_keys list_keys)) as [Em (Ef & El & Ep)].
  simpl in *. set (st := fold_left _ _ _) in *.
  unfold initial_state in Em, Ef, El, Ep. simpl in Ef, El, Ep.
  unfold modal_values in Em. simpl in Em.
  rewrite lookup_gset_to_gmap, option_guard_True in Em by done. simpl in Em.
  unfold finalize.
  assert (omap finalize_list (aggregated_lists st) !! key = None) as Hl.
  { rewrite lookup_omap, El, lookup_gset_to_gmap. by case_guard. }
  assert (omap finalize_modal (proprietor_data st) !! key = None) as Hp.
  { by rewrite lookup_omap, Ep, lookup_empty. }
  rewrite lookup_union_r by done. rewrite lookup_union_r by done.
  rewrite lookup_union, lookup_omap, lookup_fmap, Ef, lookup_empty. simpl.
  destruct (all_values_for_modal_keys st !! key) as [l|] eqn:E; simpl in *.
  - subst l. by destruct (finalize_modal _).
  - by rewrite <- Em.
Qed.
End ModalKey.

(** ** The sources of an entry *)

#[export] Instance str_le_total : Total str_le.
Proof. intros a b. apply String.leb_total. Qed.

Lemma sorted_sources_elem (X : gset string) src : src ∈ sorted_sources X ↔ src ∈ X.
Proof. unfold sorted_sources. by rewrite merge_sort_Permutation, elem_of_elements. Qed.

Lemma sorted_sources_NoDup (X : gset string) : NoDup (sorted_sources X).
Proof. unfold sorted_sources. rewrite merge_sort_Permutation. apply NoDup_elements. Qed.

Lemma sorted_sources_Sorted (X : gset string) : Sorted str_le (sorted_sources X).
Proof. apply Sorted_merge_sort. apply _. Qed.










(** ** Summable keys *)

Lemma sum_step_insert final key cleaned_value source :
  sum_step final key cleaned_value source
  = <[key := sum_add (default sum_zero (final !! key)) (cleaned_value, source)]> final.
Proof.
  unfold sum_step, sum_add, summed_amount, Decimal_of_str. simpl.
  by destruct (parse_decimal _).
Qed.

Section SummableKey.
Variable aggregated_data_by_type : gmap string (list document).
Variables summable_keys modal_keys list_keys proprietor_keys : gset string.
Variable key : string.
Hypothesis key_summable : key ∈ summable_keys.

Let step := process_entry summable_keys modal_keys list_keys proprietor_keys.

Lemma others_untouched_trans st1 st2 st3 :
  others_untouched key st1 st2 → others_untouched key st2 st3 → others_untouched key st1 st3.
Proof. unfold others_untouched. intros (-> & -> & ->) (-> & -> & ->). done. Qed.

Lemma add_all_app acc l1 l2 : add_all acc (l1 ++ l2) = add_all (add_all acc l1) l2.
Proof. unfold add_all. apply fold_left_app. Qed.

Lemma process_entry_sum is_proprietor_doc st kv :
  final_aggregated (step is_proprietor_doc st kv) !! key
    = add_all (final_aggregated st !! key) (entry_contribution key kv)
  ∧ others_untouched key st (step is_proprietor_doc st kv).
Proof.
  unfold step, process_entry, entry_contribution, others_untouched.
  destruct kv as [k [value source|]]; simpl; [|done].
  destruct (_clean_string value) as [cleaned_value|];
    [|by destruct (String.eqb k key)].
  destruct (String.eqb k key) eqn:E.
  - apply String.eqb_eq in E as ->.
    rewrite (bool_decide_eq_true_2 _ key_summable). simpl.
    by rewrite sum_step_insert, lookup_insert_eq.
  - apply String.eqb_neq in E.
    repeat case_bool_decide; simpl; unfold append_to; rewrite ?sum_step_insert;
      repeat case_match; simpl; rewrite ?lookup_insert_ne by done; done.
Qed.

Lemma fold_entries_sum is_proprietor_doc document_data st :
  final_aggregated (fold_left (step is_proprietor_doc) document_data st) !! key
    = add_all (final_aggregated st !! key) (document_data ≫= entry_contribution key)
  ∧ others_untouched key st (fold_left (step is_proprietor_doc) document_data st).
Proof.
  revert st. induction document_data as [|kv document_data IH]; intros st; [done|].
  cbn [fold_left]. destruct (IH (step is_proprietor_doc st kv)) as [-> Hu].
  destruct (process_entry_sum is_proprietor_doc st kv) as [-> Hu'].
  split; [|by eapply others_untouched_trans].
  change ((kv :: document_data) ≫= entry_contribution key)
    with (entry_contribution key kv ++ (document_data ≫= entry_contribution key))%list.
  by rewrite add_all_app.
Qed.

Lemma fold_documents_sum documents st :
  let st' := fold_left
    (process_document summable_keys modal_keys list_keys proprietor_keys) documents st in
  final_aggregated st' !! key
    = add_all (final_aggregated st !! key)
        (documents ≫= fun document_data => document_data ≫= entry_contribution key)
  ∧ others_untouched key st st'.
Proof.
  revert st. induction documents as [|document_data documents IH]; intros st; [done|].
  cbn [fold_left].
  destruct (IH (process_document summable_keys modal_keys list_keys proprietor_keys
                  st document_data)) as [E Hu].
  cbv zeta. rewrite E.
  assert (final_aggregated (process_document summable_keys modal_keys list_keys
                              proprietor_keys st document_data) !! key
          = add_all (final_aggregated st !! key) (document_data ≫= entry_contribution key)
          ∧ others_untouched key st (process_document summable_keys modal_keys list_keys
                                   proprietor_keys st document_data)) as [-> Hu'].
  { unfold process_document. apply fold_entries_sum. }
  split; [|by eapply others_untouched_trans].
  change ((document_data :: documents) ≫= _)
    with ((document_data ≫= entry_contribution key) ++
          (documents ≫= fun document_data => document_data ≫= entry_contribution key))%list.
  by rewrite add_all_app.
Qed.

Lemma fold_doc_types_sum relevant_doc_types st :
  let st' := fold_left
    (process_doc_type aggregated_data_by_type summable_keys modal_keys list_keys
       proprietor_keys) relevant_doc_types st in
  final_aggregated st' !! key
    = add_all (final_aggregated st !! key)
        (contributions aggregated_data_by_type relevant_doc_types key)
  ∧ others_untouched key st st'.
Proof.
  revert st. induction relevant_doc_types as [|doc_type types IH]; intros st; [done|].
  cbn [fold_left]. rewrite contributions_cons.
  destruct (IH (process_doc_type aggregated_data_by_type summable_keys modal_keys
                  list_keys proprietor_keys st doc_type)) as [E Hu].
  cbv zeta. rewrite E.
  assert (final_aggregated (process_doc_type aggregated_data_by_type summable_keys
                              modal_keys list_keys proprietor_keys st doc_type) !! key
          = add_all (final_aggregated st !! key)
              (default [] (aggregated_data_by_type !! doc_type)
                 ≫= fun document_data => document_data ≫= entry_contribution key)
          ∧ others_untouched key st (process_doc_type aggregated_data_by_type summable_keys
                                   modal_keys list_keys proprietor_keys st doc_type))
    as [-> Hu'].
  { unfold process_doc_type.
    destruct (aggregated_data_by_type !! doc_type) as [documents|]; [|done].
    apply fold_documents_sum. }
  split; [by rewrite add_all_app|by eapply others_untouched_trans].
Qed.

(** The entry of a summable key in the returned map. *)
Lemma aggregate_summable_key relevant_doc_types :
  _aggregate_data_for_form aggregated_data_by_type summable_keys modal_keys list_keys
    proprietor_keys relevant_doc_types !! key
  = finalize_sum <$> sum_of (contributions aggregated_data_by_type relevant_doc_types key).
Proof.
  unfold _aggregate_data_for_form.
  destruct (fold_doc_types_sum relevant_doc_types
              (initial_state modal_keys list_keys)) as [Ef (Em & El & Ep)].
  simpl in *. set (st := fold_left _ _ _) in *.
  unfold finalize.
  assert (omap finalize_list (aggregated_lists st) !! key = None) as Hl.
  { rewrite lookup_omap, El, lookup_gset_to_gmap. by case_guard. }
  assert (omap finalize_modal (proprietor_data st) !! key = None) as Hp.
  { by rewrite lookup_omap, Ep, lookup_empty. }
  assert (omap finalize_modal (all_values_for_modal_keys st) !! key = None) as Hm.
  { rewrite lookup_omap, Em, lookup_gset_to_gmap. by case_guard. }
  rewrite !lookup_union_r by done.
  by rewrite lookup_fmap, Ef, lookup_empty.
Qed.
End SummableKey.

Lemma summed_amounts_cons item reported :
  summed_amounts (item :: reported)
  = match summed_amount item.1 with
    | Some q => q :: summed_amounts reported
    | None => summed_amounts reported
    end.
Proof. reflexivity. Qed.

Lemma summed_sources_cons item reported :
  summed_sources (item :: reported)
  = match summed_amount item.1 with
    | Some _ => {[item.2]} ∪ summed_sources reported
    | None => summed_sources reported
    end.
Proof.
  unfold summed_sources. rewrite filter_cons.
  destruct (summed_amount item.1) as [q|]; case_decide as H.
  - by rewrite fmap_cons, list_to_set_cons.
  - exfalso. apply H. by eexists.
  - by destruct H.
  - done.
Qed.

Lemma add_all_value acc reported :
  let before := default sum_zero acc in
  let after := default sum_zero (add_all acc reported) in
  (sum_value after == sum_value before + Qsum (summed_amounts reported))%Q ∧
  sum_sources after = sum_sources before ∪ summed_sources reported.
Proof.
  revert acc. induction reported as [|item reported IH]; intros acc.
  - simpl. split; [ring|]. unfold summed_sources. simpl. by rewrite union_empty_r_L.
  - unfold add_all. cbn [fold_left]. fold (add_all (Some (sum_add (default sum_zero acc) item)) reported).
    destruct (IH (Some (sum_add (default sum_zero acc) item))) as [Hv Hs].
    cbv zeta in *. rewrite Hv, Hs, summed_amounts_cons, summed_sources_cons.
    unfold sum_add. simpl default.
    destruct (summed_amount item.1) as [q|]; simpl; [|done].
    split; [ring|]. by rewrite (assoc_L (∪)).
Qed.

Lemma add_all_is_Some acc reported :
  is_Some (add_all acc reported) ↔ reported ≠ [] ∨ is_Some acc.
Proof.
  revert acc. induction reported as [|item reported IH]; intros acc.
  - simpl. split; [by right|]. by intros [?|?].
  - unfold add_all. cbn [fold_left].
    fold (add_all (Some (sum_add (default sum_zero acc) item)) reported).
    rewrite IH. split; [by left|]. intros _. right. by eexists.
Qed.

(** The entry of a summable key: present as soon as one document
    contributes a non-null value to it, with the sum of the amounts that
    could be read and the sources they came from. *)
Lemma aggregate_sum_entry (aggregated_data_by_type : gmap string (list document))
    (summable_keys modal_keys list_keys proprietor_keys : gset string)
    (relevant_doc_types : list string) (key : string) :
  key ∈ summable_keys →
  let reported := contributions aggregated_data_by_type relevant_doc_types key in
  let entry := _aggregate_data_for_form aggregated_data_by_type summable_keys modal_keys
                 list_keys proprietor_keys relevant_doc_types !! key in
  (reported = [] → entry = None) ∧
  (reported ≠ [] →
   ∃ total entry_sources,
     entry = Some (AggDict (PFloat total) entry_sources) ∧
     (total == Qsum (summed_amounts reported))%Q ∧
     (∀ src, src ∈ entry_sources ↔ src ∈ summed_sources reported)).
Proof.
  intros Hkey reported entry. subst entry.
  rewrite (aggregate_summable_key _ _ _ _ _ _ Hkey). fold reported. unfold sum_of.
  fold (add_all None reported). split.
  - by intros ->.
  - intros Hne.
    destruct (add_all None reported) as [info|] eqn:E.
    + destruct (add_all_value None reported) as [Hv Hs]. cbv zeta in *.
      rewrite E in Hv, Hs. simpl in Hv, Hs.
      exists (sum_value info), (sorted_sources (sum_sources info)). split_and!.
      * done.
      * rewrite Hv. ring.
      * intros src. by rewrite sorted_sources_elem, Hs, union_empty_l_L.
    + assert (is_Some (add_all None reported)) as [? ?] by (apply add_all_is_Some; by left).
      congruence.
Qed.

(** C1 at an input on which the code departs from the specification.  The
    summation branch deletes the parentheses of "(500)" together with the
    currency sign and the commas and adds 500; a document with "$1,200.00"
    and one with "(500)" sum to 1700, where the accounting reading gives
    700.  The field reader [_get_numeric_value] does read "(500)" as
    -500. *)
Theorem C1_parenthesized_amount_is_added :
  summed_amount "(500)" = Some 500%Q ∧
  _aggregate_data_for_form
    {[ "Receipt" := [doc_of "refund.pdf" [("ReturnsAllowances", RStr "(500)")]] ]}
    {["ReturnsAllowances"]} ∅ ∅ ∅ ["Receipt"] !! "ReturnsAllowances"
  = Some (AggDict (PFloat 500) ["refund.pdf"]) ∧
  _aggregate_data_for_form
    {[ "Receipt" := [doc_of "sale.pdf" [("TotalRevenue", RStr "$1,200.00")];
                    doc_of "refund.pdf" [("TotalRevenue", RStr "(500)")]] ]}
    {["TotalRevenue"]} ∅ ∅ ∅ ["Receipt"] !! "TotalRevenue"
  = Some (AggDict (PFloat (170000 # 100)) ["refund.pdf"; "sale.pdf"]) ∧
  _get_numeric_value [("page_1", [mk_field "Line2_ReturnsAllowances" (PStr "(500)") None])]
    "Line2_ReturnsAllowances" = (-500 # 1)%Q.
Proof. split_and!; by vm_compute. Qed.

(** C3 at an input on which the code departs from the specification.  The only
    contribution to a summable key cannot be read as a number: the key is
    present in the returned map, with value 0.0 and no source.  A modal or
    a list key whose only contribution is null is absent. *)
Theorem C3_unparsed_sum_key_is_present :
  _aggregate_data_for_form
    {[ "W-2" := [doc_of "w2.pdf" [("WagesTipsOtherComp", RStr "n/a")]] ]}
    {["WagesTipsOtherComp"]} ∅ ∅ ∅ ["W-2"] !! "WagesTipsOtherComp"
  = Some (AggDict (PFloat 0) []) ∧
  _aggregate_data_for_form
    {[ "W-2" := [doc_of "w2.pdf" [("EmployeeName", RNone); ("EmployerName", RNone)]] ]}
    ∅ {["EmployeeName"]} {["EmployerName"]} ∅ ["W-2"]
  = ∅.
Proof. split; by vm_compute. Qed.

(** ** Null and empty values *)

(** C7, as stated, fails for values whose trimmed form is empty: they are
    counted like any other value.  Two documents report an all-blank and an
    empty name and one reports "Ann": the winning value is the empty
    string. *)
Lemma C7_counterexample :
  _clean_string (RStr "   ") = Some "" ∧
  _clean_string (RStr "") = Some "" ∧
  _aggregate_data_for_form
    {[ "W-2" := [doc_of "first.pdf" [("EmployeeName", RStr "   ")];
                doc_of "second.pdf" [("EmployeeName", RStr "")];
                doc_of "third.pdf" [("EmployeeName", RStr "Ann")]] ]}
    ∅ {["EmployeeName"]} ∅ ∅ ["W-2"] !! "EmployeeName"
  = Some (AggDict (PStr "") ["first.pdf"; "second.pdf"]).
Proof. split_and!; by vm_compute. Qed.

(** C7, amended.  A contribution whose raw value is null is dropped before
    merging: it changes nothing in the aggregation state.  A contribution
    whose trimmed string form is empty is not dropped: for a summable key
    it cannot be read as a number, so it adds nothing to the total or the
    sources of the key and changes nothing else; for a modal key it is
    appended to the values counted, as the empty string. *)
Theorem C7_null_dropped_empty_kept
    (summable_keys modal_keys list_keys proprietor_keys : gset string)
    (is_proprietor_doc : bool) (st : agg_state) (key source : string) :
  process_entry summable_keys modal_keys list_keys proprietor_keys is_proprietor_doc st
    (key, Entry RNone source) = st ∧
  ∀ value : rawval,
    _clean_string value = Some "" →
    let st' := process_entry summable_keys modal_keys list_keys proprietor_keys
                 is_proprietor_doc st (key, Entry value source) in
    (key ∈ summable_keys →
       default sum_zero (final_aggregated st' !! key)
         = default sum_zero (final_aggregated st !! key) ∧
       (∀ other, other ≠ key → final_aggregated st' !! other = final_aggregated st !! other) ∧
       all_values_for_modal_keys st' = all_values_for_modal_keys st ∧
       aggregated_lists st' = aggregated_lists st ∧
       proprietor_data st' = proprietor_data st) ∧
    (key ∉ summable_keys → key ∈ modal_keys →
       all_values_for_modal_keys st' !! key
         = Some (default [] (all_values_for_modal_keys st !! key) ++ [("", source)])%list).
Proof.
  split; [done|]. intros value Hclean st'. subst st'. unfold process_entry. rewrite Hclean.
  split.
  - intros Hs. rewrite (bool_decide_eq_true_2 _ Hs). simpl.
    rewrite sum_step_insert. unfold sum_add. simpl.
    change (summed_amount "") with (@None Q). split_and!; try done.
    + by rewrite lookup_insert_eq.
    + intros other Hne. by rewrite lookup_insert_ne.
  - intros Hs Hm.
    rewrite (bool_decide_eq_false_2 _ Hs), (bool_decide_eq_true_2 _ Hm). simpl.
    unfold append_to. by rewrite lookup_insert_eq.
Qed.

Lemma C7_null_dropped_empty_kept_witness :
  let st := initial_state {["EmployeeName"]} ∅ in
  let st' := process_entry {["WagesTipsOtherComp"]} {["EmployeeName"]} ∅ ∅ false st
               ("EmployeeName", Entry (RStr "   ") "w2.pdf") in
  _clean_string (RStr "   ") = Some "" ∧
  all_values_for_modal_keys st' !! "EmployeeName"
    = Some (default [] (all_values_for_modal_keys st !! "EmployeeName") ++ [("", "w2.pdf")])%list.
Proof.
  split; [reflexivity|].
  apply (proj2 (C7_null_dropped_empty_kept {["WagesTipsOtherComp"]} {["EmployeeName"]} ∅ ∅
                  false (initial_state {["EmployeeName"]} ∅) "EmployeeName" "w2.pdf")
               (RStr "   ")).
  - reflexivity.
  - by vm_compute.
  - by apply elem_of_singleton.
Defined.

(** ** The order in which forms are processed *)

Lemma position_elem form order i : position form order = Some i → form ∈ order.
Proof.
  revert i. induction order as [|x order IH]; intros i; simpl; [done|].
  destruct (String.eqb x form) eqn:E.
  - apply String.eqb_eq in E as ->. intros _. left.
  - destruct (position form order) as [i'|]; [|done]. intros _. right. by eapply IH.
Qed.

(** Two forms at increasing positions of a list split it in three. *)
Lemma position_split order a b i j :
  position a order = Some i → position b order = Some j → (i < j)%nat →
  ∃ l1 l2 l3, order = (l1 ++ a :: l2 ++ b :: l3)%list.
Proof.
  revert i j. induction order as [|x order IH]; intros i j; simpl; [done|].
  destruct (String.eqb x a) eqn:Ea.
  - apply String.eqb_eq in Ea as ->. intros [= <-].
    destruct (String.eqb a b); [intros [= <-]; lia|].
    destruct (position b order) as [j'|] eqn:Eb; [|done]. intros _ _.
    apply position_elem in Eb. apply list_elem_of_split in Eb as (l2 & l3 & ->).
    by exists [], l2, l3.
  - destruct (position a order) as [i'|]; [|done]. intros [= <-].
    destruct (String.eqb x b); [intros [= <-]; lia|].
    destruct (position b order) as [j'|]; [|done]. intros [= <-] Hlt.
    destruct (IH i' j' eq_refl eq_refl ltac:(lia)) as (l1 & l2 & l3 & ->).
    by exists (x :: l1), l2, l3.
Qed.

Lemma processed_before_split (l1 l2 l3 : list string) (a b : string) :
  a ≠ b → a ∉ l2 → a ∉ l3 → b ∉ l1 → b ∉ l2 →
  processed_before a b (l1 ++ a :: l2 ++ b :: l3).
Proof.
  intros Hab Ha2 Ha3 Hb1 Hb2. split_and!.
  - apply elem_of_app. right. left.
  - apply elem_of_app. right. right. apply elem_of_app. right. left.
  - intros i j Hi Hj.
    assert (i <= length l1)%nat.
    { destruct (decide (i <= length l1)%nat) as [|Hgt]; [done|]. exfalso.
      rewrite lookup_app_r in Hi by lia.
      destruct (i - length l1)%nat as [|n] eqn:En; [lia|]. simpl in Hi.
      apply list_elem_of_lookup_2 in Hi.
      apply elem_of_app in Hi as [?|Hi]; [done|].
      apply elem_of_cons in Hi as [?|?]; done. }
    assert (length l1 + 1 + length l2 <= j)%nat; [|lia].
    destruct (decide (length l1 + 1 + length l2 <= j)%nat) as [|Hlt]; [done|]. exfalso.
    change (l1 ++ a :: l2 ++ b :: l3)%list with (l1 ++ (a :: l2) ++ b :: l3)%list in Hj.
    rewrite app_assoc in Hj. rewrite lookup_app_l in Hj by (rewrite length_app; simpl; lia).
    apply list_elem_of_lookup_2 in Hj.
    apply elem_of_app in Hj as [?|Hj]; [done|].
    apply elem_of_cons in Hj as [?|?]; [congruence|done].
Qed.

Lemma PROCESSING_ORDER_NoDup : NoDup PROCESSING_ORDER.
Proof. unfold PROCESSING_ORDER. apply (bool_decide_unpack _). by vm_compute. Qed.

(** Targets that the table lists are processed in table order. *)
Lemma table_order_kept (target_forms : list string) (a b : string) :
  precedes a b = true → a ∈ target_forms → b ∈ target_forms →
  processed_before a b (ordered_target_forms target_forms).
Proof.
  unfold precedes. intros Hp Ha Hb.
  destruct (position a PROCESSING_ORDER) as [i|] eqn:Ei; [|done].
  destruct (position b PROCESSING_ORDER) as [j|] eqn:Ej; [|done].
  apply Nat.ltb_lt in Hp.
  destruct (position_split _ _ _ _ _ Ei Ej Hp) as (l1 & l2 & l3 & Eo).
  pose proof PROCESSING_ORDER_NoDup as Hnd. unfold ordered_target_forms.
  rewrite Eo in Hnd |- *. clear Eo Ei Ej.
  apply NoDup_app in Hnd as (_ & Hl1 & Hnd).
  apply NoDup_cons in Hnd as (Ha' & Hnd).
  apply NoDup_app in Hnd as (_ & Hl2 & Hnd).
  apply NoDup_cons in Hnd as (Hb' & _).
  rewrite elem_of_app, elem_of_cons in Ha'.
  rewrite !filter_app, !filter_cons, !decide_True by done.
  rewrite filter_app, filter_cons, decide_True by done.
  set (ordered := (filter _ l1 ++ a :: filter _ l2 ++ b :: filter _ l3)%list).
  assert (a ∈ ordered ∧ b ∈ ordered) as [Hao Hbo].
  { subst ordered. rewrite !elem_of_app, !elem_of_cons, !elem_of_app, !elem_of_cons. tauto. }
  subst ordered. rewrite <- !app_assoc. simpl. rewrite <- app_assoc. simpl.
  apply processed_before_split.
  - intros ->. tauto.
  - intros [_ ?]%list_elem_of_filter. tauto.
  - rewrite elem_of_app. intros [[_ ?]%list_elem_of_filter|[Hn _]%list_elem_of_filter].
    + tauto.
    + apply Hn. done.
  - intros [_ ?]%list_elem_of_filter. apply (Hl1 b); [done|].
    right. apply elem_of_app. right. left.
  - intros [_ ?]%list_elem_of_filter. apply (Hl2 b); [done|]. left.
Qed.

(** C4, as stated, fails for Schedule 3 and Form 2441: the table lists Form
    2441 before Schedule 3, which takes a credit from it, and so the driver
    processes them. *)
Lemma C4_counterexample :
  ordered_target_forms ["Schedule 3"; "Form 2441"; "1040"]
    = ["Form 2441"; "Schedule 3"; "1040"] ∧
  ¬ processed_before "Schedule 3" "Form 2441"
      (ordered_target_forms ["Schedule 3"; "Form 2441"; "1040"]).
Proof.
  assert (ordered_target_forms ["Schedule 3"; "Form 2441"; "1040"]
          = ["Form 2441"; "Schedule 3"; "1040"]) as E by (by vm_compute).
  split; [done|]. rewrite E. intros (_ & _ & H).
  specialize (H 1%nat 0%nat eq_refl eq_refl). lia.
Qed.

(** C4, amended.  For every list of determined target forms, the driver
    processes Schedule C and Schedule E before Schedule SE, Schedule SE
    before Schedule 1, Schedule 1 before Schedules 2 and 3, Schedule 2
    before Form 2441, Form 2441 before Schedule 3, Schedules 2 and 3 before
    Form 8812 and Schedule A, and all of those before Form 1040, whenever
    both forms of a pair are among the targets. *)
Theorem C4_processing_order (target_forms : list string) (a b : string) :
  (a, b) ∈ processed_earlier →
  a ∈ target_forms →
  b ∈ target_forms →
  processed_before a b (ordered_target_forms target_forms).
Proof.
  intros Hpair. apply table_order_kept.
  apply list_elem_of_In in Hpair. simpl in Hpair.
  repeat (destruct Hpair as [[= <- <-]|Hpair]; [reflexivity|]). done.
Qed.

Lemma C4_processing_order_witness :
  processed_before "Form 2441" "Schedule 3"
    (ordered_target_forms ["1040"; "Schedule 3"; "SchedC"; "Form 2441"]).
Proof.
  apply (C4_processing_order ["1040"; "Schedule 3"; "SchedC"; "Form 2441"]
           "Form 2441" "Schedule 3").
  - apply (bool_decide_unpack _). by vm_compute.
  - apply (bool_decide_unpack _). by vm_compute.
  - apply (bool_decide_unpack _). by vm_compute.
Defined.

(** ** Form 1040, the tax of Line 16 *)

Ltac minmax_cases :=
  repeat match goal with
  | |- context [Qmin ?a ?b] =>
      let m := fresh "m" in
      pose proof (Q.min_spec a b); set (m := Qmin a b) in *; clearbody m
  end;
  repeat match goal with
  | |- context [Qmax ?a ?b] =>
      let m := fresh "m" in
      pose proof (Q.max_spec a b); set (m := Qmax a b) in *; clearbody m
  end;
  repeat match goal with
  | H : _ ∨ _ |- _ => destruct H as [[? ?]|[? ?]]
  end.

Lemma tax_married_jointly_progressive ti :
  ∃ t, tax_married_jointly (NDec ti) = Ok (NDec t)
       ∧ (t == progressive 22000 89450 190750 ti)%Q.
Proof.
  unfold tax_married_jointly.
  destruct (py_le (NDec ti) (NInt 22000)) eqn:E1.
  { apply py_le_le in E1; simpl in E1. eexists; split; [reflexivity|].
    unfold progressive. minmax_cases; unfold inject_Z in *; lra. }
  apply py_le_gt in E1; simpl in E1.
  destruct (py_le (NDec ti) (NInt 89450)) eqn:E2.
  { apply py_le_le in E2; simpl in E2. eexists; split; [reflexivity|].
    unfold progressive. simpl. minmax_cases; unfold inject_Z in *; lra. }
  apply py_le_gt in E2; simpl in E2.
  destruct (py_le (NDec ti) (NInt 190750)) eqn:E3.
  { apply py_le_le in E3; simpl in E3. eexists; split; [reflexivity|].
    unfold progressive. simpl. minmax_cases; unfold inject_Z in *; lra. }
  apply py_le_gt in E3; simpl in E3.
  eexists; split; [reflexivity|].
  unfold progressive. simpl. minmax_cases; unfold inject_Z in *; lra.
Qed.

Lemma tax_single_progressive ti :
  (ti <= 95375)%Q →
  ∃ t, tax_single (NDec ti) = Ok (NDec t)
       ∧ (t == progressive 11000 44725 95375 ti)%Q.
Proof.
  intros Hti. unfold tax_single.
  destruct (py_le (NDec ti) (NInt 11000)) eqn:E1.
  { apply py_le_le in E1; simpl in E1. eexists; split; [reflexivity|].
    unfold progressive. minmax_cases; unfold inject_Z in *; lra. }
  apply py_le_gt in E1; simpl in E1.
  destruct (py_le (NDec ti) (NInt 44725)) eqn:E2.
  { apply py_le_le in E2; simpl in E2. eexists; split; [reflexivity|].
    unfold progressive. simpl. minmax_cases; unfold inject_Z in *; lra. }
  apply py_le_gt in E2; simpl in E2.
  destruct (py_le (NDec ti) (NInt 95375)) eqn:E3.
  { apply py_le_le in E3; simpl in E3. eexists; split; [reflexivity|].
    unfold progressive. simpl. minmax_cases; unfold inject_Z in *; lra. }
  apply py_le_gt in E3; simpl in E3. unfold inject_Z in *. lra.
Qed.

Lemma progressive_nonneg b1 b2 b3 ti : (0 <= ti)%Q → (0 <= b1)%Q → (0 <= progressive b1 b2 b3 ti)%Q.
Proof. intros. unfold progressive. minmax_cases; lra. Qed.

(** X1.  Line 16 of Form 1040.  For married filing jointly the bracket
    lookup returns for every taxable income, and the tax before rounding to
    cents is the progressive tax of the table 22000 / 89450 / 190750: 10%
    of the income up to the first limit, 12%, 22% and 24% of the slices
    above.  For every other status the same holds for the table 11000 /
    44725 / 95375 as long as the taxable income does not exceed 95375.  The
    amount written to Line 16 is that tax rounded half-even to cents. *)
Theorem line16_is_progressive_tax (fs : pyval) (ti : Q) (st : cstate) :
  (str_is fs "MarriedFilingJointly" = true →
   ∃ t, line16_tax fs (NDec ti) st
        = (mk_cstate (_set_field_value (form st) "Line16_Tax" (PFloat (quantize_cents t)))
             (cache_reads st), Ok (NDec (quantize_cents t)))
        ∧ (t == progressive 22000 89450 190750 ti)%Q) ∧
  (str_is fs "MarriedFilingJointly" = false → (ti <= 95375)%Q →
   ∃ t, line16_tax fs (NDec ti) st
        = (mk_cstate (_set_field_value (form st) "Line16_Tax" (PFloat (quantize_cents t)))
             (cache_reads st), Ok (NDec (quantize_cents t)))
        ∧ (t == progressive 11000 44725 95375 ti)%Q).
Proof.
  split.
  - intros Hfs. unfold line16_tax.
    assert (str_is fs "Single" = false) as ->.
    { destruct (str_is fs "Single") eqn:E; [|done].
      apply str_is_single_not_jointly in E. congruence. }
    rewrite Hfs. destruct (tax_married_jointly_progressive ti) as (t & -> & Ht).
    exists t. split; [reflexivity|done].
  - intros Hfs Hti. unfold line16_tax. rewrite Hfs.
    destruct (tax_single_progressive ti Hti) as (t & Et & Ht).
    exists t. split; [|done].
    change (tax_unhandled_status (NDec ti)) with (tax_single (NDec ti)).
    destruct (str_is fs "Single"); by rewrite Et.
Qed.

Lemma line16_is_progressive_tax_witness :
  let st := mk_cstate [("page_2", [blank "Line16_Tax"])] [] in
  (∃ t, line16_tax (PStr "MarriedFilingJointly") (NDec 200000) st
        = (mk_cstate (_set_field_value (form st) "Line16_Tax" (PFloat (quantize_cents t)))
             (cache_reads st), Ok (NDec (quantize_cents t)))
        ∧ (t == progressive 22000 89450 190750 200000)%Q) ∧
  (∃ t, line16_tax (PStr "Single") (NDec 50000) st
        = (mk_cstate (_set_field_value (form st) "Line16_Tax" (PFloat (quantize_cents t)))
             (cache_reads st), Ok (NDec (quantize_cents t)))
        ∧ (t == progressive 11000 44725 95375 50000)%Q).
Proof.
  intros st. split.
  - apply (proj1 (line16_is_progressive_tax (PStr "MarriedFilingJointly") 200000 st)).
    reflexivity.
  - apply (proj2 (line16_is_progressive_tax (PStr "Single") 50000 st)); [reflexivity|].
    unfold Qle. simpl. lia.
Defined.

(** ** Form 1040, Lines 14 and 15 *)

Lemma line15_taxable_income_writes d st :
  ∃ s', line15_taxable_income (NDec d) st
        = (mk_cstate s' (cache_reads st), Ok (NDec (taxable_income_of (form st) d))) ∧
    (has_field (form st) "Line14_TotalDeductions" = true →
     _get_field_value s' "Line14_TotalDeductions"
     = PFloat (d + _get_numeric_value (form st) "Line13_QualifiedBusinessIncomeDeduction")) ∧
    (has_field (form st) "Line15_TaxableIncome" = true →
     _get_field_value s' "Line15_TaxableIncome" = PFloat (taxable_income_of (form st) d)).
Proof.
  unfold line15_taxable_income. run_calc. field_reads.
  unfold taxable_income_of, py_lt. simpl num_value.
  destruct (Qltb _ _); eexists; (split_and!; [reflexivity|intros H; by field_written..]).
Qed.

Lemma taxable_income_of_clamped s d :
  (taxable_income_of s d
   == Qmax 0 (_get_numeric_value s "Line11_AdjustedGrossIncome"
              - (d + _get_numeric_value s "Line13_QualifiedBusinessIncomeDeduction")))%Q
  ∧ (0 <= taxable_income_of s d)%Q.
Proof.
  unfold taxable_income_of. destruct (Qltb _ _) eqn:E.
  - apply Qltb_lt in E. unfold inject_Z in E. split; [|lra]. minmax_cases; lra.
  - apply Qltb_ge in E. unfold inject_Z in E. split; [|lra]. minmax_cases; lra.
Qed.

Lemma keeps_after_line15 name fs ti :
  name ∈ ["Line14_TotalDeductions"; "Line15_TaxableIncome"] →
  keeps name (line16 ← line16_tax fs ti; line24 ← line24_total_tax line16; line34_line37 line24).
Proof.
  intros Hin.
  assert (name = "Line14_TotalDeductions" ∨ name = "Line15_TaxableIncome") as Hname.
  { apply list_elem_of_In in Hin. simpl in Hin. destruct Hin as [<-|[<-|[]]]; auto. }
  apply keeps_bind; [apply keeps_line16; by destruct Hname as [-> | ->]|intros ?].
  apply keeps_bind; [apply keeps_line24; by destruct Hname as [-> | ->]|intros ?].
  apply keeps_line34_line37; by destruct Hname as [-> | ->].
Qed.

(** X2.  Lines 14 and 15 of Form 1040.  Whether the step later returns or
    raises, a structure that has the two fields leaves it with Line 14 =
    the Line 12 deduction + Line 13, and with Line 15 = Line 11 - Line 14
    where that is positive and 0 otherwise: the taxable income is never
    negative. *)
Theorem form_1040_taxable_income_is_clamped (s : structure) (cache : gmap string structure) :
  let s' := (_perform_calculations s "1040" cache).1.1 in
  let line14 := (deduction s cache
                 + _get_numeric_value s "Line13_QualifiedBusinessIncomeDeduction")%Q in
  (has_field s "Line14_TotalDeductions" = true →
   _get_field_value s' "Line14_TotalDeductions" = PFloat line14) ∧
  (has_field s "Line15_TaxableIncome" = true →
   ∃ line15 : Q,
     _get_field_value s' "Line15_TaxableIncome" = PFloat line15 ∧
     (line15 == Qmax 0 (_get_numeric_value s "Line11_AdjustedGrossIncome" - line14))%Q ∧
     (0 <= line15)%Q).
Proof.
  intros s' line14.
  set (ti := taxable_income_of s (deduction s cache)).
  assert (∃ s2 st5,
            s' = form st5 ∧
            _get_field_value (form st5) "Line14_TotalDeductions"
            = _get_field_value s2 "Line14_TotalDeductions" ∧
            _get_field_value (form st5) "Line15_TaxableIncome"
            = _get_field_value s2 "Line15_TaxableIncome" ∧
            (has_field s "Line14_TotalDeductions" = true →
             _get_field_value s2 "Line14_TotalDeductions" = PFloat line14) ∧
            (has_field s "Line15_TaxableIncome" = true →
             _get_field_value s2 "Line15_TaxableIncome" = PFloat ti))
    as (s2 & st5 & -> & K14 & K15 & W14 & W15).
  { subst s'. unfold _perform_calculations. rewrite dispatch_1040, calculate_1040_split.
    rewrite line12_deduction_run. simpl form.
    unfold after_line12. unfold mbind at 1. unfold calc_bind at 1.
    set (st1 := mk_cstate _ _).
    assert (∀ name, has_field (form st1) name = has_field s name) as F1.
    { intros name. subst st1. simpl. by field_reads. }
    assert (taxable_income_of (form st1) (deduction s cache) = ti) as Eti.
    { subst st1 ti. unfold taxable_income_of. simpl form. by field_reads. }
    assert (_get_numeric_value (form st1) "Line13_QualifiedBusinessIncomeDeduction"
            = _get_numeric_value s "Line13_QualifiedBusinessIncomeDeduction") as E13.
    { subst st1. simpl form. by field_reads. }
    destruct (line15_taxable_income_writes (deduction s cache) st1) as (s2 & -> & W14 & W15).
    rewrite F1 in W14, W15. rewrite Eti in W15 |- *. rewrite E13 in W14.
    match goal with
    | |- context [(let '(st, r0) := ?m ?st2 in _)] =>
        pose proof (keeps_after_line15 "Line14_TotalDeductions" _ _ ltac:(by left) st2
                    : _get_field_value (form (m st2).1) _ = _) as K14;
        pose proof (keeps_after_line15 "Line15_TaxableIncome" _ _ ltac:(by right; left) st2
                    : _get_field_value (form (m st2).1) _ = _) as K15;
        destruct (m st2) as [st5 r]
    end.
    exists s2, st5. simpl in *. split_and!; [done|done|done|exact W14|exact W15]. }
  split.
  - rewrite K14. exact W14.
  - intros H. exists ti. rewrite K15. split; [by apply W15|].
    apply taxable_income_of_clamped.
Qed.

Lemma form_1040_taxable_income_is_clamped_witness :
  let s := form1040 (PStr "Single") (PFloat 10000) PNone in
  let s' := (_perform_calculations s "1040" ∅).1.1 in
  let line14 := (deduction s ∅
                 + _get_numeric_value s "Line13_QualifiedBusinessIncomeDeduction")%Q in
  _get_field_value s' "Line14_TotalDeductions" = PFloat line14 ∧
  ∃ line15 : Q,
     _get_field_value s' "Line15_TaxableIncome" = PFloat line15 ∧
     (line15 == Qmax 0 (_get_numeric_value s "Line11_AdjustedGrossIncome" - line14))%Q ∧
     (0 <= line15)%Q.
Proof.
  intros s s' line14.
  destruct (form_1040_taxable_income_is_clamped s ∅) as [H14 H15].
  split; [apply H14|apply H15]; reflexivity.
Defined.

(** ** The layout of a structure *)

Lemma set_in_fields_names name v src fields fields' :
  set_in_fields name v src fields = Some fields' →
  field_name <$> fields' = field_name <$> fields.
Proof.
  revert fields'. induction fields as [|f fields IH]; simpl; intros fields' H; [done|].
  destruct (String.eqb (field_name f) name).
  - by inversion H.
  - destruct (set_in_fields name v src fields) as [fs|]; [|done].
    inversion H; subst. simpl. f_equal. by apply IH.
Qed.

Lemma field_names_set s name v : field_names (_set_field_value s name v) = field_names s.
Proof.
  unfold _set_field_value, field_names.
  induction s as [|[page_key fields] s IH]; [done|].
  cbn [_set_field_value_from].
  destruct (set_in_fields name v "Calculated" fields) as [fields'|] eqn:E;
    rewrite !fmap_cons; cbn [fst snd].
  - by rewrite (set_in_fields_names _ _ _ _ _ E).
  - by rewrite IH.
Qed.

Lemma same_layout_pure {A : Type} (f : cstate → outcome A) :
  same_layout (fun st => (st, f st)).
Proof. by intros st. Qed.

Lemma same_layout_set_field name v : same_layout (set_field name v).
Proof. intros st. simpl. apply field_names_set. Qed.

Lemma same_layout_cache_get cache key : same_layout (cache_get cache key).
Proof. by intros st. Qed.

Lemma same_layout_bind {A B : Type} (m : calc A) (k : A → calc B) :
  same_layout m → (∀ a, same_layout (k a)) → same_layout (m ≫= k).
Proof.
  intros Hm Hk st. unfold mbind, calc_bind.
  specialize (Hm st). destruct (m st) as [st' [a|e]]; simpl in *.
  - by rewrite Hk.
  - done.
Qed.

Ltac same_layout_tac :=
  repeat first
    [ apply same_layout_set_field
    | apply same_layout_cache_get
    | apply (same_layout_pure (fun _ => _))
    | apply same_layout_bind; [| intros ?] ].

Lemma same_layout_get_numerics names : same_layout (get_numerics names).
Proof. induction names; simpl; same_layout_tac. done. Qed.

Lemma same_layout_1040 cache : same_layout (calculate_1040 cache).
Proof.
  unfold calculate_1040.
  apply same_layout_bind; [unfold line12_deduction; same_layout_tac|intros [fs d]].
  apply same_layout_bind; [unfold line15_taxable_income; same_layout_tac|intros ?].
  apply same_layout_bind; [unfold line16_tax; same_layout_tac|intros ?].
  apply same_layout_bind; [unfold line24_total_tax; same_layout_tac|intros ?].
  unfold line34_line37. same_layout_tac.
Qed.

Lemma same_layout_SchedC : same_layout calculate_SchedC.
Proof.
  unfold calculate_SchedC.
  do 7 (apply same_layout_bind; [same_layout_tac|intros ?]).
  apply same_layout_bind; [apply same_layout_get_numerics|intros ?]. same_layout_tac.
Qed.

Lemma same_layout_SchedE_column total col : same_layout (calculate_SchedE_column total col).
Proof.
  unfold calculate_SchedE_column.
  apply same_layout_bind; [same_layout_tac|intros rent].
  destruct rent; try apply (same_layout_pure (fun _ => _));
    (apply same_layout_bind; [apply same_layout_get_numerics|intros ?]; same_layout_tac).
Qed.

Lemma same_layout_SchedE : same_layout calculate_SchedE.
Proof.
  unfold calculate_SchedE. apply same_layout_bind; [|intros ?; same_layout_tac].
  simpl. repeat (apply same_layout_bind; [apply same_layout_SchedE_column|intros ?]).
  apply (same_layout_pure (fun _ => _)).
Qed.

Lemma same_layout_ScheduleA cache : same_layout (calculate_ScheduleA cache).
Proof. unfold calculate_ScheduleA. same_layout_tac. Qed.

(** X3.  No calculation step adds, removes, renames or reorders a field:
    for every form type, known or not, and whether the step returns or
    raises, the structure it leaves has the page keys and field names of
    the structure it was given, in the same order. *)
Theorem calculations_keep_the_layout (s : structure) (form_type : string)
    (cache : gmap string structure) :
  field_names (_perform_calculations s form_type cache).1.1 = field_names s.
Proof.
  assert (∀ m : calc unit, same_layout m →
            field_names (let '(st, r) := m (mk_cstate s []) in
                         (form st, cache_reads st, r)).1.1 = field_names s) as Hall.
  { intros m Hm. specialize (Hm (mk_cstate s [])).
    by destruct (m _) as [st r]. }
  unfold _perform_calculations, _perform_calculations_step.
  destruct (String.eqb form_type "1040"); [apply Hall, same_layout_1040|].
  destruct (String.eqb form_type "SchedC"); [apply Hall, same_layout_SchedC|].
  destruct (String.eqb form_type "1040-SE"); [apply Hall, (same_layout_pure (fun _ => _))|].
  destruct (String.eqb form_type "SchedE"); [apply Hall, same_layout_SchedE|].
  destruct (String.eqb form_type "Schedule 1"); [apply Hall, (same_layout_pure (fun _ => _))|].
  destruct (String.eqb form_type "Schedule 2"); [apply Hall, (same_layout_pure (fun _ => _))|].
  destruct (String.eqb form_type "Schedule 3"); [apply Hall, (same_layout_pure (fun _ => _))|].
  destruct (String.eqb form_type "Form 2441"); [apply Hall, (same_layout_pure (fun _ => _))|].
  destruct (String.eqb form_type "Form 8812"); [apply Hall, (same_layout_pure (fun _ => _))|].
  destruct (String.eqb form_type "Schedule A"); [apply Hall, same_layout_ScheduleA|].
  apply Hall, (same_layout_pure (fun _ => _)).
Qed.

(** ** Schedule A writes one line *)

(** X4.  The Schedule A step writes Line 2 and nothing else: every other
    field, the total of Line 17 included, holds after the step what it
    held before. *)
Theorem schedule_a_writes_line_2_only (s : structure) (cache : gmap string structure)
    (name : string) :
  name ≠ "SchA_Line2_AGI" →
  _get_field_value (_perform_calculations s "Schedule A" cache).1.1 name
  = _get_field_value s name.
Proof.
  intros Hne. rewrite calculate_ScheduleA_run. simpl. by rewrite get_set_ne.
Qed.

Lemma schedule_a_writes_line_2_only_witness :
  let s := [("page_1", page_of [("SchA_Line1_MedicalDentalExpenses", PFloat 9000);
                                ("SchA_Line2_AGI", PNone);
                                ("SchA_Line17_TotalItemizedDeductions", PNone)])] in
  _get_field_value
    (_perform_calculations s "Schedule A"
       {[ "1040" := form1040 (PStr "Single") (PFloat 50000) PNone ]}).1.1
    "SchA_Line17_TotalItemizedDeductions"
  = _get_field_value s "SchA_Line17_TotalItemizedDeductions".
Proof.
  intros s. apply (schedule_a_writes_line_2_only s); done.
Defined.

(** ** Schedule E *)

Lemma SchedE_column_skipped total col st :
  SchedE_has_rents (form st) col = false →
  calculate_SchedE_column total col st = (st, Ok total).
Proof.
  unfold SchedE_has_rents, SchedE_rents_field, calculate_SchedE_column.
  destruct st as [s reads]. simpl form. intros H. run_calc.
  by destruct (_get_field_value s _).
Qed.

Lemma SchedE_column_computed total col s reads :
  col ∈ ["A"; "B"; "C"] →
  SchedE_has_rents s col = true →
  ∃ l20 l21 l22 total' : Q,
    calculate_SchedE_column (NDec total) col (mk_cstate s reads)
    = (mk_cstate
         (_set_field_value
            (_set_field_value
               (_set_field_value s ("SchedE_Line20_TotalExpenses" +:+ col) (PFloat l20))
               ("SchedE_Line21_IncomeLoss" +:+ col) (PFloat l21))
            ("SchedE_Line22_DeductibleLoss" +:+ col) (PFloat l22))
         reads, Ok (NDec total')) ∧
    (l20 == SchedE_expenses s col)%Q ∧
    (l21 == SchedE_income_loss s col)%Q ∧
    (l22 == Qmin 0 l21)%Q ∧
    (total' == total + l21)%Q.
Proof.
  intros Hcol Hrent.
  assert (col = "A" ∨ col = "B" ∨ col = "C") as Hc.
  { apply list_elem_of_In in Hcol. simpl in Hcol. intuition. }
  unfold SchedE_has_rents, SchedE_rents_field in Hrent.
  unfold calculate_SchedE_column, SchedE_income_loss, SchedE_expenses, SchedE_rents_field,
    SchedE_expense_lines.
  destruct Hc as [-> | [-> | ->]]; simpl String.append in *;
    (destruct (_get_field_value s _) eqn:E in Hrent; [done|..]);
    run_calc; rewrite E; field_reads;
    unfold py_lt; simpl num_value;
    (destruct (Qltb _ _) eqn:E22;
     [apply Qltb_lt in E22|apply Qltb_ge in E22];
     eexists _, _, _, _; (split; [reflexivity|]);
     unfold Qsum; simpl; unfold inject_Z in *;
     (split_and!; [ring|ring| |ring]);
     [rewrite Q.min_r; [reflexivity|lra] | rewrite Q.min_l; [reflexivity|lra]]).
Qed.

Lemma SchedE_column_lines_notin col name :
  name ∉ SchedE_column_lines col ↔
  name ≠ "SchedE_Line20_TotalExpenses" +:+ col ∧
  name ≠ "SchedE_Line21_IncomeLoss" +:+ col ∧
  name ≠ "SchedE_Line22_DeductibleLoss" +:+ col.
Proof.
  unfold SchedE_column_lines. rewrite !not_elem_of_cons.
  pose proof (not_elem_of_nil name). tauto.
Qed.

(** What one turn of the loop over the columns does to the structure and to
    the running total. *)
Lemma SchedE_column_effect total col s reads :
  col ∈ ["A"; "B"; "C"] →
  ∃ (s' : structure) (total' : Q),
    calculate_SchedE_column (NDec total) col (mk_cstate s reads)
    = (mk_cstate s' reads, Ok (NDec total')) ∧
    (∀ name, name ∉ SchedE_column_lines col →
       _get_field_value s' name = _get_field_value s name) ∧
    (∀ name, has_field s' name = has_field s name) ∧
    (total' == total + (if SchedE_has_rents s col then SchedE_income_loss s col else 0))%Q ∧
    (if SchedE_has_rents s col then
       (∀ name, name ∈ SchedE_column_lines col → has_field s name = true) →
       ∃ l20 l21 l22 : Q,
         _get_field_value s' ("SchedE_Line20_TotalExpenses" +:+ col) = PFloat l20 ∧
         (l20 == SchedE_expenses s col)%Q ∧
         _get_field_value s' ("SchedE_Line21_IncomeLoss" +:+ col) = PFloat l21 ∧
         (l21 == SchedE_income_loss s col)%Q ∧
         _get_field_value s' ("SchedE_Line22_DeductibleLoss" +:+ col) = PFloat l22 ∧
         (l22 == Qmin 0 (SchedE_income_loss s col))%Q
     else s' = s).
Proof.
  intros Hcol. destruct (SchedE_has_rents s col) eqn:E.
  - destruct (SchedE_column_computed total col s reads Hcol E)
      as (l20 & l21 & l22 & total' & Erun & H20 & H21 & H22 & Ht).
    eexists _, total'. split; [exact Erun|]. split_and!.
    + intros name Hname. apply SchedE_column_lines_notin in Hname as (N20 & N21 & N22).
      by rewrite !get_set_ne by done.
    + intros name. by rewrite !has_field_set.
    + by rewrite Ht, H21.
    + intros Hfields. exists l20, l21, l22.
      assert (has_field s ("SchedE_Line20_TotalExpenses" +:+ col) = true) as F20.
      { apply Hfields. unfold SchedE_column_lines. rewrite !elem_of_cons. tauto. }
      assert (has_field s ("SchedE_Line21_IncomeLoss" +:+ col) = true) as F21.
      { apply Hfields. unfold SchedE_column_lines. rewrite !elem_of_cons. tauto. }
      assert (has_field s ("SchedE_Line22_DeductibleLoss" +:+ col) = true) as F22.
      { apply Hfields. unfold SchedE_column_lines. rewrite !elem_of_cons. tauto. }
      split_and!.
      * rewrite !get_set_ne by done. by rewrite get_set_eq.
      * done.
      * rewrite get_set_ne by done. rewrite get_set_eq; [done|]. by rewrite has_field_set.
      * done.
      * rewrite get_set_eq; [done|]. by rewrite !has_field_set.
      * by rewrite H22, H21.
  - rewrite (SchedE_column_skipped (NDec total) col (mk_cstate s reads) E).
    exists s, total. split_and!; try done. ring.
Qed.

(** A column reads none of the lines another turn of the loop writes. *)
Lemma SchedE_inputs_kept col col' s s' :
  (∀ name, name ∉ SchedE_column_lines col' →
     _get_field_value s' name = _get_field_value s name) →
  SchedE_has_rents s' col = SchedE_has_rents s col ∧
  SchedE_expenses s' col = SchedE_expenses s col ∧
  SchedE_income_loss s' col = SchedE_income_loss s col.
Proof.
  intros Hkeep.
  assert (∀ name, name ∉ SchedE_column_lines col' →
            _get_numeric_value s' name = _get_numeric_value s name) as Hnum.
  { intros name Hname. apply get_numeric_same. by apply Hkeep. }
  unfold SchedE_has_rents, SchedE_income_loss, SchedE_expenses, SchedE_rents_field,
    SchedE_expense_lines.
  rewrite Hkeep by (apply SchedE_column_lines_notin; done).
  split; [done|]. simpl.
  by rewrite !Hnum by (apply SchedE_column_lines_notin; done).
Qed.

Lemma SchedE_outputs_apart col col' name :
  col ≠ col' → name ∈ SchedE_column_lines col → name ∉ SchedE_column_lines col'.
Proof.
  intros Hne Hin. apply SchedE_column_lines_notin.
  unfold SchedE_column_lines in Hin. rewrite !elem_of_cons in Hin.
  assert (∀ p : string, p +:+ col ≠ p +:+ col') as Hp.
  { intros p. induction p as [|c p IH]; simpl; [done|]. intros [=]. done. }
  destruct Hin as [-> | [-> | [-> | Hin]]]; [..|by apply elem_of_nil in Hin];
    split_and!; first [done | apply Hp].
Qed.

(** X5.  Schedule E.  On a structure that has the ten computed fields the
    step returns; for each property column A, B, C whose rents field holds
    a value it writes Line 20 = the sum of the fifteen expense lines 5 to
    19 of that column, Line 21 = rents + royalties - Line 20 and Line 22 =
    Line 21 where that is a loss and 0 otherwise; a column whose rents
    field is empty is skipped, its three lines are left as they were,
    whatever royalties or expenses it holds; Line 26 is the sum of Line 21
    over the columns that were not skipped. *)
Theorem schedule_e_columns (s : structure) (cache : gmap string structure) :
  (∀ name, name ∈ SchedE_computed_lines → has_field s name = true) →
  ∃ s' : structure,
    _perform_calculations s "SchedE" cache = (s', [], Ok tt) ∧
    (∀ col, col ∈ ["A"; "B"; "C"] →
       if SchedE_has_rents s col then
         ∃ l20 l21 l22 : Q,
           _get_field_value s' ("SchedE_Line20_TotalExpenses" +:+ col) = PFloat l20 ∧
           (l20 == SchedE_expenses s col)%Q ∧
           _get_field_value s' ("SchedE_Line21_IncomeLoss" +:+ col) = PFloat l21 ∧
           (l21 == SchedE_income_loss s col)%Q ∧
           _get_field_value s' ("SchedE_Line22_DeductibleLoss" +:+ col) = PFloat l22 ∧
           (l22 == Qmin 0 (SchedE_income_loss s col))%Q
       else
         ∀ name, name ∈ SchedE_column_lines col →
           _get_field_value s' name = _get_field_value s name) ∧
    ∃ l26 : Q,
      _get_field_value s' "SchedE_Line26_TotalIncomeLoss" = PFloat l26 ∧
      (l26 == Qsum (SchedE_income_loss s <$>
                      filter (fun col => SchedE_has_rents s col = true) ["A"; "B"; "C"]))%Q.
Proof.
  intros Hfields.
  assert (∀ col, col ∈ ["A"; "B"; "C"] →
            ∀ name, name ∈ SchedE_column_lines col → has_field s name = true) as Hcolf.
  { intros col Hcol name Hname. apply Hfields. unfold SchedE_computed_lines.
    rewrite !elem_of_app.
    rewrite !elem_of_cons in Hcol. destruct Hcol as [-> | [-> | [-> | Hcol]]];
      [tauto..|by apply elem_of_nil in Hcol]. }
  assert ("A" ∈ ["A"; "B"; "C"]) as InA by (rewrite !elem_of_cons; tauto).
  assert ("B" ∈ ["A"; "B"; "C"]) as InB by (rewrite !elem_of_cons; tauto).
  assert ("C" ∈ ["A"; "B"; "C"]) as InC by (rewrite !elem_of_cons; tauto).
  destruct (SchedE_column_effect 0 "A" s [] InA) as (sA & tA & EA & KA & FA & TA & VA).
  destruct (SchedE_column_effect tA "B" sA [] InB) as (sB & tB & EB & KB & FB & TB & VB).
  destruct (SchedE_column_effect tB "C" sB [] InC) as (sC & tC & EC & KC & FC & TC & VC).
  destruct (SchedE_inputs_kept "B" "A" s sA KA) as (RB & XB & IB).
  destruct (SchedE_inputs_kept "C" "A" s sA KA) as (RC1 & XC1 & IC1).
  destruct (SchedE_inputs_kept "C" "B" sA sB KB) as (RC2 & XC2 & IC2).
  rewrite RB, ?XB, ?IB in TB, VB. rewrite RC2, RC1, ?XC2, ?XC1, ?IC2, ?IC1 in TC, VC.
  exists (_set_field_value sC "SchedE_Line26_TotalIncomeLoss" (PFloat tC)). split_and!.
  - unfold _perform_calculations.
    change (_perform_calculations_step "SchedE" cache) with calculate_SchedE.
    unfold calculate_SchedE. cbn [for_columns]. unfold mbind, calc_bind.
    rewrite EA. cbv beta iota. rewrite EB. cbv beta iota. rewrite EC. reflexivity.
  - intros col Hcol.
    assert (∀ name, name ∈ SchedE_column_lines col →
              name ≠ "SchedE_Line26_TotalIncomeLoss") as N26.
    { intros name Hname ->. unfold SchedE_column_lines in Hname.
      rewrite !elem_of_cons in Hname.
      destruct Hname as [H | [H | [H | H]]]; [done..|by apply elem_of_nil in H]. }
    assert (∀ name, name ∈ SchedE_column_lines col →
              _get_field_value (_set_field_value sC "SchedE_Line26_TotalIncomeLoss" (PFloat tC))
                name
              = _get_field_value
                  (if decide (col = "A") then sA else if decide (col = "B") then sB else sC)
                  name) as Hlast.
    { intros name Hname.
      rewrite get_set_ne by (intros Heq; eapply N26; [exact Hname|by symmetry]).
      repeat case_decide; subst.
      - rewrite KC by (by apply (SchedE_outputs_apart "A" "C")).
        by rewrite KB by (by apply (SchedE_outputs_apart "A" "B")).
      - by rewrite KC by (by apply (SchedE_outputs_apart "B" "C")).
      - done. }
    assert (∀ name, name ∈ SchedE_column_lines col →
              _get_field_value
                (if decide (col = "A") then s else if decide (col = "B") then sA else sB) name
              = _get_field_value s name) as Hfirst.
    { intros name Hname. repeat case_decide; subst.
      - done.
      - by rewrite KA by (by apply (SchedE_outputs_apart "B" "A")).
      - rewrite KB by (by apply (SchedE_outputs_apart col "B")).
        by rewrite KA by (by apply (SchedE_outputs_apart col "A")). }
    assert (∀ name, name ∈ SchedE_column_lines col →
              has_field
                (if decide (col = "A") then s else if decide (col = "B") then sA else sB) name
              = true) as Hhas.
    { intros name Hname. repeat case_decide; subst; rewrite ?FB, ?FA; by eapply Hcolf. }
    assert (col = "A" ∨ col = "B" ∨ col = "C") as Hc.
    { rewrite !elem_of_cons in Hcol. destruct Hcol as [? | [? | [? | H]]];
        [tauto..|by apply elem_of_nil in H]. }
    assert (∀ name, name ∈ SchedE_column_lines col → name ∈ SchedE_column_lines col) as Hid
      by done.
    assert ("SchedE_Line20_TotalExpenses" +:+ col ∈ SchedE_column_lines col) as M20.
    { unfold SchedE_column_lines. rewrite !elem_of_cons. tauto. }
    assert ("SchedE_Line21_IncomeLoss" +:+ col ∈ SchedE_column_lines col) as M21.
    { unfold SchedE_column_lines. rewrite !elem_of_cons. tauto. }
    assert ("SchedE_Line22_DeductibleLoss" +:+ col ∈ SchedE_column_lines col) as M22.
    { unfold SchedE_column_lines. rewrite !elem_of_cons. tauto. }
    destruct Hc as [-> | [-> | ->]]; simpl in Hlast, Hfirst, Hhas.
    + destruct (SchedE_has_rents s "A").
      * rewrite !Hlast by done. by apply VA.
      * subst sA. intros name Hname. by rewrite Hlast.
    + destruct (SchedE_has_rents s "B").
      * rewrite !Hlast by done. destruct (VB Hhas) as (l20 & l21 & l22 & H).
        rewrite ?XB, ?IB in H. by exists l20, l21, l22.
      * subst sB. intros name Hname. rewrite Hlast by done. by apply Hfirst.
    + destruct (SchedE_has_rents s "C").
      * rewrite !Hlast by done. destruct (VC Hhas) as (l20 & l21 & l22 & H).
        rewrite ?XC2, ?XC1, ?IC2, ?IC1 in H. by exists l20, l21, l22.
      * subst sC. intros name Hname. rewrite Hlast by done. by apply Hfirst.
  - exists tC. split.
    + rewrite get_set_eq; [done|]. rewrite FC, FB, FA. apply Hfields.
      unfold SchedE_computed_lines. rewrite !elem_of_app, !elem_of_cons. tauto.
    + rewrite TC, TB, TA. rewrite !filter_cons, filter_nil.
      destruct (SchedE_has_rents s "A"), (SchedE_has_rents s "B"), (SchedE_has_rents s "C");
        repeat case_decide; try done; unfold Qsum; simpl; ring.
Qed.

Lemma schedule_e_columns_witness :
  ∃ s' : structure,
    _perform_calculations SchedE_example "SchedE" ∅ = (s', [], Ok tt) ∧
    (∀ col, col ∈ ["A"; "B"; "C"] →
       if SchedE_has_rents SchedE_example col then
         ∃ l20 l21 l22 : Q,
           _get_field_value s' ("SchedE_Line20_TotalExpenses" +:+ col) = PFloat l20 ∧
           (l20 == SchedE_expenses SchedE_example col)%Q ∧
           _get_field_value s' ("SchedE_Line21_IncomeLoss" +:+ col) = PFloat l21 ∧
           (l21 == SchedE_income_loss SchedE_example col)%Q ∧
           _get_field_value s' ("SchedE_Line22_DeductibleLoss" +:+ col) = PFloat l22 ∧
           (l22 == Qmin 0 (SchedE_income_loss SchedE_example col))%Q
       else
         ∀ name, name ∈ SchedE_column_lines col →
           _get_field_value s' name = _get_field_value SchedE_example name) ∧
    ∃ l26 : Q,
      _get_field_value s' "SchedE_Line26_TotalIncomeLoss" = PFloat l26 ∧
      (l26 == Qsum (SchedE_income_loss SchedE_example <$>
                      filter (fun col => SchedE_has_rents SchedE_example col = true)
                        ["A"; "B"; "C"]))%Q.
Proof.
  apply (schedule_e_columns SchedE_example ∅).
  intros name Hname. unfold SchedE_computed_lines, SchedE_column_lines in Hname.
  simpl in Hname. rewrite !elem_of_cons in Hname.
  repeat (destruct Hname as [-> | Hname]; [reflexivity|]). by apply elem_of_nil in Hname.
Defined.

(** ** Following one key through the aggregation loops *)

Section Tracking.
Context {X : Type}.
Variable aggregated_data_by_type : gmap string (list document).
Variables summable_keys modal_keys list_keys proprietor_keys : gset string.
Variable key : string.
Variable view : agg_state → list X.
Variable taken : string * doc_entry → list X.
Variable kept : agg_state → agg_state → Prop.
Hypothesis kept_refl : ∀ st, kept st st.
Hypothesis kept_trans : ∀ st1 st2 st3, kept st1 st2 → kept st2 st3 → kept st1 st3.
Hypothesis entry_spec : ∀ is_proprietor_doc st kv,
  (key ∈ proprietor_keys → kv.1 = key → is_proprietor_doc = true) →
  let st' := process_entry summable_keys modal_keys list_keys proprietor_keys
               is_proprietor_doc st kv in
  view st' = (view st ++ taken kv)%list ∧ kept st st'.

Lemma track_entries is_proprietor_doc entries st :
  (∀ kv, kv ∈ entries → key ∈ proprietor_keys → kv.1 = key → is_proprietor_doc = true) →
  let st' := fold_left (process_entry summable_keys modal_keys list_keys proprietor_keys
                          is_proprietor_doc) entries st in
  view st' = (view st ++ (entries ≫= taken))%list ∧ kept st st'.
Proof.
  revert st. induction entries as [|kv entries IH]; intros st Hb; simpl.
  - by rewrite app_nil_r.
  - destruct (IH (process_entry summable_keys modal_keys list_keys proprietor_keys
                    is_proprietor_doc st kv)) as [-> Hk].
    { intros kv' Hin. apply Hb. by right. }
    destruct (entry_spec is_proprietor_doc st kv) as [-> Hk'].
    { apply Hb. by left. }
    split; [by rewrite <- app_assoc|by eapply kept_trans].
Qed.

Lemma track_document st document_data :
  let st' := process_document summable_keys modal_keys list_keys proprietor_keys
               st document_data in
  view st' = (view st ++ (document_data ≫= taken))%list ∧ kept st st'.
Proof.
  unfold process_document. apply track_entries.
  intros kv Hin Hkey Hkv. apply existsb_exists. exists kv. split.
  - by apply list_elem_of_In.
  - apply bool_decide_eq_true_2. by rewrite Hkv.
Qed.

Lemma track_documents documents st :
  let st' := fold_left (process_document summable_keys modal_keys list_keys proprietor_keys)
               documents st in
  view st' = (view st ++ (documents ≫= fun document_data => document_data ≫= taken))%list
  ∧ kept st st'.
Proof.
  revert st. induction documents as [|document_data documents IH]; intros st; simpl.
  - by rewrite app_nil_r.
  - destruct (IH (process_document summable_keys modal_keys list_keys proprietor_keys
                    st document_data)) as [-> Hk].
    destruct (track_document st document_data) as [-> Hk'].
    split; [by rewrite <- app_assoc|by eapply kept_trans].
Qed.

Lemma track_doc_types relevant_doc_types st :
  let st' := fold_left (process_doc_type aggregated_data_by_type summable_keys modal_keys
                          list_keys proprietor_keys) relevant_doc_types st in
  view st' = (view st ++ (relevant_doc_types ≫= fun doc_type =>
                            default [] (aggregated_data_by_type !! doc_type) ≫=
                            fun document_data => document_data ≫= taken))%list
  ∧ kept st st'.
Proof.
  revert st. induction relevant_doc_types as [|doc_type types IH]; intros st.
  { simpl. by rewrite app_nil_r. }
  cbn [fold_left]. rewrite bind_cons.
  destruct (IH (process_doc_type aggregated_data_by_type summable_keys modal_keys
                  list_keys proprietor_keys st doc_type)) as [-> Hk].
  assert (let st1 := process_doc_type aggregated_data_by_type summable_keys modal_keys
                       list_keys proprietor_keys st doc_type in
          view st1 = (view st ++ (default [] (aggregated_data_by_type !! doc_type) ≫=
                                    fun document_data => document_data ≫= taken))%list
          ∧ kept st st1) as [-> Hk'].
  { unfold process_doc_type.
    destruct (aggregated_data_by_type !! doc_type) as [documents|].
    - apply track_documents.
    - simpl. by rewrite app_nil_r. }
  split; [by rewrite <- app_assoc|by eapply kept_trans].
Qed.
End Tracking.

Lemma same_at_refl key a b c d st : same_at key a b c d st st.
Proof. by unfold same_at. Qed.

Lemma same_at_trans key a b c d st1 st2 st3 :
  same_at key a b c d st1 st2 → same_at key a b c d st2 st3 → same_at key a b c d st1 st3.
Proof.
  unfold same_at. intros (H1 & H2 & H3 & H4) (H1' & H2' & H3' & H4').
  split_and!; intros E.
  - by rewrite H1', H1.
  - by rewrite H2', H2.
  - by rewrite H3', H3.
  - by rewrite H4', H4.
Qed.

(** An entry under another key, or one that contributes nothing, leaves
    the four tables alone at [key]. *)
Lemma process_entry_elsewhere summable_keys modal_keys list_keys proprietor_keys key
    is_proprietor_doc st kv :
  entry_contribution key kv = [] →
  same_at key true true true true st
    (process_entry summable_keys modal_keys list_keys proprietor_keys is_proprietor_doc st kv).
Proof.
  unfold process_entry, entry_contribution, same_at.
  destruct kv as [k [value source|]]; simpl; [|done].
  destruct (_clean_string value) as [cleaned_value|]; [|done].
  destruct (String.eqb k key) eqn:E; [done|]. intros _.
  apply String.eqb_neq in E.
  repeat case_bool_decide; simpl; unfold append_to, sum_step;
    repeat case_match; simpl; rewrite ?lookup_insert_ne by done; done.
Qed.

Lemma entry_contribution_key key kv :
  entry_contribution key kv ≠ [] →
  ∃ value source cleaned_value,
    kv = (key, Entry value source) ∧ _clean_string value = Some cleaned_value ∧
    entry_contribution key kv = [(cleaned_value, source)].
Proof.
  unfold entry_contribution. destruct kv as [k [value source|]]; simpl; [|done].
  destruct (String.eqb k key) eqn:E; [|done]. apply String.eqb_eq in E as ->.
  destruct (_clean_string value) as [cleaned_value|] eqn:Ec; [|done].
  intros _. by exists value, source, cleaned_value.
Qed.

Section ListedKey.
Variables summable_keys modal_keys list_keys proprietor_keys : gset string.
Variable key : string.
Hypothesis key_not_summable : key ∉ summable_keys.
Hypothesis key_not_modal : key ∉ modal_keys.
Hypothesis key_listed : key ∈ list_keys.

Lemma process_entry_listed is_proprietor_doc st kv :
  let st' := process_entry summable_keys modal_keys list_keys proprietor_keys
               is_proprietor_doc st kv in
  list_values key st' = (list_values key st ++ entry_contribution key kv)%list
  ∧ same_at key true true false true st st'.
Proof.
  destruct (decide (entry_contribution key kv = [])) as [E|E].
  - pose proof (process_entry_elsewhere summable_keys modal_keys list_keys proprietor_keys
                  key is_proprietor_doc st kv E) as (H1 & H2 & H3 & H4).
    cbv zeta. rewrite E, app_nil_r. unfold list_values. rewrite H3 by done.
    split; [done|]. unfold same_at. by split_and!.
  - destruct (entry_contribution_key key kv E) as (value & source & cleaned & -> & Ec & ->).
    cbv zeta. unfold process_entry. rewrite Ec.
    rewrite (bool_decide_eq_false_2 _ key_not_summable),
      (bool_decide_eq_false_2 _ key_not_modal), (bool_decide_eq_true_2 _ key_listed).
    unfold list_values, same_at, append_to. simpl. by rewrite lookup_insert_eq.
Qed.
End ListedKey.

Section ProprietorKey.
Variables summable_keys modal_keys list_keys proprietor_keys : gset string.
Variable key : string.
Hypothesis key_not_summable : key ∉ summable_keys.
Hypothesis key_not_modal : key ∉ modal_keys.
Hypothesis key_not_listed : key ∉ list_keys.
Hypothesis key_proprietor : key ∈ proprietor_keys.

Lemma process_entry_proprietor is_proprietor_doc st kv :
  (key ∈ proprietor_keys → kv.1 = key → is_proprietor_doc = true) →
  let st' := process_entry summable_keys modal_keys list_keys proprietor_keys
               is_proprietor_doc st kv in
  proprietor_values key st' = (proprietor_values key st ++ entry_contribution key kv)%list
  ∧ same_at key true true true false st st'.
Proof.
  intros Hdoc.
  destruct (decide (entry_contribution key kv = [])) as [E|E].
  - pose proof (process_entry_elsewhere summable_keys modal_keys list_keys proprietor_keys
                  key is_proprietor_doc st kv E) as (H1 & H2 & H3 & H4).
    cbv zeta. rewrite E, app_nil_r. unfold proprietor_values. rewrite H4 by done.
    split; [done|]. unfold same_at. by split_and!.
  - destruct (entry_contribution_key key kv E) as (value & source & cleaned & -> & Ec & ->).
    cbv zeta. unfold process_entry. rewrite Ec.
    rewrite (bool_decide_eq_false_2 _ key_not_summable),
      (bool_decide_eq_false_2 _ key_not_modal), (bool_decide_eq_false_2 _ key_not_listed),
      (bool_decide_eq_true_2 _ key_proprietor).
    rewrite (Hdoc key_proprietor eq_refl).
    unfold proprietor_values, same_at, append_to. simpl. by rewrite lookup_insert_eq.
Qed.
End ProprietorKey.

Section IgnoredKey.
Variables summable_keys modal_keys list_keys proprietor_keys : gset string.
Variable key : string.
Hypothesis key_not_summable : key ∉ summable_keys.
Hypothesis key_not_modal : key ∉ modal_keys.
Hypothesis key_not_listed : key ∉ list_keys.
Hypothesis key_not_proprietor : key ∉ proprietor_keys.

Lemma process_entry_ignored is_proprietor_doc st kv :
  let st' := process_entry summable_keys modal_keys list_keys proprietor_keys
               is_proprietor_doc st kv in
  (@nil unit) = ([] ++ [])%list ∧ same_at key true true true true st st'.
Proof.
  split; [done|].
  destruct (decide (entry_contribution key kv = [])) as [E|E].
  - by apply process_entry_elsewhere.
  - destruct (entry_contribution_key key kv E) as (value & source & cleaned & -> & Ec & _).
    unfold process_entry. rewrite Ec.
    rewrite (bool_decide_eq_false_2 _ key_not_summable),
      (bool_decide_eq_false_2 _ key_not_modal), (bool_decide_eq_false_2 _ key_not_listed),
      (bool_decide_eq_false_2 _ key_not_proprietor).
    apply same_at_refl.
Qed.
End IgnoredKey.

(** ** The aggregator, key by key *)

(** The entry of a key in the returned map, by the policy of the key. *)
Lemma aggregate_key (aggregated_data_by_type : gmap string (list document))
    (summable_keys modal_keys list_keys proprietor_keys : gset string)
    (relevant_doc_types : list string) (key : string) :
  let reported := contributions aggregated_data_by_type relevant_doc_types key in
  _aggregate_data_for_form aggregated_data_by_type summable_keys modal_keys list_keys
    proprietor_keys relevant_doc_types !! key
  = match policy_of summable_keys modal_keys list_keys proprietor_keys key with
    | Summed => finalize_sum <$> sum_of reported
    | Modal => finalize_modal reported
    | Listed => finalize_list reported
    | Proprietor => finalize_modal reported
    | Ignored => None
    end.
Proof.
  intros reported. unfold policy_of.
  case_bool_decide as Hs; [by apply aggregate_summable_key|].
  case_bool_decide as Hm; [by apply aggregate_modal_key|].
  unfold _aggregate_data_for_form, finalize.
  set (st := fold_left _ _ _).
  case_bool_decide as Hl; [|case_bool_decide as Hp].
  - destruct (track_doc_types aggregated_data_by_type summable_keys modal_keys list_keys
                proprietor_keys key (list_values key) (entry_contribution key)
                (same_at key true true false true)
                (same_at_refl key _ _ _ _) (same_at_trans key _ _ _ _)
                (fun b st kv _ => process_entry_listed summable_keys modal_keys list_keys
                                    proprietor_keys key Hs Hm Hl b st kv)
                relevant_doc_types (initial_state modal_keys list_keys))
      as [Ev (Ef & Em & _ & Ep)].
    fold st in Ev, Ef, Em, Ep. specialize (Ef eq_refl). specialize (Em eq_refl).
    specialize (Ep eq_refl). simpl in Ef, Em, Ep.
    unfold list_values in Ev. simpl in Ev.
    rewrite lookup_gset_to_gmap, option_guard_True in Ev by done. simpl in Ev.
    change (relevant_doc_types ≫= _) with reported in Ev.
    rewrite lookup_union, lookup_omap.
    assert ((omap finalize_modal (proprietor_data st)
             ∪ (omap finalize_modal (all_values_for_modal_keys st)
             ∪ (finalize_sum <$> final_aggregated st))) !! key = None) as ->.
    { rewrite !lookup_union, !lookup_omap, lookup_fmap, Ep, Em, Ef, lookup_gset_to_gmap.
      rewrite lookup_empty, option_guard_False by done. done. }
    destruct (aggregated_lists st !! key) as [l|]; simpl in *.
    + subst l. by destruct (finalize_list reported).
    + by rewrite <- Ev.
  - destruct (track_doc_types aggregated_data_by_type summable_keys modal_keys list_keys
                proprietor_keys key (proprietor_values key) (entry_contribution key)
                (same_at key true true true false)
                (same_at_refl key _ _ _ _) (same_at_trans key _ _ _ _)
                (process_entry_proprietor summable_keys modal_keys list_keys
                   proprietor_keys key Hs Hm Hl Hp)
                relevant_doc_types (initial_state modal_keys list_keys))
      as [Ev (Ef & Em & El & _)].
    fold st in Ev, Ef, Em, El. specialize (Ef eq_refl). specialize (Em eq_refl).
    specialize (El eq_refl). simpl in Ef, Em, El.
    unfold proprietor_values in Ev. simpl in Ev. rewrite lookup_empty in Ev. simpl in Ev.
    change (relevant_doc_types ≫= _) with reported in Ev.
    assert (omap finalize_list (aggregated_lists st) !! key = None) as Hl'.
    { rewrite lookup_omap, El, lookup_gset_to_gmap. by rewrite option_guard_False. }
    rewrite lookup_union_r by done. rewrite lookup_union, lookup_omap.
    assert ((omap finalize_modal (all_values_for_modal_keys st)
             ∪ (finalize_sum <$> final_aggregated st)) !! key = None) as ->.
    { rewrite lookup_union, lookup_omap, lookup_fmap, Em, Ef, lookup_gset_to_gmap.
      rewrite lookup_empty, option_guard_False by done. done. }
    destruct (proprietor_data st !! key) as [l|]; simpl in *.
    + subst l. by destruct (finalize_modal reported).
    + by rewrite <- Ev.
  - destruct (track_doc_types aggregated_data_by_type summable_keys modal_keys list_keys
                proprietor_keys key (fun _ => @nil unit) (fun _ => [])
                (same_at key true true true true)
                (same_at_refl key _ _ _ _) (same_at_trans key _ _ _ _)
                (fun b st kv _ => process_entry_ignored summable_keys modal_keys list_keys
                                    proprietor_keys key Hs Hm Hl Hp b st kv)
                relevant_doc_types (initial_state modal_keys list_keys))
      as [_ (Ef & Em & El & Ep)].
    fold st in Ef, Em, El, Ep. specialize (Ef eq_refl). specialize (Em eq_refl).
    specialize (El eq_refl). specialize (Ep eq_refl). simpl in Ef, Em, El, Ep.
    rewrite !lookup_union, !lookup_omap, lookup_fmap, Ep, Em, El, Ef, !lookup_gset_to_gmap.
    rewrite lookup_empty, !option_guard_False by done. done.
Qed.

(** X6.  The aggregator, key by key.  The entry of a key in the returned
    map is decided by the first of the four key sets that holds the key and
    by the key's contributions, the non-null values reported under it by
    the documents of the relevant types, in document order: a summable key
    gets the sum entry, a modal key the most common value, a list key the
    list of all its contributions in that order, absent when there is
    none; a proprietor key is treated as a modal key over all documents,
    the proprietor-document test excluding none of them; a key in none of
    the four sets never appears in the result. *)
Theorem aggregate_by_policy (aggregated_data_by_type : gmap string (list document))
    (summable_keys modal_keys list_keys proprietor_keys : gset string)
    (relevant_doc_types : list string) :
  let result := _aggregate_data_for_form aggregated_data_by_type summable_keys modal_keys
                  list_keys proprietor_keys relevant_doc_types in
  (∀ key : string,
     let reported := contributions aggregated_data_by_type relevant_doc_types key in
     result !! key
     = match policy_of summable_keys modal_keys list_keys proprietor_keys key with
       | Summed => finalize_sum <$> sum_of reported
       | Modal => finalize_modal reported
       | Listed => finalize_list reported
       | Proprietor => finalize_modal reported
       | Ignored => None
       end) ∧
  (∀ key : string,
     is_Some (result !! key) →
     key ∈ summable_keys ∪ modal_keys ∪ list_keys ∪ proprietor_keys).
Proof.
  intros result. split.
  - intros key. apply aggregate_key.
  - intros key [entry Hentry]. subst result. rewrite aggregate_key in Hentry.
    unfold policy_of in Hentry. rewrite !elem_of_union.
    repeat case_bool_decide; try tauto. done.
Qed.

Lemma aggregate_by_policy_witness :
  "EmployerName" ∈ (∅ ∪ {["EmployeeName"]} ∪ {["EmployerName"]} ∪ ∅ : gset string).
Proof.
  apply (proj2 (aggregate_by_policy employers_example ∅ {["EmployeeName"]} {["EmployerName"]} ∅
                  ["W-2"]) "EmployerName").
  apply (bool_decide_unpack _). by vm_compute.
Defined.

(** ** Document types the aggregator is not asked about *)

Lemma fold_doc_types_ext (data data' : gmap string (list document))
    (summable_keys modal_keys list_keys proprietor_keys : gset string)
    (relevant_doc_types : list string) (st : agg_state) :
  (∀ doc_type, doc_type ∈ relevant_doc_types → data !! doc_type = data' !! doc_type) →
  fold_left (process_doc_type data summable_keys modal_keys list_keys proprietor_keys)
    relevant_doc_types st
  = fold_left (process_doc_type data' summable_keys modal_keys list_keys proprietor_keys)
      relevant_doc_types st.
Proof.
  revert st. induction relevant_doc_types as [|doc_type types IH]; intros st Hsame; [done|].
  cbn [fold_left]. unfold process_doc_type at 2 4.
  rewrite <- (Hsame doc_type) by (by left).
  apply IH. intros t Ht. apply Hsame. by right.
Qed.

Lemma finalize_initial_state (modal_keys list_keys : gset string) :
  finalize (initial_state modal_keys list_keys) = ∅.
Proof.
  apply map_eq. intros key. unfold finalize, initial_state. simpl.
  rewrite !lookup_union, !lookup_omap, lookup_fmap, !lookup_gset_to_gmap, !lookup_empty.
  by repeat case_guard.
Qed.

(** X7.  The aggregator reads the documents of the relevant types only:
    two inputs that hold the same documents under every relevant type give
    the same result, whatever they hold under other types, and an input
    that holds no document under any relevant type gives the empty
    result. *)
Theorem aggregator_reads_relevant_types_only (data data' : gmap string (list document))
    (summable_keys modal_keys list_keys proprietor_keys : gset string)
    (relevant_doc_types : list string) :
  ((∀ doc_type, doc_type ∈ relevant_doc_types → data !! doc_type = data' !! doc_type) →
   _aggregate_data_for_form data summable_keys modal_keys list_keys proprietor_keys
     relevant_doc_types
   = _aggregate_data_for_form data' summable_keys modal_keys list_keys proprietor_keys
       relevant_doc_types) ∧
  ((∀ doc_type, doc_type ∈ relevant_doc_types → data !! doc_type = None) →
   _aggregate_data_for_form data summable_keys modal_keys list_keys proprietor_keys
     relevant_doc_types = ∅).
Proof.
  split.
  - intros Hsame. unfold _aggregate_data_for_form. by rewrite (fold_doc_types_ext data data').
  - intros Hnone. unfold _aggregate_data_for_form.
    rewrite (fold_doc_types_ext data ∅).
    + assert (∀ st, fold_left (process_doc_type ∅ summable_keys modal_keys list_keys
                                 proprietor_keys) relevant_doc_types st = st) as ->.
      { induction relevant_doc_types as [|doc_type types IH]; intros st; [done|].
        cbn [fold_left]. unfold process_doc_type at 2. rewrite lookup_empty.
        apply IH. intros t Ht. apply Hnone. by right. }
      apply finalize_initial_state.
    + intros doc_type Hin. by rewrite Hnone, lookup_empty.
Qed.

Lemma aggregator_reads_relevant_types_only_witness :
  _aggregate_data_for_form employers_example ∅ {["EmployeeName"]} {["EmployerName"]} ∅ ["W-2"]
  = _aggregate_data_for_form (delete "Receipt" employers_example)
      ∅ {["EmployeeName"]} {["EmployerName"]} ∅ ["W-2"]
  ∧ _aggregate_data_for_form employers_example ∅ {["EmployeeName"]} {["EmployerName"]} ∅
      ["1099-INT"] = ∅.
Proof.
  split.
  - apply (proj1 (aggregator_reads_relevant_types_only employers_example
                    (delete "Receipt" employers_example)
                    ∅ {["EmployeeName"]} {["EmployerName"]} ∅ ["W-2"])).
    intros doc_type Hin. apply list_elem_of_singleton in Hin as ->. reflexivity.
  - apply (proj2 (aggregator_reads_relevant_types_only employers_example ∅
                    ∅ {["EmployeeName"]} {["EmployerName"]} ∅ ["1099-INT"])).
    intros doc_type Hin. apply list_elem_of_singleton in Hin as ->. reflexivity.
Defined.

(** ** The sources of the returned entries *)

Lemma finalize_modal_sources value_source_list value entry_sources :
  finalize_modal value_source_list = Some (AggDict value entry_sources) →
  ∃ X : gset string, entry_sources = sorted_sources X.
Proof.
  unfold finalize_modal. destruct value_source_list as [|item l]; [done|].
  destruct (most_common_1 _) as [|[v n] ?]; [done|]. intros [= <- <-]. by eexists.
Qed.

(** X8.  Every value-and-sources entry of the returned map lists its
    sources in ascending order, each source once. *)
Theorem aggregated_sources_are_sorted (aggregated_data_by_type : gmap string (list document))
    (summable_keys modal_keys list_keys proprietor_keys : gset string)
    (relevant_doc_types : list string) (key : string) (value : pyval)
    (entry_sources : list string) :
  _aggregate_data_for_form aggregated_data_by_type summable_keys modal_keys list_keys
    proprietor_keys relevant_doc_types !! key = Some (AggDict value entry_sources) →
  Sorted str_le entry_sources ∧ NoDup entry_sources.
Proof.
  unfold _aggregate_data_for_form, finalize. set (st := fold_left _ _ _). intros H.
  assert (∃ X : gset string, entry_sources = sorted_sources X) as [X ->].
  { apply lookup_union_Some_raw in H as [H|[_ H]].
    { rewrite lookup_omap in H. destruct (aggregated_lists st !! key) as [l|]; [|done].
      simpl in H. unfold finalize_list in H. by destruct l. }
    apply lookup_union_Some_raw in H as [H|[_ H]].
    { rewrite lookup_omap in H. destruct (proprietor_data st !! key) as [l|]; [|done].
      by apply finalize_modal_sources in H. }
    apply lookup_union_Some_raw in H as [H|[_ H]].
    { rewrite lookup_omap in H. destruct (all_values_for_modal_keys st !! key) as [l|]; [|done].
      by apply finalize_modal_sources in H. }
    rewrite lookup_fmap in H. destruct (final_aggregated st !! key) as [info|]; [|done].
    simpl in H. unfold finalize_sum in H. injection H as <- <-. by eexists. }
  split; [apply sorted_sources_Sorted|apply sorted_sources_NoDup].
Qed.

Lemma aggregated_sources_are_sorted_witness :
  Sorted str_le ["refund.pdf"; "sale.pdf"] ∧ NoDup ["refund.pdf"; "sale.pdf"].
Proof.
  apply (aggregated_sources_are_sorted
           {[ "Receipt" := [doc_of "sale.pdf" [("TotalRevenue", RStr "$1,200.00")];
                           doc_of "refund.pdf" [("TotalRevenue", RStr "(500)")]] ]}
           {["TotalRevenue"]} ∅ ∅ ∅ ["Receipt"] "TotalRevenue" (PFloat (170000 # 100))).
  by vm_compute.
Defined.

(** * Properties of the mapper *)

(** ** The mapping tables *)

Lemma assoc_get_elem {A : Type} (d : list (string * A)) k a :
  assoc_get d k = Some a → (k, a) ∈ d.
Proof.
  induction d as [|[k' a'] d IH]; simpl; [done|].
  destruct (String.eqb k' k) eqn:E.
  - apply String.eqb_eq in E as ->. intros [= ->]. by left.
  - intros H. right. by apply IH.
Qed.

Lemma fills_all_fills target_form agg_key name :
  name ∈ fills target_form agg_key → (agg_key, name) ∈ all_fills target_form.
Proof.
  intros Hin. unfold all_fills. apply list_elem_of_bind. exists agg_key. split.
  - apply list_elem_of_fmap. by exists name.
  - unfold fills in Hin.
    destruct (assoc_get (current_map target_form) agg_key) as [t|] eqn:E.
    + apply assoc_get_elem in E. apply list_elem_of_fmap. by exists (agg_key, t).
    + by apply elem_of_nil in Hin.
Qed.

Lemma all_fills_NoDup target_form : NoDup (all_fills target_form).*2.
Proof.
  unfold all_fills, fills, current_map.
  repeat match goal with
         | |- context [String.eqb target_form ?form] => destruct (String.eqb target_form form)
         end;
    apply (bool_decide_unpack _); by vm_compute.
Qed.

Lemma NoDup_snd_key {A B : Type} (l : list (A * B)) a a' b :
  NoDup l.*2 → (a, b) ∈ l → (a', b) ∈ l → a = a'.
Proof.
  induction l as [|[x y] l IH]; simpl; intros Hnd Ha Ha'; [by apply elem_of_nil in Ha|].
  apply NoDup_cons in Hnd as [Hy Hnd].
  apply elem_of_cons in Ha as [Ha|Ha]; apply elem_of_cons in Ha' as [Ha'|Ha'].
  - congruence.
  - inversion Ha; subst. exfalso. apply Hy. apply list_elem_of_fmap. by exists (a', y).
  - inversion Ha'; subst. exfalso. apply Hy. apply list_elem_of_fmap. by exists (a, y).
  - by apply IH.
Qed.

(** No field name is filled from two aggregated keys. *)
Lemma fills_one_key target_form agg_key agg_key' name :
  name ∈ fills target_form agg_key → name ∈ fills target_form agg_key' → agg_key = agg_key'.
Proof.
  intros H H'. apply fills_all_fills in H, H'.
  exact (NoDup_snd_key _ _ _ _ (all_fills_NoDup target_form) H H').
Qed.

(** ** One aggregated item at a time *)

Section MapItems.
Variable float_str : Q → string.
Variable target_form : string.

Let step := map_item float_str target_form.

Lemma map_item_elsewhere mapped_data item name :
  name ∉ fills target_form item.1 → step mapped_data item !! name = mapped_data !! name.
Proof.
  unfold step, map_item, fills. destruct item as [agg_key v]. simpl.
  destruct (assoc_get (current_map target_form) agg_key) as [[target_key|names]|]; [| |done].
  - intros H. rewrite lookup_insert_ne; [done|]. intros ->. apply H. by left.
  - destruct v as [value sources|items]; [|done].
    destruct (String.eqb agg_key "EmployeeName"); [|done]. intros H.
    assert ("FirstNameInitial" ∈ names → name ≠ "FirstNameInitial") as H1.
    { intros Hin ->. apply H. apply list_elem_of_filter. split; [done|]. by left. }
    assert ("LastName" ∈ names → name ≠ "LastName") as H2.
    { intros Hin ->. apply H. apply list_elem_of_filter. split; [done|]. right. by left. }
    repeat case_bool_decide; rewrite ?lookup_insert_ne by (intros <-; naive_solver); done.
Qed.

Lemma map_items_elsewhere items mapped_data name :
  (∀ item, item ∈ items → name ∉ fills target_form item.1) →
  fold_left step items mapped_data !! name = mapped_data !! name.
Proof.
  revert mapped_data. induction items as [|item items IH]; intros mapped_data H; [done|].
  cbn [fold_left]. rewrite IH by (intros item' Hin; apply H; by right).
  apply map_item_elsewhere. apply H. by left.
Qed.

(** Once the item of [agg_key] has been handled, no later item of a dict
    touches the field names that key fills. *)
Lemma map_items_after before agg_key v after mapped_data name :
  NoDup (before ++ (agg_key, v) :: after)%list.*1 →
  name ∈ fills target_form agg_key →
  fold_left step (before ++ (agg_key, v) :: after)%list mapped_data !! name
  = step (fold_left step before mapped_data) (agg_key, v) !! name.
Proof.
  intros Hnd Hname. rewrite fold_left_app. cbn [fold_left].
  apply map_items_elsewhere. intros [agg_key' v'] Hin Hname'. simpl in Hname'.
  pose proof (fills_one_key _ _ _ _ Hname Hname') as <-.
  rewrite fmap_app, fmap_cons in Hnd. apply NoDup_app in Hnd as (_ & _ & Hnd).
  apply NoDup_cons in Hnd as [Hnot _]. apply Hnot.
  apply list_elem_of_fmap. by exists (agg_key, v').
Qed.

Lemma mapped_field agg_key v target_key data :
  NoDup data.*1 → (agg_key, v) ∈ data →
  assoc_get (current_map target_form) agg_key = Some (Field target_key) →
  _map_aggregated_to_gemini_fields float_str data target_form !! target_key = Some v.
Proof.
  intros Hnd Hin Htable. apply list_elem_of_split in Hin as (before & after & ->).
  unfold _map_aggregated_to_gemini_fields. fold step.
  rewrite (map_items_after before agg_key v after) by (done || (unfold fills; rewrite Htable; by left)).
  unfold step, map_item. rewrite Htable. by rewrite lookup_insert_eq.
Qed.

Lemma mapped_origin data name v :
  _map_aggregated_to_gemini_fields float_str data target_form !! name = Some v →
  ∃ agg_key v', (agg_key, v') ∈ data ∧ name ∈ fills target_form agg_key.
Proof.
  intros H.
  destruct (decide (Exists (fun item : string * agg_result =>
                              name ∈ fills target_form item.1) data)) as [Hex|Hno].
  - apply Exists_exists in Hex as ([agg_key v'] & Hin & Hname). by exists agg_key, v'.
  - unfold _map_aggregated_to_gemini_fields in H. fold step in H.
    rewrite map_items_elsewhere in H; [by rewrite lookup_empty in H|].
    intros item Hin Hname. apply Hno. apply Exists_exists. by exists item.
Qed.
End MapItems.

(** X9.  The mapper, on aggregated data given in dict order (no key
    twice).  An entry whose key the form's table sends to one field name
    is stored under that field name, unchanged, value and sources; every
    entry of the mapped data comes from an entry of the input whose key
    the table sends to that name (for the name split: [EmployeeName], to
    [FirstNameInitial] and [LastName]), so keys outside the table are
    dropped without a message; a form with an empty table, or with none,
    gives empty mapped data. *)
Theorem mapped_entries (float_str : Q → string) (data : list (string * agg_result))
    (target_form : string) :
  NoDup data.*1 →
  let mapped := _map_aggregated_to_gemini_fields float_str data target_form in
  (∀ agg_key v target_key,
     (agg_key, v) ∈ data →
     assoc_get (current_map target_form) agg_key = Some (Field target_key) →
     mapped !! target_key = Some v) ∧
  (∀ name v,
     mapped !! name = Some v →
     ∃ agg_key v', (agg_key, v') ∈ data ∧ name ∈ fills target_form agg_key) ∧
  (current_map target_form = [] → mapped = ∅).
Proof.
  intros Hnd mapped. split_and!.
  - intros agg_key v target_key Hin Htable. by eapply mapped_field.
  - intros name v H. by eapply mapped_origin.
  - intros Hempty. apply map_eq. intros name. rewrite lookup_empty.
    destruct (mapped !! name) as [v|] eqn:E; [|done].
    apply mapped_origin in E as (agg_key & v' & _ & Hname).
    unfold fills in Hname. rewrite Hempty in Hname. simpl in Hname.
    by apply elem_of_nil in Hname.
Qed.

Lemma mapped_entries_witness :
  _map_aggregated_to_gemini_fields (fun _ => "0.0") w2_aggregated "1040" !! "Income_1z"
  = Some (AggDict (PFloat 52000) ["w2.pdf"]) ∧
  (∃ agg_key v', (agg_key, v') ∈ w2_aggregated ∧ "LastName" ∈ fills "1040" agg_key) ∧
  _map_aggregated_to_gemini_fields (fun _ => "0.0") w2_aggregated "Form 8812" = ∅.
Proof.
  assert (NoDup w2_aggregated.*1) as Hnd by (apply (bool_decide_unpack _); by vm_compute).
  split_and!.
  - apply (proj1 (mapped_entries (fun _ => "0.0") w2_aggregated "1040" Hnd)
             "WagesTipsOtherComp" _ "Income_1z"); [by left|reflexivity].
  - apply (proj1 (proj2 (mapped_entries (fun _ => "0.0") w2_aggregated "1040" Hnd))
             "LastName" (AggDict (PStr "Marie Lee") ["w2.pdf"])).
    reflexivity.
  - apply (proj2 (proj2 (mapped_entries (fun _ => "0.0") w2_aggregated "Form 8812" Hnd))).
    reflexivity.
Defined.

(** ** The name split *)









(** ** Aggregation and mapping together *)

(** A target field of a form's table holds what the aggregator returned
    for its key, and is absent when the aggregator returned nothing. *)
Lemma mapped_gemini_data_field float_str (data : gmap string (list document))
    doc_types target_form rules agg_key target_key :
  form_rules target_form doc_types = Some rules →
  assoc_get (current_map target_form) agg_key = Some (Field target_key) →
  mapped_gemini_data float_str data doc_types target_form !! target_key
  = _aggregate_data_for_form data (rule_summable_keys rules) (rule_modal_keys rules)
      (rule_list_keys rules) proprietor_keys (rule_doc_types rules) !! agg_key.
Proof.
  intros Hrules Htable. unfold mapped_gemini_data, final_aggregated_values.
  rewrite Hrules. simpl. set (aggregated := _aggregate_data_for_form _ _ _ _ _ _).
  destruct (aggregated !! agg_key) as [v|] eqn:E.
  - apply (mapped_field float_str target_form agg_key v target_key).
    + apply NoDup_fst_map_to_list.
    + by apply elem_of_map_to_list.
    + done.
  - destruct (_map_aggregated_to_gemini_fields _ _ _ !! target_key) as [v|] eqn:E'; [|done].
    apply mapped_origin in E' as (agg_key' & v' & Hin & Hname).
    assert (target_key ∈ fills target_form agg_key) as Hname'.
    { unfold fills. rewrite Htable. by left. }
    pose proof (fills_one_key _ _ _ _ Hname Hname') as ->.
    apply elem_of_map_to_list in Hin. congruence.
Qed.

(** The rules of a concrete form, by evaluating the string comparisons
    of [form_rules] only. *)
Ltac rules_of H :=
  lazy [form_rules String.eqb Ascii.eqb Bool.eqb andb] in H; injection H as <-.

(** X11.  Aggregation and mapping of Form 1040 together: the mapped data
    holds under [Income_1z] the sum entry of [WagesTipsOtherComp] over
    the W-2 documents, whatever other document types the input has.
    Without a W-2 document that reports wages the field is absent from the
    mapped data; otherwise its value is the sum of the wages that parse as
    amounts. *)
Theorem wages_reach_income_1z (float_str : Q → string)
    (data : gmap string (list document)) (doc_types : list string) :
  let wages := contributions data ["W-2"] "WagesTipsOtherComp" in
  let mapped := mapped_gemini_data float_str data doc_types "1040" in
  mapped !! "Income_1z" = finalize_sum <$> sum_of wages ∧
  (wages = [] → mapped !! "Income_1z" = None) ∧
  (wages ≠ [] →
   ∃ total entry_sources,
     mapped !! "Income_1z" = Some (AggDict (PFloat total) entry_sources) ∧
     (total == Qsum (summed_amounts wages))%Q).
Proof.
  intros wages mapped.
  destruct (form_rules "1040" doc_types) as [rules|] eqn:Hrules; [|done].
  assert (rule_doc_types rules = ["W-2"]) as Htypes.
  { by rules_of Hrules. }
  assert ("WagesTipsOtherComp" ∈ rule_summable_keys rules) as Hkey.
  { rules_of Hrules. apply (bool_decide_unpack _). by vm_compute. }
  assert (mapped !! "Income_1z"
          = _aggregate_data_for_form data (rule_summable_keys rules) (rule_modal_keys rules)
              (rule_list_keys rules) proprietor_keys ["W-2"] !! "WagesTipsOtherComp") as E.
  { rewrite <- Htypes.
    exact (mapped_gemini_data_field float_str data doc_types "1040" rules
             "WagesTipsOtherComp" "Income_1z" Hrules eq_refl). }
  destruct (aggregate_sum_entry data (rule_summable_keys rules) (rule_modal_keys rules)
              (rule_list_keys rules) proprietor_keys ["W-2"] "WagesTipsOtherComp" Hkey)
    as [Hnone Hsome].
  fold wages in Hnone, Hsome.
  split_and!.
  - rewrite E. by apply aggregate_summable_key.
  - intros Hw. rewrite E. by apply Hnone.
  - intros Hw. destruct (Hsome Hw) as (total & entry_sources & Ht & Hq & _).
    exists total, entry_sources. by rewrite E.
Qed.

Lemma wages_reach_income_1z_witness :
  ∃ total entry_sources,
    mapped_gemini_data (fun _ => "0.0")
      {[ "W-2" := [doc_of "w2_acme.pdf" [("WagesTipsOtherComp", RStr "$30,000.00")];
                  doc_of "w2_bolt.pdf" [("WagesTipsOtherComp", RInt 22000)]] ]}
      ["W-2"] "1040" !! "Income_1z"
    = Some (AggDict (PFloat total) entry_sources) ∧
    (total == Qsum (summed_amounts
                      (contributions
                         {[ "W-2" := [doc_of "w2_acme.pdf"
                                        [("WagesTipsOtherComp", RStr "$30,000.00")];
                                      doc_of "w2_bolt.pdf"
                                        [("WagesTipsOtherComp", RInt 22000)]] ]}
                         ["W-2"] "WagesTipsOtherComp")))%Q.
Proof.
  apply (proj2 (proj2 (wages_reach_income_1z (fun _ => "0.0")
    {[ "W-2" := [doc_of "w2_acme.pdf" [("WagesTipsOtherComp", RStr "$30,000.00")];
                doc_of "w2_bolt.pdf" [("WagesTipsOtherComp", RInt 22000)]] ]} ["W-2"]))).
  by vm_compute.
Defined.

(** X12.  On Schedule C the table sends
    [Line1_GrossReceiptsSales_INPUT] to [Line1_GrossReceiptsSales] and
    [EmployerIdentificationNumber] to [EIN], but neither key is in a key
    set of the form's aggregation, so the aggregator never returns them:
    whatever the documents hold, the mapped data has no entry for the
    two fields. *)
Theorem schedule_c_gross_receipts_are_not_mapped (float_str : Q → string)
    (data : gmap string (list document)) (doc_types : list string) :
  let mapped := mapped_gemini_data float_str data doc_types "SchedC" in
  mapped !! "Line1_GrossReceiptsSales" = None ∧ mapped !! "EIN" = None.
Proof.
  intros mapped.
  destruct (form_rules "SchedC" doc_types) as [rules|] eqn:Hrules; [|done].
  split.
  - subst mapped.
    rewrite (mapped_gemini_data_field float_str data doc_types "SchedC" _
               "Line1_GrossReceiptsSales_INPUT" "Line1_GrossReceiptsSales" Hrules eq_refl).
    rewrite aggregate_key.
    assert (policy_of (rule_summable_keys rules) (rule_modal_keys rules) (rule_list_keys rules)
              proprietor_keys "Line1_GrossReceiptsSales_INPUT" = Ignored) as ->; [|done].
    rules_of Hrules. by vm_compute.
  - subst mapped.
    rewrite (mapped_gemini_data_field float_str data doc_types "SchedC" _
               "EmployerIdentificationNumber" "EIN" Hrules eq_refl).
    rewrite aggregate_key.
    assert (policy_of (rule_summable_keys rules) (rule_modal_keys rules) (rule_list_keys rules)
              proprietor_keys "EmployerIdentificationNumber" = Ignored) as ->; [|done].
    rules_of Hrules. by vm_compute.
Qed.

(** * The field helpers *)

Lemma set_missing_field s name v :
  has_field s name = false → _set_field_value s name v = s.
Proof.
  unfold _set_field_value.
  induction s as [|[page_key fields] s IH]; simpl; [done|]. intros H.
  destruct (find_field name fields) eqn:E; [done|].
  apply find_set_in_fields_None with (v := v) (src := "Calculated") in E.
  rewrite E. by rewrite IH.
Qed.

Lemma set_in_fields_twice name v v' src fields fields' :
  set_in_fields name v src fields = Some fields' →
  set_in_fields name v' src fields' = set_in_fields name v' src fields.
Proof.
  revert fields'. induction fields as [|f fields IH]; simpl; intros fields' H; [done|].
  destruct (String.eqb (field_name f) name) eqn:E.
  - injection H as <-. simpl. by rewrite E.
  - destruct (set_in_fields name v src fields) as [fs|]; [|done].
    injection H as <-. simpl. rewrite E. by rewrite (IH fs).
Qed.

Lemma set_field_twice s name v v' :
  _set_field_value (_set_field_value s name v) name v' = _set_field_value s name v'.
Proof.
  unfold _set_field_value.
  induction s as [|[page_key fields] s IH]; simpl; [done|].
  destruct (set_in_fields name v "Calculated" fields) as [fields'|] eqn:E; simpl.
  - rewrite (set_in_fields_twice _ _ _ _ _ _ E).
    destruct (set_in_fields name v' "Calculated" fields) eqn:E'; [done|].
    apply find_set_in_fields_None in E'.
    apply find_set_in_fields_None with (v := v) (src := "Calculated") in E'. congruence.
  - apply find_set_in_fields_None in E.
    apply find_set_in_fields_None with (v := v') (src := "Calculated") in E.
    rewrite E. by rewrite IH.
Qed.

(** X13.  Writing a field and reading it back.  On a structure that has
    the field, [_get_field_value] returns the value [_set_field_value]
    wrote, and [_get_numeric_value] returns a written float as it is; on a
    structure without the field the write changes nothing.  A write never
    shows under another field name, and a second write to the same field
    replaces the first. *)
Theorem written_field_is_read_back (s : structure) (name : string) (v : pyval) :
  (has_field s name = true →
   _get_field_value (_set_field_value s name v) name = v ∧
   ∀ q, _get_numeric_value (_set_field_value s name (PFloat q)) name = q) ∧
  (has_field s name = false → _set_field_value s name v = s) ∧
  (∀ name', name' ≠ name →
     _get_field_value (_set_field_value s name v) name' = _get_field_value s name' ∧
     has_field (_set_field_value s name v) name' = has_field s name') ∧
  (∀ v', _set_field_value (_set_field_value s name v) name v' = _set_field_value s name v').
Proof.
  split_and!.
  - intros H. split; [by apply get_set_eq|]. intros q. by apply get_numeric_set_float.
  - apply set_missing_field.
  - intros name' Hne. split; [by apply get_set_ne|apply has_field_set].
  - intros v'. apply set_field_twice.
Qed.

Lemma written_field_is_read_back_witness :
  (_get_field_value
     (_set_field_value [("page_1", page_of [("Line1", PNone); ("Line2", PInt 7)])]
        "Line2" (PStr "x")) "Line2" = PStr "x" ∧
   ∀ q, _get_numeric_value
          (_set_field_value [("page_1", page_of [("Line1", PNone); ("Line2", PInt 7)])]
             "Line2" (PFloat q)) "Line2" = q) ∧
  _set_field_value [("page_1", page_of [("Line1", PNone); ("Line2", PInt 7)])]
    "Line3" (PStr "x")
  = [("page_1", page_of [("Line1", PNone); ("Line2", PInt 7)])] ∧
  (_get_field_value
     (_set_field_value [("page_1", page_of [("Line1", PNone); ("Line2", PInt 7)])]
        "Line1" (PStr "x")) "Line2"
   = _get_field_value [("page_1", page_of [("Line1", PNone); ("Line2", PInt 7)])] "Line2" ∧
   has_field
     (_set_field_value [("page_1", page_of [("Line1", PNone); ("Line2", PInt 7)])]
        "Line1" (PStr "x")) "Line2"
   = has_field [("page_1", page_of [("Line1", PNone); ("Line2", PInt 7)])] "Line2").
Proof.
  split; [|split].
  - apply (proj1 (written_field_is_read_back
                    [("page_1", page_of [("Line1", PNone); ("Line2", PInt 7)])]
                    "Line2" (PStr "x"))).
    reflexivity.
  - apply (proj1 (proj2 (written_field_is_read_back
                           [("page_1", page_of [("Line1", PNone); ("Line2", PInt 7)])]
                           "Line3" (PStr "x")))).
    reflexivity.
  - apply (proj1 (proj2 (proj2 (written_field_is_read_back
                                  [("page_1", page_of [("Line1", PNone); ("Line2", PInt 7)])]
                                  "Line1" (PStr "x"))))).
    done.
Defined.

(** * The order of processing, every target once *)

Lemma ordered_target_forms_elem (target_forms : list string) (form : string) :
  form ∈ ordered_target_forms target_forms ↔ form ∈ target_forms.
Proof.
  unfold ordered_target_forms. cbv zeta. rewrite elem_of_app, !list_elem_of_filter.
  destruct (decide (form ∈ PROCESSING_ORDER)); tauto.
Qed.

Lemma ordered_target_forms_NoDup (target_forms : list string) :
  NoDup target_forms → NoDup (ordered_target_forms target_forms).
Proof.
  intros Hnd. unfold ordered_target_forms. cbv zeta. apply NoDup_app. split_and!.
  - apply NoDup_filter, PROCESSING_ORDER_NoDup.
  - intros form H1 H2. apply list_elem_of_filter in H2 as [H2 _]. done.
  - by apply NoDup_filter.
Qed.

(** X14.  The driver processes exactly the determined target forms: a
    form is in the processing list if and only if it is a target; when no
    target is named twice the processing list is a rearrangement of the
    targets, so no form is processed twice; and a target the processing
    table does not list is processed after every target the table
    lists. *)
Theorem every_target_is_processed (target_forms : list string) :
  (∀ form, form ∈ ordered_target_forms target_forms ↔ form ∈ target_forms) ∧
  (NoDup target_forms → ordered_target_forms target_forms ≡ₚ target_forms) ∧
  (∀ a b, a ∈ PROCESSING_ORDER → b ∉ PROCESSING_ORDER →
          a ∈ target_forms → b ∈ target_forms →
          processed_before a b (ordered_target_forms target_forms)).
Proof.
  split_and!.
  - apply ordered_target_forms_elem.
  - intros Hnd. apply NoDup_Permutation; [by apply ordered_target_forms_NoDup|done|].
    apply ordered_target_forms_elem.
  - intros a b Ha Hb Hat Hbt. split_and!; [by apply ordered_target_forms_elem..|].
    unfold ordered_target_forms. cbv zeta. intros i j Hi Hj.
    set (ordered := filter (λ form, form ∈ target_forms) PROCESSING_ORDER) in *.
    assert (a ∈ ordered) as Hao by (by apply list_elem_of_filter).
    assert (b ∉ ordered) as Hbo by (intros [_ ?]%list_elem_of_filter; done).
    assert (i < length ordered)%nat.
    { destruct (decide (i < length ordered)%nat) as [|Hge]; [done|]. exfalso.
      rewrite lookup_app_r in Hi by lia.
      apply list_elem_of_lookup_2, list_elem_of_filter in Hi as [Hi _]. done. }
    assert (length ordered <= j)%nat.
    { destruct (decide (length ordered <= j)%nat) as [|Hlt]; [done|]. exfalso.
      rewrite lookup_app_l in Hj by lia. by apply list_elem_of_lookup_2 in Hj. }
    lia.
Qed.

Lemma every_target_is_processed_witness :
  ordered_target_forms ["1040"; "Form 1116"; "SchedC"] ≡ₚ ["1040"; "Form 1116"; "SchedC"] ∧
  processed_before "1040" "Form 1116" (ordered_target_forms ["1040"; "Form 1116"; "SchedC"]).
Proof.
  split.
  - apply (proj1 (proj2 (every_target_is_processed ["1040"; "Form 1116"; "SchedC"]))).
    apply (bool_decide_unpack _). by vm_compute.
  - apply (proj2 (proj2 (every_target_is_processed ["1040"; "Form 1116"; "SchedC"]))).
    + apply (bool_decide_unpack _). by vm_compute.
    + apply (bool_decide_unpack _). by vm_compute.
    + apply (bool_decide_unpack _). by vm_compute.
    + apply (bool_decide_unpack _). by vm_compute.
Defined.

(** * Properties of the target forms *)

(** ** The scans on data of the declared type *)

Lemma any_in_dict keys items :
  any_in keys (ODict items) = Some (existsb (fun key => bool_decide (key ∈ items.*1)) keys).
Proof.
  induction keys as [|key keys IH]; [done|]. cbn [any_in py_in mbind option_bind existsb].
  destruct (bool_decide (key ∈ items.*1)); [done|]. by rewrite IH.
Qed.

Lemma scan_docs_dicts keys docs :
  Forall (fun doc => ∃ items, doc = ODict items) docs →
  scan_docs keys docs = Some (existsb (doc_has_key keys) docs).
Proof.
  induction 1 as [|doc docs [items ->] _ IH]; [done|].
  cbn [scan_docs existsb doc_has_key]. rewrite any_in_dict. cbn [mbind option_bind].
  destruct (existsb _ keys); [done|]. by rewrite IH.
Qed.

Lemma scan_types_typed doc_types keys data :
  Forall (fun kv => list_of_dicts kv.2) data →
  scan_types doc_types keys data = Some (existsb (type_has_key doc_types keys) data).
Proof.
  induction 1 as [|[doc_type o] data (docs & Ho & Hdocs) _ IH]; [done|].
  cbn [snd] in Ho. subst o.
  cbn [scan_types existsb]. unfold type_has_key at 1. cbn [fst snd].
  destruct (bool_decide (doc_type ∈ doc_types)); cbn [andb mbind option_bind py_iter].
  - rewrite (scan_docs_dicts _ _ Hdocs). cbn [mbind option_bind].
    destruct (existsb _ docs); [done|]. by rewrite IH.
  - by rewrite IH.
Qed.

Lemma scan_all_typed keys data :
  Forall (fun kv => list_of_dicts kv.2) data → is_Some (scan_all keys data).
Proof.
  induction 1 as [|[doc_type o] data (docs & Ho & Hdocs) _ IH]; [by eexists|].
  cbn [snd] in Ho. subst o.
  cbn [scan_all py_iter mbind option_bind]. rewrite (scan_docs_dicts _ _ Hdocs).
  cbn [mbind option_bind]. destruct (existsb _ docs); [by eexists|done].
Qed.

Lemma scan_types_hint doc_types keys data :
  existsb (type_has_key doc_types keys) data = true ↔
  ∃ doc_type docs items key,
    (doc_type, OList docs) ∈ data ∧ doc_type ∈ doc_types ∧
    ODict items ∈ docs ∧ key ∈ keys ∧ key ∈ items.*1.
Proof.
  rewrite existsb_exists. split.
  - intros ([doc_type o] & Hin & H). unfold type_has_key in H. cbn [fst snd] in H.
    apply andb_true_iff in H as [Ht H]. apply bool_decide_eq_true in Ht.
    destruct o as [|docs| |]; try done.
    apply existsb_exists in H as (doc & Hdoc & H).
    destruct doc as [items| | |]; try done. cbn [doc_has_key] in H.
    apply existsb_exists in H as (key & Hkey & H). apply bool_decide_eq_true in H.
    exists doc_type, docs, items, key. split_and!; try done.
    + by apply list_elem_of_In.
    + by apply list_elem_of_In.
    + by apply list_elem_of_In.
  - intros (doc_type & docs & items & key & Hin & Ht & Hdoc & Hkey & H).
    exists (doc_type, OList docs). split; [by apply list_elem_of_In|].
    unfold type_has_key. cbn [fst snd]. apply andb_true_iff. split.
    + by apply bool_decide_eq_true.
    + apply existsb_exists. exists (ODict items). split; [by apply list_elem_of_In|].
      cbn [doc_has_key]. apply existsb_exists. exists key.
      split; [by apply list_elem_of_In|]. by apply bool_decide_eq_true.
Qed.

(** ** The scans on the flat dict of the driver *)

Lemma scan_entry keys o :
  no_hint_in_entry keys → value_with_source o →
  (doc_list ← py_iter o; scan_docs keys doc_list) = Some false.
Proof.
  intros [Hv Hs] (v & path & ->).
  cbn [py_iter fmap list_fmap fst mbind option_bind scan_docs]. rewrite Hv.
  cbn [mbind option_bind]. rewrite Hs. done.
Qed.

Lemma scan_all_flat keys flat :
  no_hint_in_entry keys → Forall (fun kv => value_with_source kv.2) flat →
  scan_all keys flat = Some false.
Proof.
  intros Hkeys. induction 1 as [|[key o] flat Ho _ IH]; [done|].
  cbn [scan_all]. cbn [snd] in Ho.
  pose proof (scan_entry keys o Hkeys Ho) as E.
  destruct (py_iter o) as [doc_list|]; [|done]. cbn [mbind option_bind] in E |- *.
  rewrite E. cbn [mbind option_bind]. done.
Qed.

Lemma scan_types_flat doc_types keys flat :
  no_hint_in_entry keys → Forall (fun kv => value_with_source kv.2) flat →
  scan_types doc_types keys flat = Some false.
Proof.
  intros Hkeys. induction 1 as [|[key o] flat Ho _ IH]; [done|].
  cbn [scan_types]. cbn [snd] in Ho.
  destruct (bool_decide (key ∈ doc_types)).
  - rewrite (scan_entry keys o Hkeys Ho). cbn [mbind option_bind]. done.
  - cbn [mbind option_bind]. done.
Qed.

Lemma flat_has_no_dependents_list flat :
  Forall (fun kv => value_with_source kv.2) flat →
  ∀ docs, assoc_get flat "Dependents" ≠ Some (OList docs).
Proof.
  induction 1 as [|[key o] flat (v & path & Ho) _ IH]; [done|].
  intros docs. cbn [assoc_get]. cbn [snd] in Ho. destruct (String.eqb key "Dependents").
  - rewrite Ho. done.
  - apply IH.
Qed.

Section TargetFormsProperties.
Variable str_contains : list (string * pyobj) → string → bool.

(** [determine_target_forms] runs its seven scans one after the other and
    builds the targets from what they found. *)
Lemma determine_target_forms_scans (data : list (string * pyobj)) :
  determine_target_forms str_contains data
  = (let present doc_type := bool_decide (doc_type ∈ data.*1) in
     c ← (if present "Profit and Loss Statement" || present "Invoice" || present "Receipt"
             || present "1099-NEC"
          then scan_types ["Profit and Loss Statement"; "Invoice"; "Receipt"; "1099-NEC"]
                 sched_c_indicator_keys data
          else Some false);
     e ← (if present "Cash Flow Statement" || present "Profit and Loss Statement"
          then scan_types ["Cash Flow Statement"; "Profit and Loss Statement"]
                 sched_e_indicator_keys data
          else Some false);
     s1 ← scan_all schedule_1_indicator_keys data;
     s2 ← scan_all schedule_2_indicator_keys data;
     s3 ← scan_all schedule_3_indicator_keys data;
     f ← scan_all form_2441_indicator_keys data;
     a ← scan_all schedule_a_indicator_keys data;
     Some (targets_of c e s1 s2 s3 f (has_dependents str_contains data) a)).
Proof. reflexivity. Qed.

Lemma determine_target_forms_flags (data : list (string * pyobj)) (targets : list string) :
  determine_target_forms str_contains data = Some targets →
  ∃ c e s1 s2 s3 f d a : bool, targets = targets_of c e s1 s2 s3 f d a.
Proof.
  rewrite determine_target_forms_scans. cbv beta zeta.
  match goal with
  | |- context [if ?b then scan_types ?t sched_c_indicator_keys data else Some false] =>
      destruct (if b then scan_types t sched_c_indicator_keys data else Some false) as [c|]
  end; [|done].
  match goal with
  | |- context [if ?b then scan_types ?t sched_e_indicator_keys data else Some false] =>
      destruct (if b then scan_types t sched_e_indicator_keys data else Some false) as [e|]
  end; [|done].
  destruct (scan_all schedule_1_indicator_keys data) as [s1|]; [|done].
  destruct (scan_all schedule_2_indicator_keys data) as [s2|]; [|done].
  destruct (scan_all schedule_3_indicator_keys data) as [s3|]; [|done].
  destruct (scan_all form_2441_indicator_keys data) as [f|]; [|done].
  destruct (scan_all schedule_a_indicator_keys data) as [a|]; [|done].
  cbn [mbind option_bind]. intros [= <-]. by eexists _, _, _, _, _, _, _, _.
Qed.
End TargetFormsProperties.

Lemma targets_of_closed (c e s1 s2 s3 f d a : bool) :
  let targets := targets_of c e s1 s2 s3 f d a in
  "1040" ∈ targets ∧
  Sorted str_le targets ∧ NoDup targets ∧
  Forall (fun form => form ∈ PROCESSING_ORDER) targets ∧
  ("SchedC" ∈ targets ↔ "1040-SE" ∈ targets) ∧
  ("SchedC" ∈ targets → "Schedule 1" ∈ targets ∧ "Schedule 2" ∈ targets) ∧
  ("SchedE" ∈ targets → "Schedule 1" ∈ targets).
Proof.
  cbv zeta. destruct c, e, s1, s2, s3, f, d, a; apply (bool_decide_unpack _); by vm_compute.
Qed.

(** X15.  Whatever data [determine_target_forms] is given, when it
    returns: Form 1040 is among the targets; the targets are sorted, without
    repetition, and all listed in [PROCESSING_ORDER]; Schedule C and
    Schedule SE are selected together; Schedule C brings Schedule 1 and
    Schedule 2 with it, and Schedule E brings Schedule 1. *)
Theorem targets_come_with_their_dependents
    (str_contains : list (string * pyobj) → string → bool)
    (data : list (string * pyobj)) (targets : list string) :
  determine_target_forms str_contains data = Some targets →
  "1040" ∈ targets ∧
  Sorted str_le targets ∧ NoDup targets ∧
  Forall (fun form => form ∈ PROCESSING_ORDER) targets ∧
  ("SchedC" ∈ targets ↔ "1040-SE" ∈ targets) ∧
  ("SchedC" ∈ targets → "Schedule 1" ∈ targets ∧ "Schedule 2" ∈ targets) ∧
  ("SchedE" ∈ targets → "Schedule 1" ∈ targets).
Proof.
  intros (c & e & s1 & s2 & s3 & f & d & a & ->)%determine_target_forms_flags.
  apply targets_of_closed.
Qed.

Lemma targets_come_with_their_dependents_witness :
  "SchedC" ∈ ["1040"; "1040-SE"; "SchedC"; "Schedule 1"; "Schedule 2"] ↔
  "1040-SE" ∈ ["1040"; "1040-SE"; "SchedC"; "Schedule 1"; "Schedule 2"].
Proof.
  apply (targets_come_with_their_dependents (fun _ _ => false) invoices_example
           ["1040"; "1040-SE"; "SchedC"; "Schedule 1"; "Schedule 2"]).
  by vm_compute.
Defined.

(** ** Data of the declared type *)

Lemma sched_c_scan_typed (data : list (string * pyobj)) :
  Forall (fun kv => list_of_dicts kv.2) data →
  (if bool_decide ("Profit and Loss Statement" ∈ data.*1)
      || bool_decide ("Invoice" ∈ data.*1) || bool_decide ("Receipt" ∈ data.*1)
      || bool_decide ("1099-NEC" ∈ data.*1)
   then scan_types ["Profit and Loss Statement"; "Invoice"; "Receipt"; "1099-NEC"]
          sched_c_indicator_keys data
   else Some false)
  = Some (existsb (type_has_key ["Profit and Loss Statement"; "Invoice"; "Receipt"; "1099-NEC"]
                     sched_c_indicator_keys) data).
Proof.
  intros Htyped. rewrite (scan_types_typed _ _ _ Htyped).
  destruct (_ || _ || _ || _) eqn:Hguard; [done|]. f_equal. symmetry.
  apply not_true_is_false. intros ([doc_type o] & Hin & H)%existsb_exists.
  unfold type_has_key in H. cbn [fst snd] in H. apply andb_true_iff in H as [Ht _].
  apply bool_decide_eq_true in Ht. apply list_elem_of_In in Hin.
  assert (doc_type ∈ data.*1) as Hkey.
  { apply list_elem_of_fmap. by exists (doc_type, o). }
  repeat (apply orb_false_iff in Hguard as [Hguard ?]).
  repeat match goal with
         | H : bool_decide _ = false |- _ => apply bool_decide_eq_false in H
         end.
  repeat (apply elem_of_cons in Ht as [->|Ht]; [done|]). by apply elem_of_nil in Ht.
Qed.

Lemma targets_of_sched_c (c e s1 s2 s3 f d a : bool) :
  "SchedC" ∈ targets_of c e s1 s2 s3 f d a ↔ c = true.
Proof.
  destruct c, e, s1, s2, s3, f, d, a; apply (bool_decide_unpack _); by vm_compute.
Qed.

(** X16.  On data of the declared type, a dict of lists of dicts,
    [determine_target_forms] returns, and Schedule C is among the targets
    exactly when a document filed under Profit and Loss Statement, Invoice,
    Receipt or 1099-NEC has one of the eleven indicator keys; the same
    keys in a document of another type, a W-2 say, do not select it. *)
Theorem schedule_c_needs_a_hinting_document
    (str_contains : list (string * pyobj) → string → bool) (data : list (string * pyobj)) :
  Forall (fun kv => list_of_dicts kv.2) data →
  ∃ targets : list string,
    determine_target_forms str_contains data = Some targets ∧
    ("SchedC" ∈ targets ↔ sched_c_hint data).
Proof.
  intros Htyped. rewrite determine_target_forms_scans. cbv beta zeta.
  rewrite (sched_c_scan_typed data Htyped). cbn [mbind option_bind].
  match goal with
  | |- context [if ?b then scan_types ?t sched_e_indicator_keys data else Some false] =>
      assert (is_Some (if b then scan_types t sched_e_indicator_keys data else Some false))
        as [e ->]
  end.
  { destruct (_ || _); [|by eexists]. rewrite (scan_types_typed _ _ _ Htyped). by eexists. }
  destruct (scan_all_typed schedule_1_indicator_keys data Htyped) as [s1 ->].
  destruct (scan_all_typed schedule_2_indicator_keys data Htyped) as [s2 ->].
  destruct (scan_all_typed schedule_3_indicator_keys data Htyped) as [s3 ->].
  destruct (scan_all_typed form_2441_indicator_keys data Htyped) as [f ->].
  destruct (scan_all_typed schedule_a_indicator_keys data Htyped) as [a ->].
  cbn [mbind option_bind]. eexists. split; [reflexivity|].
  rewrite targets_of_sched_c. unfold sched_c_hint. apply scan_types_hint.
Qed.

Lemma schedule_c_needs_a_hinting_document_witness :
  ∃ targets : list string,
    determine_target_forms (fun _ _ => false) invoices_example = Some targets ∧
    ("SchedC" ∈ targets ↔ sched_c_hint invoices_example).
Proof.
  apply (schedule_c_needs_a_hinting_document (fun _ _ => false) invoices_example).
  repeat (apply Forall_cons; split;
          [eexists; split; [reflexivity|];
           repeat (apply Forall_cons; split; [by eexists|]); by apply Forall_nil|]).
  by apply Forall_nil.
Defined.

(** ** The flat dict of the driver *)

Lemma indicator_keys_no_hint_in_entry :
  Forall no_hint_in_entry
    [sched_c_indicator_keys; sched_e_indicator_keys; schedule_1_indicator_keys;
     schedule_2_indicator_keys; schedule_3_indicator_keys; form_2441_indicator_keys;
     schedule_a_indicator_keys].
Proof. repeat (apply Forall_cons; split; [by split; vm_compute|]). by apply Forall_nil. Qed.

(** X17.  The driver hands [determine_target_forms] a flat dict whose
    values are [{"value": v, "source": path}] entries.  On such a dict no
    scan finds a hint, whatever keys it has: the function returns Form 1040
    alone, or with Form 8812 when the printed dict mentions a dependent
    name or number.  With the driver's own addition of Schedule E for a
    Cash Flow Statement, the processing list holds at most Schedule E, Form
    8812 and Form 1040, in this order: no other form is processed. *)
Theorem flat_data_selects_form_1040
    (str_contains : list (string * pyobj) → string → bool)
    (temp_flat_aggregated : list (string * pyobj)) (has_cash_flow_statement : bool) :
  Forall (fun kv => value_with_source kv.2) temp_flat_aggregated →
  let dependents :=
    str_contains temp_flat_aggregated "DependentName"
    || str_contains temp_flat_aggregated "DependentSSN" in
  determine_target_forms str_contains temp_flat_aggregated
  = Some (if dependents then ["1040"; "Form 8812"] else ["1040"]) ∧
  flow_processing_list str_contains has_cash_flow_statement temp_flat_aggregated
  = Some ((if has_cash_flow_statement then ["SchedE"] else [])
          ++ (if dependents then ["Form 8812"] else []) ++ ["1040"])%list.
Proof.
  intros Hflat dependents.
  pose proof indicator_keys_no_hint_in_entry as Hkeys.
  repeat match type of Hkeys with
         | Forall _ (_ :: _) => apply Forall_cons in Hkeys as [? Hkeys]
         end.
  assert (determine_target_forms str_contains temp_flat_aggregated
          = Some (targets_of false false false false false false dependents false)) as E.
  { rewrite determine_target_forms_scans. cbv beta zeta.
    rewrite !scan_types_flat, !scan_all_flat by done.
    assert (has_dependents str_contains temp_flat_aggregated = dependents) as ->.
    { unfold has_dependents.
      pose proof (flat_has_no_dependents_list temp_flat_aggregated Hflat) as Hno.
      destruct (assoc_get temp_flat_aggregated "Dependents") as [[|[|]| |]|]; try done.
      by destruct (Hno (p :: l)). }
    by repeat match goal with |- context [if ?b then Some false else Some false] =>
                destruct b end. }
  unfold flow_processing_list, flow_target_forms. rewrite E. cbn [mbind option_bind fmap option_fmap option_map].
  destruct dependents, has_cash_flow_statement; split; by vm_compute.
Qed.

Lemma flat_data_selects_form_1040_witness :
  determine_target_forms (fun _ _ => false) flat_example = Some ["1040"] ∧
  flow_processing_list (fun _ _ => false) true flat_example = Some ["SchedE"; "1040"].
Proof.
  apply (flat_data_selects_form_1040 (fun _ _ => false) flat_example true).
  repeat (apply Forall_cons; split; [by eexists _, _|]). by apply Forall_nil.
Defined.

(** ** Form 1040 comes last *)

Lemma flow_order_of_targets (c e s1 s2 s3 f d a cash : bool) :
  let target_forms := targets_of c e s1 s2 s3 f d a in
  let order :=
    ordered_target_forms
      (if cash && negb (bool_decide ("SchedE" ∈ target_forms))
       then (target_forms ++ ["SchedE"])%list else target_forms) in
  last order = Some "1040" ∧ NoDup order ∧
  order = filter (fun form => form ∈ order) PROCESSING_ORDER.
Proof.
  cbv zeta. destruct c, e, s1, s2, s3, f, d, a, cash;
    apply (bool_decide_unpack _); by vm_compute.
Qed.

(** X18.  Whatever the data, when the target forms are determined the
    driver's processing list is [PROCESSING_ORDER] restricted to the forms
    it processes: every form is processed once, in table order, and Form
    1040 is processed last. *)
Theorem form_1040_is_processed_last
    (str_contains : list (string * pyobj) → string → bool)
    (has_cash_flow_statement : bool) (temp_flat_aggregated : list (string * pyobj))
    (order : list string) :
  flow_processing_list str_contains has_cash_flow_statement temp_flat_aggregated = Some order →
  last order = Some "1040" ∧ NoDup order ∧
  order = filter (fun form => form ∈ order) PROCESSING_ORDER.
Proof.
  unfold flow_processing_list, flow_target_forms.
  destruct (determine_target_forms str_contains temp_flat_aggregated) as [targets|] eqn:E;
    [|done].
  apply determine_target_forms_flags in E as (c & e & s1 & s2 & s3 & f & d & a & ->).
  cbn [mbind option_bind fmap option_fmap option_map]. intros [= <-].
  apply flow_order_of_targets.
Qed.

Lemma form_1040_is_processed_last_witness :
  last ["SchedC"; "1040-SE"; "Schedule 1"; "Schedule 2"; "1040"] = Some "1040" ∧
  NoDup ["SchedC"; "1040-SE"; "Schedule 1"; "Schedule 2"; "1040"] ∧
  ["SchedC"; "1040-SE"; "Schedule 1"; "Schedule 2"; "1040"]
  = filter (fun form => form ∈ ["SchedC"; "1040-SE"; "Schedule 1"; "Schedule 2"; "1040"])
      PROCESSING_ORDER.
Proof.
  apply (form_1040_is_processed_last (fun _ _ => false) false invoices_example).
  by vm_compute.
Defined.

(** * Properties of the status of a run *)




